(** * InterMol scripts: fixed-column PDB and AMBER .crd input/output

    A shallow embedding of [packmoltools/resolvate.py] (the PDB atom-record
    reader and writer, the AMBER .crd reader and writer, and the top-level
    resolvation script) and of the tool-invocation part of
    [testing/gromacs_energies.py].

    Conventions of the embedding.
    - A Python 2 [str] is a list of characters ([list ascii]); file names
      are [string]s, used as keys of the file-system map.
    - A Python [int] is a [Z].
    - A Python [float] is modelled by the number it denotes: a rational
      ([Q]), or an infinity, or a NaN.  The rounding of a decimal literal to
      the nearest binary64 value is not modelled; a float that was written
      with [k] decimals and read back is identified with that decimal.
    - Exceptions are values of [exn]; a computation that can raise returns
      a [result].
    - Code that writes files or mutates the caller's objects runs in the
      monad [M] over a [world]: the files, the heap of atom dictionaries
      and the heap of coordinate lists. *)

From Stdlib Require Import ZArith QArith Ascii String List Lia Bool.
From stdpp Require Import base tactics option list gmap strings.

Local Open Scope Z_scope.

(** ** Python strings *)

Abbreviation str := (list ascii).

Definition lit (s : string) : str := list_ascii_of_string s.

Definition newline : ascii := "010"%char.

(** [isspace] of the C locale, as used by [str.strip], [str.split],
    [int] and [float]: space, \t, \n, \v, \f, \r. *)
Definition isspace (c : ascii) : bool :=
  let n := N_of_ascii c in
  (n =? 32)%N || ((9 <=? n)%N && (n <=? 13)%N).

Definition isdigit (c : ascii) : bool :=
  let n := N_of_ascii c in (48 <=? n)%N && (n <=? 57)%N.

Definition digit_val (c : ascii) : Z := Z.of_N (N_of_ascii c) - 48.

Definition digit_char (d : Z) : ascii := ascii_of_N (Z.to_N (d + 48)).

Definition ascii_eqb (a b : ascii) : bool := Ascii.eqb a b.

Definition str_eqb (s t : str) : bool := bool_decide (s = t).

(** Bounds of a slice [l[i:j]]: a negative index counts from the end, and
    both ends are clamped to the length. *)
Definition slice_bound (len i : Z) : Z :=
  if i <? 0 then Z.max 0 (i + len) else Z.min i len.

Definition py_slice {A : Type} (l : list A) (i j : Z) : list A :=
  let len := Z.of_nat (length l) in
  let a := slice_bound len i in
  let b := slice_bound len j in
  take (Z.to_nat (b - a)) (drop (Z.to_nat a) l).

Fixpoint lstrip (s : str) : str :=
  match s with
  | c :: r => if isspace c then lstrip r else s
  | [] => []
  end.

Definition rstrip (s : str) : str := rev (lstrip (rev s)).

(** [s.strip()] *)
Definition strip (s : str) : str := rstrip (lstrip s).

Fixpoint lstrip_chars (chars : str) (s : str) : str :=
  match s with
  | c :: r => if bool_decide (c ∈ chars) then lstrip_chars chars r else s
  | [] => []
  end.

(** [s.rstrip(chars)] *)
Definition rstrip_chars (chars : str) (s : str) : str :=
  rev (lstrip_chars chars (rev s)).

(** [s.split()]: the maximal runs of non-blank characters. *)
Fixpoint split_go (s : str) (cur : str) : list str :=
  match s with
  | [] => match cur with [] => [] | _ => [rev cur] end
  | c :: r =>
      if isspace c
      then match cur with [] => split_go r [] | _ => rev cur :: split_go r [] end
      else split_go r (c :: cur)
  end.

Definition split (s : str) : list str := split_go s [].

(** [f.readlines()]: the lines of a file, each with its terminating
    newline; the last line has none when the file does not end with one. *)
Fixpoint readlines (s : str) : list str :=
  match s with
  | [] => []
  | c :: r =>
      if ascii_eqb c newline then [c] :: readlines r
      else match readlines r with
           | [] => [[c]]
           | l :: ls => (c :: l) :: ls
           end
  end.

(** Left padding with blanks to a minimal width ([%5d], [%4s], [%8.3f]). *)
Definition pad_left (w : nat) (s : str) : str :=
  replicate (w - length s)%nat " "%char ++ s.

(** ** Integers: [%d] and [int()] *)

Fixpoint digits_go (fuel : nat) (n : Z) (acc : str) : str :=
  match fuel with
  | O => acc
  | S f =>
      let acc' := digit_char (n mod 10) :: acc in
      if n / 10 =? 0 then acc' else digits_go f (n / 10) acc'
  end.

(** Decimal digits of a natural number, most significant first. *)
Definition digits (n : Z) : str :=
  digits_go (S (Z.to_nat (Z.log2 n))) n [].

Definition digits_val (ds : str) : Z :=
  fold_left (fun acc c => 10 * acc + digit_val c) ds 0.

Definition all_digits (ds : str) : bool := forallb isdigit ds.

Definition fmt_int (n : Z) : str :=
  if n <? 0 then "-"%char :: digits (- n) else digits n.

(** [%<w>d] *)
Definition fmt_d (w : nat) (n : Z) : str := pad_left w (fmt_int n).

(** [%<w>s] *)
Definition fmt_s (w : nat) (s : str) : str := pad_left w s.

(** An optional sign; [true] is minus. *)
Definition take_sign (s : str) : bool * str :=
  match s with
  | c :: r =>
      if ascii_eqb c "-" then (true, r)
      else if ascii_eqb c "+" then (false, r) else (false, s)
  | [] => (false, [])
  end.

(** [int(s)] of CPython 2 on a [str], base 10: blanks, an optional sign,
    blanks again (CPython 2 skips them; CPython 3 does not), at least one
    digit, blanks.  [None] stands for the [ValueError]. *)
Definition py_int (s : str) : option Z :=
  let '(neg, r) := take_sign (lstrip s) in
  let ds := rstrip (lstrip r) in
  if all_digits ds && negb (bool_decide (ds = []))
  then Some (if neg then - digits_val ds else digits_val ds)
  else None.

(** ** Floats: [%w.pf] and [float()] *)

Inductive pyfloat : Type :=
  | PFin (q : Q)
  | PInf (neg : bool)
  | PNaN.

(** Python's [==] on floats: numeric equality, and a NaN equals nothing. *)
Definition float_eq (a b : pyfloat) : Prop :=
  match a, b with
  | PFin p, PFin q => Qeq p q
  | PInf s, PInf t => s = t
  | _, _ => False
  end.

Definition lower (c : ascii) : ascii :=
  let n := N_of_ascii c in
  if (65 <=? n)%N && (n <=? 90)%N then ascii_of_N (n + 32) else c.

(** The longest prefix of digits, and the rest. *)
Fixpoint span_digits (s : str) : str * str :=
  match s with
  | c :: r =>
      if isdigit c then let '(ds, rest) := span_digits r in (c :: ds, rest)
      else ([], s)
  | [] => ([], [])
  end.

(** The number [(-1)^neg * mant * 10^e]. *)
Definition dec_value (neg : bool) (mant : Z) (e : Z) : Q :=
  let m := if neg then - mant else mant in
  if 0 <=? e then inject_Z (m * 10 ^ e) else Qmake m (Z.to_pos (10 ^ (- e))).

(** [float(s)] of CPython 2.7 on a [str]: surrounding blanks, an optional
    sign, then [inf], [infinity] or [nan] in any case, or a decimal number
    [digits [. [digits]]] or [. digits] with an optional exponent.
    [None] stands for the [ValueError]. *)
Definition py_float (s : str) : option pyfloat :=
  let '(neg, u) := take_sign (strip s) in
  let lu := map lower u in
  if str_eqb lu (lit "inf") || str_eqb lu (lit "infinity") then Some (PInf neg)
  else if str_eqb lu (lit "nan") then Some PNaN
  else
    let '(ip, r1) := span_digits u in
    let '(fp, r2) :=
      match r1 with
      | c :: r => if ascii_eqb c "." then span_digits r else ([], r1)
      | [] => ([], r1)
      end in
    if bool_decide (ip = []) && bool_decide (fp = []) then None
    else
      let mant := digits_val (ip ++ fp) in
      let scale := Z.of_nat (length fp) in
      match r2 with
      | [] => Some (PFin (dec_value neg mant (- scale)))
      | c :: r3 =>
          if ascii_eqb (lower c) "e" then
            let '(eneg, ds) := take_sign r3 in
            if all_digits ds && negb (bool_decide (ds = []))
            then
              let e := if eneg then - digits_val ds else digits_val ds in
              Some (PFin (dec_value neg mant (e - scale)))
            else None
          else None
      end.

(** [a / b] rounded to the nearest integer, ties to even ([0 <= a], [0 < b]). *)
Definition round_half_even (a b : Z) : Z :=
  let fl := a / b in
  let r := a mod b in
  if 2 * r <? b then fl
  else if b <? 2 * r then fl + 1
  else if Z.even fl then fl else fl + 1.

(** The digits of [%.pf] for a finite value, without padding: the value is
    rounded to [p] decimals. *)
Definition fmt_fixed (p : nat) (q : Q) : str :=
  let neg := Qnum q <? 0 in
  let m := round_half_even (Z.abs (Qnum q) * 10 ^ Z.of_nat p) (Zpos (Qden q)) in
  let ds := digits m in
  let zs := replicate (S p - length ds)%nat "0"%char ++ ds in
  let ip := take (length zs - p)%nat zs in
  let fp := drop (length zs - p)%nat zs in
  (if neg then ["-"%char] else []) ++ ip ++
  (match p with O => [] | S _ => "."%char :: fp end).

(** [%<w>.<p>f] (for magnitudes below 1e50, where CPython 2 keeps the
    fixed notation). *)
Definition fmt_f (w p : nat) (v : pyfloat) : str :=
  pad_left w
    match v with
    | PFin q => fmt_fixed p q
    | PInf neg => (if neg then ["-"%char] else []) ++ lit "inf"
    | PNaN => lit "nan"
    end.

(** ** Exceptions *)

Inductive exn : Type :=
  | ValueError
  | IndexError
  | TypeError
  | IOError
  | NameError (name : string)
  | UnboundLocalError (name : string)
  | Exception (msg : str).

Inductive result (A : Type) : Type :=
  | Ok (a : A)
  | Err (e : exn).
Arguments Ok {A} a.
Arguments Err {A} e.

#[global] Instance result_ret : MRet result := fun A a => Ok a.
#[global] Instance result_bind : MBind result := fun A B f m =>
  match m with Ok a => f a | Err e => Err e end.

(** A conversion that raises [ValueError] on failure. *)
Definition or_value_error {A : Type} (o : option A) : result A :=
  match o with Some a => Ok a | None => Err ValueError end.

Definition int_of (s : str) : result Z := or_value_error (py_int s).
Definition float_of (s : str) : result pyfloat := or_value_error (py_float s).

(** ** Atom records *)

(** The dictionary built by [readAtomsFromPDB] for one ATOM line. *)
Record atom : Type := Atom {
  serial : Z;
  name : str;
  altLoc : str;
  resName : str;
  chainID : str;
  resSeq : Z;
  iCode : str;
  x : pyfloat;
  y : pyfloat;
  z : pyfloat;
  occupancy : pyfloat;
  tempFactor : pyfloat;
  segID : str;
  element : str;
  charge : str
}.

Definition one : pyfloat := PFin 1%Q.
Definition zero : pyfloat := PFin 0%Q.

Definition is_atom_line (line : str) : bool :=
  str_eqb (py_slice line 0 6) (lit "ATOM  ").

(** ** getPresentSequence *)

(** The fields [getPresentSequence] parses from an ATOM line. *)
Record seq_field : Type := SeqField {
  f_serial : Z;
  f_name : str;
  f_altLoc : str;
  f_resName : str;
  f_chainID : str;
  f_resSeq : Z;
  f_iCode : str
}.

Definition parse_seq_field (line : str) : result seq_field :=
  s ← int_of (py_slice line 6 11);
  r ← int_of (py_slice line 22 26);
  mret {| f_serial := s;
          f_name := py_slice line 12 16;
          f_altLoc := py_slice line 16 17;
          f_resName := py_slice line 17 20;
          f_chainID := py_slice line 21 22;
          f_resSeq := r;
          f_iCode := py_slice line 26 27 |}.

(** The loop over the lines, with its two variables [sequence] and
    [last_resSeq] ([None] before the first residue of the chain). *)
Fixpoint present_loop (chain : str) (lines : list str)
    (sequence : list str) (last_resSeq : option Z) : result (list str) :=
  match lines with
  | [] => mret sequence
  | line :: rest =>
      if is_atom_line line then
        field ← parse_seq_field line;
        if str_eqb chain (f_chainID field) then
          if negb (bool_decide (Some (f_resSeq field) = last_resSeq)) then
            present_loop chain rest (sequence ++ [f_resName field])
                         (Some (f_resSeq field))
          else present_loop chain rest sequence last_resSeq
        else present_loop chain rest sequence last_resSeq
      else present_loop chain rest sequence last_resSeq
  end.

(** The body of [getPresentSequence] on the text of the file. *)
Definition present_sequence (text : str) (chain : str) : result (list str) :=
  present_loop chain (readlines text) [] None.

(** ** readAtomsFromPDB *)

Definition parse_atom (line : str) : result atom :=
  a_serial ← int_of (py_slice line 6 11);
  a_resSeq ← int_of (py_slice line 22 26);
  a_x ← float_of (py_slice line 30 38);
  a_y ← float_of (py_slice line 38 46);
  a_z ← float_of (py_slice line 46 54);
  a_occ ← (if negb (str_eqb (strip (py_slice line 54 60)) [])
           then float_of (py_slice line 54 60) else mret one);
  a_temp ← (if negb (str_eqb (strip (py_slice line 60 66)) [])
            then float_of (py_slice line 60 66) else mret zero);
  mret {| serial := a_serial;
          name := py_slice line 12 16;
          altLoc := py_slice line 16 17;
          resName := py_slice line 17 20;
          chainID := py_slice line 21 22;
          resSeq := a_resSeq;
          iCode := py_slice line 26 27;
          x := a_x; y := a_y; z := a_z;
          occupancy := a_occ;
          tempFactor := a_temp;
          segID := py_slice line 72 76;
          element := py_slice line 76 78;
          charge := py_slice line 78 80 |}.

Fixpoint read_atoms_loop (lines : list str) (atoms : list atom)
    : result (list atom) :=
  match lines with
  | [] => mret atoms
  | line :: rest =>
      if is_atom_line line then
        a ← parse_atom line;
        read_atoms_loop rest (atoms ++ [a])
      else read_atoms_loop rest atoms
  end.

(** The body of [readAtomsFromPDB] on the text of the file. *)
Definition read_atoms (text : str) : result (list atom) :=
  read_atoms_loop (readlines text) [].

(** ** The world: files and mutable objects *)

Definition loc := positive.

(** An external command: an argument vector ([subprocess.call(cmd)]) or a
    line for the shell ([commands.getoutput], [shell=True]). *)
Inductive command : Type :=
  | Argv (args : list str)
  | Shell (line : str).

Record world : Type := World {
  files : gmap string str;          (* file name -> content *)
  dicts : gmap loc atom;            (* the atom dictionaries *)
  lists : gmap loc (list pyfloat);  (* the lists of floats *)
  calls : list command              (* the external commands run so far *)
}.

Definition set_files (fs : gmap string str) (w : world) : world :=
  World fs (dicts w) (lists w) (calls w).
Definition set_dicts (ds : gmap loc atom) (w : world) : world :=
  World (files w) ds (lists w) (calls w).
Definition set_lists (ls : gmap loc (list pyfloat)) (w : world) : world :=
  World (files w) (dicts w) ls (calls w).

Definition M (A : Type) : Type := world -> result A * world.

#[global] Instance M_ret : MRet M := fun A a w => (Ok a, w).
#[global] Instance M_bind : MBind M := fun A B f m w =>
  match m w with
  | (Ok a, w') => f a w'
  | (Err e, w') => (Err e, w')
  end.

Definition raise {A : Type} (e : exn) : M A := fun w => (Err e, w).

Definition lift {A : Type} (r : result A) : M A := fun w => (r, w).

(** A reference to no object cannot occur in Python; the model raises
    [Exception] with this message there to stay total. *)
Definition dangling : exn := Exception (lit "dangling reference").

(** [open(name, 'r').readlines()] starts from the content of the file. *)
Definition open_r (fname : string) : M str := fun w =>
  match files w !! fname with
  | Some text => (Ok text, w)
  | None => (Err IOError, w)
  end.

(** [open(name, 'w')] creates the file or truncates it. *)
Definition open_w (fname : string) : M unit := fun w =>
  (Ok tt, set_files (<[fname := []]> (files w)) w).

(** [f.write(s)] on a file opened for writing appends [s]. *)
Definition write (fname : string) (s : str) : M unit := fun w =>
  (Ok tt, set_files (<[fname := default [] (files w !! fname) ++ s]> (files w)) w).

Definition get_dict (l : loc) : M atom := fun w =>
  match dicts w !! l with
  | Some a => (Ok a, w)
  | None => (Err dangling, w)
  end.

Definition put_dict (l : loc) (a : atom) : M unit := fun w =>
  (Ok tt, set_dicts (<[l := a]> (dicts w)) w).

Definition get_list (l : loc) : M (list pyfloat) := fun w =>
  match lists w !! l with
  | Some v => (Ok v, w)
  | None => (Err dangling, w)
  end.

Definition put_list (l : loc) (v : list pyfloat) : M unit := fun w =>
  (Ok tt, set_lists (<[l := v]> (lists w)) w).

(** A new dictionary object. *)
Definition new_dict (a : atom) : M loc := fun w =>
  let l := fresh (dom (dicts w)) in
  (Ok l, set_dicts (<[l := a]> (dicts w)) w).

(** A new list object. *)
Definition new_list (v : list pyfloat) : M loc := fun w =>
  let l := fresh (dom (lists w)) in
  (Ok l, set_lists (<[l := v]> (lists w)) w).

Definition getPresentSequence (pdbfilename : string) (chain : str)
    : M (list str) :=
  text ← open_r pdbfilename;
  lift (present_sequence text chain).

Definition readAtomsFromPDB (pdbfilename : string) : M (list atom) :=
  text ← open_r pdbfilename;
  lift (read_atoms text).

(** ** writeAtomsToPDB *)

Definition set_numbers (a : atom) (new_serial new_resSeq : Z) : atom :=
  {| serial := new_serial; name := name a; altLoc := altLoc a;
     resName := resName a; chainID := chainID a; resSeq := new_resSeq;
     iCode := iCode a; x := x a; y := y a; z := z a;
     occupancy := occupancy a; tempFactor := tempFactor a;
     segID := segID a; element := element a; charge := charge a |}.

(** One iteration of the renumbering loop: the new values of [resSeq] and
    [last_resSeq], from the residue number the atom has now. *)
Definition renumber_step (current : Z) (resSeq_ctr : Z) (last_resSeq : option Z)
    : Z * option Z :=
  if negb (bool_decide (Some current = last_resSeq))
  then (resSeq_ctr + 1, Some current)
  else (resSeq_ctr, last_resSeq).

(** [for atom in atoms: ...] of the renumbering pass; [atoms] holds
    references, so an object listed twice is updated twice. *)
Fixpoint renumber_loop (atoms : list loc) (serial_ctr resSeq_ctr : Z)
    (last_resSeq : option Z) : M unit :=
  match atoms with
  | [] => mret tt
  | l :: rest =>
      a ← get_dict l;
      let '(resSeq_ctr', last_resSeq') :=
        renumber_step (resSeq a) resSeq_ctr last_resSeq in
      _ ← put_dict l (set_numbers a serial_ctr resSeq_ctr');
      renumber_loop rest (serial_ctr + 1) resSeq_ctr' last_resSeq'
  end.

Definition renumber_pass (atoms : list loc) : M unit :=
  match atoms with
  | [] => raise IndexError                        (* atoms[0] *)
  | first :: _ =>
      _ ← get_dict first;                         (* first_residue *)
      renumber_loop atoms 1 0 None
  end.

(** [%c] takes a string of exactly one character. *)
Definition fmt_c (s : str) : result str :=
  match s with
  | [c] => Ok [c]
  | _ => Err TypeError
  end.

(** The ATOM line of one record: the format string of [writeAtomsToPDB]
    applied to the dictionary. *)
Definition format_atom (a : atom) : result str :=
  c_alt ← fmt_c (altLoc a);
  c_chain ← fmt_c (chainID a);
  c_icode ← fmt_c (iCode a);
  mret (lit "ATOM  " ++ fmt_d 5 (serial a) ++ lit " " ++ fmt_s 4 (name a) ++
        c_alt ++ fmt_s 3 (resName a) ++ lit " " ++ c_chain ++
        fmt_d 4 (resSeq a) ++ c_icode ++ lit "   " ++
        fmt_f 8 3 (x a) ++ fmt_f 8 3 (y a) ++ fmt_f 8 3 (z a) ++
        fmt_f 6 2 (occupancy a) ++ fmt_f 6 2 (tempFactor a) ++
        fmt_s 2 (element a) ++ fmt_s 2 (charge a) ++ [newline]).

Fixpoint write_atoms_loop (fname : string) (atoms : list loc) : M unit :=
  match atoms with
  | [] => mret tt
  | l :: rest =>
      a ← get_dict l;
      line ← lift (format_atom a);
      _ ← write fname line;
      write_atoms_loop fname rest
  end.

Definition writeAtomsToPDB (pdbfilename : string) (atoms : list loc)
    (renumber : bool) : M unit :=
  _ ← (if renumber then renumber_pass atoms else mret tt);
  _ ← open_w pdbfilename;
  write_atoms_loop pdbfilename atoms.

(** ** readAmberCrd *)

Fixpoint floats_of (tokens : list str) : result (list pyfloat) :=
  match tokens with
  | [] => mret []
  | t :: rest =>
      v ← float_of t;
      vs ← floats_of rest;
      mret (v :: vs)
  end.

(** [for line in lines: for element in line.split(): ...] *)
Fixpoint crd_coordinates (lines : list str) (coordinates : list pyfloat)
    : result (list pyfloat) :=
  match lines with
  | [] => mret coordinates
  | line :: rest =>
      vs ← floats_of (split line);
      crd_coordinates rest (coordinates ++ vs)
  end.

(** The local variables of [readAmberCrd] before its [return]; a local
    that was never assigned is [None]. *)
Record crd_locals : Type := CrdLocals {
  l_title : str;
  l_natoms : Z;
  l_coordinates : list pyfloat;
  l_box_dimensions : option (list pyfloat);
  l_box_angles : option (list pyfloat)
}.

Definition len {A : Type} (l : list A) : Z := Z.of_nat (length l).

(** Title, atom count and the flat sequence of all the values. *)
Definition crd_parse (text : str) : result (str * Z * list pyfloat) :=
  match readlines text with
  | [] => Err IndexError                                    (* lines.pop(0) *)
  | line0 :: lines1 =>
      let title := rstrip_chars (lit " " ++ [newline]) line0 in
      match lines1 with
      | [] => Err IndexError                                (* lines.pop(0) *)
      | line1 :: lines2 =>
          match split line1 with
          | [] => Err IndexError                            (* split()[0] *)
          | tok :: _ =>
              natoms ← int_of tok;
              coordinates ← crd_coordinates lines2 [];
              mret (title, natoms, coordinates)
          end
      end
  end.

(** The two [if] statements and the final slice. *)
Definition crd_boxes (title : str) (natoms : Z) (coordinates : list pyfloat)
    : crd_locals :=
  let box_dimensions :=
    if 3 * natoms + 3 <=? len coordinates
    then Some (py_slice coordinates (3 * natoms) (3 * natoms + 3))
    else None in
  let box_angles :=
    if len coordinates =? 3 * natoms + 6
    then Some (py_slice coordinates (3 * natoms + 3) (3 * natoms + 6))
    else None in
  {| l_title := title;
     l_natoms := natoms;
     l_coordinates := py_slice coordinates 0 (3 * natoms);
     l_box_dimensions := box_dimensions;
     l_box_angles := box_angles |}.

Definition crd_body (text : str) : result crd_locals :=
  '(title, natoms, coordinates) ← crd_parse text;
  mret (crd_boxes title natoms coordinates).

(** Reading a local variable: [UnboundLocalError] when it was never
    assigned. *)
Definition load_local {A : Type} (var : string) (v : option A) : result A :=
  match v with
  | Some a => Ok a
  | None => Err (UnboundLocalError var)
  end.

(** [return (title, natoms, coordinates, box_dimensions, box_angles)] *)
Definition crd_return (ls : crd_locals)
    : result (str * Z * list pyfloat * list pyfloat * list pyfloat) :=
  bd ← load_local "box_dimensions" (l_box_dimensions ls);
  ba ← load_local "box_angles" (l_box_angles ls);
  mret (l_title ls, l_natoms ls, l_coordinates ls, bd, ba).

Definition read_crd (text : str)
    : result (str * Z * list pyfloat * list pyfloat * list pyfloat) :=
  ls ← crd_body text;
  crd_return ls.

Definition readAmberCrd (crd_filename : string)
    : M (str * Z * list pyfloat * list pyfloat * list pyfloat) :=
  text ← open_r crd_filename;
  lift (read_crd text).

(** ** writeAmberCrd *)

(** [target += source] on list objects: the target is extended in place
    with the elements the source holds at that moment. *)
Definition extend (target source : loc) : M unit :=
  vs ← get_list source;
  ts ← get_list target;
  put_list target (ts ++ vs).

(** [if (box): coordinates_to_write += box]; [None] and the empty list
    are false. *)
Definition append_box (target : loc) (box : option loc) : M unit :=
  match box with
  | None => mret tt
  | Some b =>
      vs ← get_list b;
      match vs with
      | [] => mret tt
      | _ => extend target b
      end
  end.

(** The loop that writes the values, six to a line. *)
Fixpoint write_coordinates (fname : string) (cs : list pyfloat)
    (coordinates_this_line : Z) : M unit :=
  match cs with
  | [] => mret tt
  | c :: rest =>
      _ ← write fname (fmt_f 12 7 c);
      let n := coordinates_this_line + 1 in
      if n =? 6 then
        _ ← write fname [newline];
        write_coordinates fname rest 0
      else write_coordinates fname rest n
  end.

(** [ParameterError] is defined nowhere in the module and is no builtin:
    evaluating the name in the [raise] statement raises [NameError]. *)
Definition raise_ParameterError {A : Type} : M A :=
  raise (NameError "ParameterError").

Definition writeAmberCrd (crd_filename : string) (coordinates : loc)
    (title : str) (box_dimensions box_angles : option loc) : M unit :=
  cs ← get_list coordinates;
  if negb (len cs mod 3 =? 0) then raise_ParameterError
  else
    let natoms := len cs / 3 in
    let coordinates_to_write := coordinates in      (* the same object *)
    _ ← append_box coordinates_to_write box_dimensions;
    _ ← append_box coordinates_to_write box_angles;
    _ ← open_w crd_filename;
    _ ← write crd_filename (title ++ [newline]);
    _ ← write crd_filename (fmt_d 6 natoms ++ [newline]);
    to_write ← get_list coordinates_to_write;
    write_coordinates crd_filename to_write 0.

(** ** Paths *)

(** [os.path.join(a, b)] (posix). *)
Definition os_path_join (a b : string) : string :=
  match b with
  | String "/" _ => b
  | _ =>
      match rev (lit a) with
      | [] => b
      | c :: _ => if ascii_eqb c "/" then a +:+ b else a +:+ "/" +:+ b
      end
  end.

Fixpoint lstrip_slashes (s : str) : str :=
  match s with
  | c :: r => if ascii_eqb c "/" then lstrip_slashes r else s
  | [] => []
  end.

Fixpoint drop_to_slash (s : str) : str :=
  match s with
  | c :: r => if ascii_eqb c "/" then s else drop_to_slash r
  | [] => []
  end.

(** [os.path.split(p)[0]] (posix): what precedes the last slash, without
    its trailing slashes unless it consists of slashes only. *)
Definition os_path_dirname (p : string) : string :=
  let head := rev (drop_to_slash (rev (lit p))) in
  match lstrip_slashes head with
  | [] => string_of_list_ascii head
  | _ => string_of_list_ascii (rev (lstrip_slashes (rev head)))
  end.

(** ** External tools and the two workflows *)

Definition packmol : string := "${HOME}/local/src/packmol/src/packmol".

Definition xyz (a : atom) : list pyfloat := [x a; y a; z a].

Definition chain_is (c : string) (a : atom) : bool := str_eqb (chainID a) (lit c).

(** [v / 2.0] *)
Definition half (v : pyfloat) : pyfloat :=
  match v with
  | PFin q => PFin (q / 2)
  | other => other
  end.

(** [%f] *)
Definition fmt_float (v : pyfloat) : str := fmt_f 0 6 v.

(** The title written to the output file. *)
Definition resolvate_title (source_pdb : string) (box_x box_y box_z : pyfloat)
    (nwat : Z) : str :=
  lit "Resolvation of " ++ lit source_pdb ++ lit " in " ++ fmt_float box_x ++
  lit " A x " ++ fmt_float box_y ++ lit " A x " ++ fmt_float box_z ++
  lit " A box by " ++ fmt_int nwat ++ lit " water molecules".

(** The input file of Packmol. *)
Definition packmol_input (date title : str)
    (center_x center_y center_z box_x box_y box_z : pyfloat) (nwat : Z) : str :=
  lit "#
# Generated by resolvate.py on " ++ date ++ lit "
# " ++ title ++ lit "
#

# All atoms from diferent molecules will be at least 'tolerance' A apart at the solution

tolerance 2.0

# The type of the files will be pdb 

filetype pdb

# The name of the output file

output output.pdb

# The protein will be fixed with its center of mass at center of the
# box, and no rotation (the first three zeros correspond to the position
# of the center of mass and the last three correspond to the euler
# angles of rotation, in radian, relative to the position in the input
# file). 

structure source.pdb
  number 1 
  resnumbers 1
  fixed " ++ fmt_float center_x ++ lit " " ++ fmt_float center_y ++ lit " " ++
  fmt_float center_z ++ lit " 0. 0. 0.
  centerofmass
end structure

# Water molecules will be put inside a box that contains the protein and ions.
structure wat.pdb
  number " ++ fmt_int nwat ++ lit "
  resnumbers 0
  inside box 0.0 0.0 0.0 " ++ fmt_float box_x ++ lit " " ++ fmt_float box_y ++
  lit " " ++ fmt_float box_z ++ lit "
end structure

".

(** [shutil.copy(src, dst)] *)
Definition shutil_copy (src dst : string) : M unit :=
  text ← open_r src;
  _ ← open_w dst;
  write dst text.

(** A file of directory [dir]. *)
Definition in_dir (dir : string) (fname : string) : bool :=
  String.prefix (dir +:+ "/") fname.

(** [for filename in os.listdir(tmpdir): os.remove(...)] and
    [os.rmdir(tmpdir)]: the files of the directory are removed (the packer
    is taken to leave no sub-directory there). *)
Definition remove_dir (dir : string) : M unit := fun w =>
  (Ok tt, set_files (filter (fun kv => in_dir dir kv.1 = false) (files w)) w).

Fixpoint new_dicts (atoms : list atom) : M (list loc) :=
  match atoms with
  | [] => mret []
  | a :: rest =>
      l ← new_dict a;
      ls ← new_dicts rest;
      mret (l :: ls)
  end.

(** [" ".join(map(str, range(1, 20))) + " 0 "] *)
Definition genergy_select : str :=
  lit "1 2 3 4 5 6 7 8 9 10 11 12 13 14 15 16 17 18 19 0 ".

Section ExternalTools.

(** The external programs: from a command and the files, the exit
    status, the text printed, and the files afterwards.  The executable
    is taken to exist (the [OSError] of a missing binary is not
    modelled). *)
Variable run : command -> gmap string str -> Z * str * gmap string str.

Definition run_command (c : command) : M (Z * str) := fun w =>
  let '(status, text, fs) := run c (files w) in
  (Ok (status, text), World fs (dicts w) (lists w) (calls w ++ [c])).

(** [commands.getstatusoutput(cmd)] *)
Definition commands_getstatusoutput (cmd : str) : M (Z * str) :=
  run_command (Shell cmd).

(** [commands.getoutput(cmd)] is [getstatusoutput(cmd)[1]]. *)
Definition commands_getoutput (cmd : str) : M str :=
  '(_, text) ← commands_getstatusoutput cmd;
  mret text.

(** [subprocess.call(cmd, stdout=out, stderr=err)] with both files just
    opened for writing. *)
Definition subprocess_call (c : command) (stdout stderr : string) : M Z :=
  _ ← open_w stdout;
  _ ← open_w stderr;
  '(status, _) ← run_command c;
  mret status.

(** *** The script of resolvate.py

    From the creation of the temporary directory (whose name is
    [tmpdir]) to the end; the [print] statements are left out. *)
Definition resolvate (reference_pdb reference_crd source_pdb output_crd
    tmpdir : string) : M unit :=
  reference_sequence ← getPresentSequence reference_pdb (lit " ");
  source_sequence ← getPresentSequence source_pdb (lit " ");
  let nwat := len reference_sequence - len source_sequence in
  '(_, natoms, coordinates, box_dimensions, box_angles) ←
    readAmberCrd reference_crd;
  match box_dimensions with
  | [box_x; box_y; box_z] =>
      let center_x := half box_x in
      let center_y := half box_y in
      let center_z := half box_z in
      date ← commands_getoutput (lit "date");
      let output_pdb := os_path_join tmpdir "output.pdb" in
      atoms ← readAtomsFromPDB reference_pdb;
      let first_water_residue := len source_sequence + 1 in
      let reference_water_residue_atoms :=
        filter (fun a => resSeq a = first_water_residue) atoms in
      let reference_water_pdb := os_path_join tmpdir "wat.pdb" in
      water_refs ← new_dicts reference_water_residue_atoms;
      _ ← writeAtomsToPDB reference_water_pdb water_refs true;
      _ ← shutil_copy source_pdb (os_path_join tmpdir "source.pdb");
      let title := resolvate_title source_pdb box_x box_y box_z nwat in
      let packmol_input_filename := os_path_join tmpdir "packmol.in" in
      _ ← open_w packmol_input_filename;
      _ ← write packmol_input_filename
            (packmol_input date title center_x center_y center_z
                           box_x box_y box_z nwat);
      let command :=
        lit "cd " ++ lit tmpdir ++ lit " ; " ++ lit packmol ++ lit " < " ++
        lit packmol_input_filename in
      output ← commands_getoutput command;
      atoms ← readAtomsFromPDB (os_path_join tmpdir "output.pdb");
      _ ← remove_dir tmpdir;
      let solvent_coordinates := flat_map xyz (filter (chain_is "A") atoms) in
      let solute_coordinates := flat_map xyz (filter (chain_is "B") atoms) in
      coordinates ← new_list (solute_coordinates ++ solvent_coordinates);
      dimensions_ref ← new_list box_dimensions;
      angles_ref ← new_list box_angles;
      writeAmberCrd output_crd coordinates title
                    (Some dimensions_ref) (Some angles_ref)
  | _ => raise ValueError            (* (box_x, box_y, box_z) = ... *)
  end.

(** *** gromacs_energies

    The three tool invocations; what follows them (reading energy.xvg
    into a table of energies) is the parameter [read_energies]. *)
Variable energies : Type.
Variable read_energies : string -> M energies.

Definition failed (tool : string) (top : string) : exn :=
  Exception (lit tool ++ lit " failed for " ++ lit top).

Definition grompp_command (top gro mdp gropath grosuff : string) : command :=
  let directory := os_path_dirname top in
  Argv [lit (os_path_join gropath ("grompp" +:+ grosuff));
        lit "-f"; lit mdp; lit "-c"; lit gro; lit "-p"; lit top;
        lit "-o"; lit (os_path_join directory "topol.tpr");
        lit "-po"; lit (os_path_join directory "mdout.mdp");
        lit "-maxwarn"; lit "1"].

Definition mdrun_command (top gropath grosuff : string) : command :=
  let directory := os_path_dirname top in
  Argv [lit (os_path_join gropath ("mdrun" +:+ grosuff));
        lit "-nt"; lit "1";
        lit "-s"; lit (os_path_join directory "topol.tpr");
        lit "-o"; lit (os_path_join directory "traj.trr");
        lit "-cpo"; lit (os_path_join directory "state.cpt");
        lit "-c"; lit (os_path_join directory "confout.gro");
        lit "-e"; lit (os_path_join directory "ener.edr");
        lit "-g"; lit (os_path_join directory "md.log")].

Definition genergy_command (top gropath grosuff : string) : command :=
  let directory := os_path_dirname top in
  Shell (lit "echo " ++ genergy_select ++ lit " | " ++
         lit (os_path_join gropath ("g_energy" +:+ grosuff)) ++
         lit " -f " ++ lit (os_path_join directory "ener.edr") ++
         lit " -o " ++ lit (os_path_join directory "energy.xvg") ++
         lit " -dp").

Definition gromacs_energies (top gro mdp gropath grosuff : string)
    (grompp_check : bool) : M (option (energies * string)) :=
  let directory := os_path_dirname top in
  let ener_xvg := os_path_join directory "energy.xvg" in
  let stdout := os_path_join directory "gromacs_stdout.txt" in
  let stderr := os_path_join directory "gromacs_stderr.txt" in
  exit ← subprocess_call (grompp_command top gro mdp gropath grosuff)
                         stdout stderr;
  if negb (exit =? 0) then raise (failed "grompp" top)
  else if grompp_check then mret None
  else
    exit ← subprocess_call (mdrun_command top gropath grosuff) stdout stderr;
    if negb (exit =? 0) then raise (failed "mdrun" top)
    else
      exit ← subprocess_call (genergy_command top gropath grosuff)
                             stdout stderr;
      if negb (exit =? 0) then raise (failed "g_energy" top)
      else
        e_out ← read_energies ener_xvg;
        mret (Some (e_out, ener_xvg)).

End ExternalTools.

(** ** Pure counterparts of the loops, used to state the properties *)

(** The text of the coordinate lines as the loop produces it. *)
Fixpoint coordinate_text (cs : list pyfloat) (this_line : Z) : str :=
  match cs with
  | [] => []
  | c :: rest =>
      fmt_f 12 7 c ++
      (if this_line + 1 =? 6 then newline :: coordinate_text rest 0
       else coordinate_text rest (this_line + 1))
  end.


(** The values a box argument contributes: those of the list it refers
    to, none for [None]. *)
Definition box_values (w : world) (box : option loc) : list pyfloat :=
  match box with
  | Some b => default [] (lists w !! b)
  | None => []
  end.

(** The whole text written by [writeAmberCrd]. *)
Definition crd_file_text (title : str) (natoms : Z) (values : list pyfloat)
    : str :=
  title ++ [newline] ++ fmt_d 6 natoms ++ [newline] ++ coordinate_text values 0.

(** A box argument of [writeAmberCrd] that is [None] or refers to a list
    object other than the coordinate list. *)
Definition box_ok (w : world) (target : loc) (box : option loc) : Prop :=
  forall b, box = Some b -> b <> target /\ is_Some (lists w !! b).

(** The renumbering loop on the values of distinct dictionaries. *)
Fixpoint renumber_values (vals : list atom) (serial_ctr resSeq_ctr : Z)
    (last_resSeq : option Z) : list atom :=
  match vals with
  | [] => []
  | a :: rest =>
      let '(resSeq_ctr', last_resSeq') :=
        renumber_step (resSeq a) resSeq_ctr last_resSeq in
      set_numbers a serial_ctr resSeq_ctr' ::
      renumber_values rest (serial_ctr + 1) resSeq_ctr' last_resSeq'
  end.

(** The references [ls] hold the values [vs]. *)
Definition hold (w : world) (ls : list loc) (vs : list atom) : Prop :=
  Forall2 (fun l a => dicts w !! l = Some a) ls vs.

(** Serial numbers 1..N in order. *)
Definition serials_1_to_N (vals : list atom) : Prop :=
  forall (i : nat) a, vals !! i = Some a -> serial a = Z.of_nat i + 1.

(** Residue numbers 1..M, monotonic: every number of 1..M occurs, no
    other does, and they never decrease along the sequence (so that each
    residue is one run). *)
Definition residues_1_to_M (vals : list atom) : Prop :=
  exists M : Z,
    (forall v, v ∈ resSeq <$> vals <-> 1 <= v <= M) /\
    (forall (i : nat) a b,
        vals !! i = Some a -> vals !! S i = Some b -> resSeq a <= resSeq b).

(** The fields of all the ATOM lines of a file, in file order. *)
Fixpoint atom_fields (lines : list str) : result (list seq_field) :=
  match lines with
  | [] => mret []
  | line :: rest =>
      if is_atom_line line then
        f ← parse_seq_field line;
        fs ← atom_fields rest;
        mret (f :: fs)
      else atom_fields rest
  end.

(** The first element of every run of consecutive elements with equal
    keys: an element is kept when it is the first one or when the key of
    the element just before it is different.  [prev] is the key before the
    first element, if any. *)
Definition run_heads_from {A : Type} (key : A -> Z) (prev : option Z)
    (l : list A) : list A :=
  snd <$> filter (fun p => p.1 <> Some (key p.2))
                 (zip (prev :: (Some ∘ key <$> l)) l).

Definition run_heads {A : Type} (key : A -> Z) (l : list A) : list A :=
  run_heads_from key None l.

(** The atom lines of a chain. *)
Definition of_chain (chain : str) (fs : list seq_field) : list seq_field :=
  filter (fun f => chain = f_chainID f) fs.

(** The mandatory numeric columns of an ATOM line -- serial, residue
    number, x, y, z -- all hold a number. *)
Definition mandatory_ok (line : str) : bool :=
  bool_decide (is_Some (py_int (py_slice line 6 11))) &&
  bool_decide (is_Some (py_int (py_slice line 22 26))) &&
  bool_decide (is_Some (py_float (py_slice line 30 38))) &&
  bool_decide (is_Some (py_float (py_slice line 38 46))) &&
  bool_decide (is_Some (py_float (py_slice line 46 54))).

(** Columns [i..j) are blank. *)
Definition blank (line : str) (i j : Z) : Prop :=
  strip (py_slice line i j) = [].

(** An optional numeric column: blank, or a number. *)
Definition optional_ok (line : str) (i j : Z) : Prop :=
  blank line i j \/ is_Some (py_float (py_slice line i j)).

(** The ATOM lines of a file. *)
Definition atom_lines (text : str) : list str :=
  filter (fun line => is_atom_line line = true) (readlines text).

(** A float that [%w.pf] prints exactly: a decimal number with [p] places
    whose text fits the width [w]. *)
Definition exact_decimal (w p : nat) (v : pyfloat) : Prop :=
  exists (q : Q) (k : Z),
    v = PFin q /\
    Qeq q (Qmake k (Z.to_pos (10 ^ Z.of_nat p))) /\
    (length (fmt_fixed p q) <= w)%nat.

Definition no_newline (s : str) : Prop := Forall (fun c => c <> newline) s.

(** The records the fixed columns can hold: every field fills its
    column and no text field holds a newline. *)
Record representable (a : atom) : Prop := Representable {
  rep_serial : (length (fmt_int (serial a)) <= 5)%nat;
  rep_name : length (name a) = 4%nat /\ no_newline (name a);
  rep_altLoc : length (altLoc a) = 1%nat /\ no_newline (altLoc a);
  rep_resName : length (resName a) = 3%nat /\ no_newline (resName a);
  rep_chainID : length (chainID a) = 1%nat /\ no_newline (chainID a);
  rep_resSeq : (length (fmt_int (resSeq a)) <= 4)%nat;
  rep_iCode : length (iCode a) = 1%nat /\ no_newline (iCode a);
  rep_x : exact_decimal 8 3 (x a);
  rep_y : exact_decimal 8 3 (y a);
  rep_z : exact_decimal 8 3 (z a);
  rep_occupancy : exact_decimal 6 2 (occupancy a);
  rep_tempFactor : exact_decimal 6 2 (tempFactor a);
  rep_element : no_newline (element a);
  rep_charge : no_newline (charge a)
}.

(** Two records with the same (serial, name, altLoc, resName, chainID,
    resSeq, iCode, x, y, z, occupancy, tempFactor). *)
Definition same_key (a b : atom) : Prop :=
  serial a = serial b /\ name a = name b /\ altLoc a = altLoc b /\
  resName a = resName b /\ chainID a = chainID b /\ resSeq a = resSeq b /\
  iCode a = iCode b /\
  float_eq (x a) (x b) /\ float_eq (y a) (y b) /\ float_eq (z a) (z b) /\
  float_eq (occupancy a) (occupancy b) /\
  float_eq (tempFactor a) (tempFactor b).

(** The columns of the ATOM line of a record, in order. *)
Definition atom_pieces (a : atom) : list str :=
  [lit "ATOM  "; fmt_d 5 (serial a); lit " "; fmt_s 4 (name a); altLoc a;
   fmt_s 3 (resName a); lit " "; chainID a; fmt_d 4 (resSeq a); iCode a;
   lit "   "; fmt_f 8 3 (x a); fmt_f 8 3 (y a); fmt_f 8 3 (z a);
   fmt_f 6 2 (occupancy a); fmt_f 6 2 (tempFactor a);
   fmt_s 2 (element a); fmt_s 2 (charge a)].

(** The ATOM line of a record without its newline. *)
Definition atom_body (a : atom) : str := concat (atom_pieces a).

(** ** Example data *)

Definition f1 : pyfloat := PFin 1.
Definition f2 : pyfloat := PFin 2.
Definition f3 : pyfloat := PFin 3.

(** A world with four list objects: three coordinates, box dimensions,
    box angles, and a list of two values. *)
Definition ex_lists : world :=
  World ∅ ∅
    (<[1%positive := [f1; f2; f3]]>
       (<[2%positive := [PFin 10; PFin 20; PFin 30]]>
          (<[3%positive := [PFin 90; PFin 90; PFin 90]]>
             (<[4%positive := [f1; f2]]> ∅))))
    [].

(** The spec's FormatError, "a malformed or missing mandatory field while
    parsing": in the code, the [ValueError] that [int()] and [float()]
    raise on a field they cannot convert, and the [IndexError] of a missing
    header line or token. *)
Definition FormatError (e : exn) : Prop := e = ValueError \/ e = IndexError.

(** Flat coordinate files: one atom with 3 values, one atom with 6, one
    atom with 9, and two atoms with 3 values only. *)
Definition ex_crd_3 : str := lit "title
     1
 1 2 3
".
Definition ex_crd_6 : str := lit "title
     1
 1 2 3 10 20 30
".
Definition ex_crd_9 : str := lit "title
     1
 1 2 3 10 20 30
 90 90 90
".
Definition ex_crd_short : str := lit "title
     2
 1 2 3
".

Definition ex_crd_files : world :=
  World (<["a3.crd" := ex_crd_3]> (<["a6.crd" := ex_crd_6]>
           (<["a9.crd" := ex_crd_9]> (<["short.crd" := ex_crd_short]> ∅))))
        ∅ ∅ [].

Definition ex_atom (n : Z) (nm : string) (res : string) (ch : string) (r : Z)
    : atom :=
  {| serial := n; name := lit nm; altLoc := lit " "; resName := lit res;
     chainID := lit ch; resSeq := r; iCode := lit " ";
     x := PFin (1234 # 1000); y := PFin (-5); z := PFin 0;
     occupancy := one; tempFactor := zero;
     segID := lit ""; element := lit " O"; charge := lit "" |}.

(** Three atoms of two residues, numbered from 1, and the same atoms with
    other numbers. *)
Definition ex_numbered : list atom :=
  [ex_atom 1 " O  " "HOH" "A" 1; ex_atom 2 " H1 " "HOH" "A" 1;
   ex_atom 3 " O  " "HOH" "A" 2].
Definition ex_unnumbered : list atom :=
  [ex_atom 7 " O  " "HOH" "A" 12; ex_atom 8 " H1 " "HOH" "A" 12;
   ex_atom 9 " O  " "HOH" "A" 40].

Definition ex_dicts : world :=
  World ∅
    (<[1%positive := ex_atom 1 " O  " "HOH" "A" 1]>
       (<[2%positive := ex_atom 2 " H1 " "HOH" "A" 1]>
          (<[3%positive := ex_atom 3 " O  " "HOH" "A" 2]> ∅)))
    ∅ [].

(** A structure file with five atoms of chain A in residues 1, 1, 2, 2, 3
    and two atoms of chain B in residue 1. *)
Definition ex_pdb : str := lit
"REMARK example
ATOM      1  N   ALA A   1       1.000   2.000   3.000  1.00  0.00
ATOM      2  CA  ALA A   1       1.000   2.000   3.000  1.00  0.00
ATOM      3  N   GLY A   2       1.000   2.000   3.000  1.00  0.00
ATOM      4  CA  GLY A   2       1.000   2.000   3.000  1.00  0.00
ATOM      5  N   SER A   3       1.000   2.000   3.000  1.00  0.00
TER
ATOM      6  O   HOH B   1       1.000   2.000   3.000
ATOM      7  H1  HOH B   1       1.000   2.000   3.000
END
".

Definition ex_pdb_fields : list seq_field :=
  [SeqField 1 (lit " N  ") (lit " ") (lit "ALA") (lit "A") 1 (lit " ");
   SeqField 2 (lit " CA ") (lit " ") (lit "ALA") (lit "A") 1 (lit " ");
   SeqField 3 (lit " N  ") (lit " ") (lit "GLY") (lit "A") 2 (lit " ");
   SeqField 4 (lit " CA ") (lit " ") (lit "GLY") (lit "A") 2 (lit " ");
   SeqField 5 (lit " N  ") (lit " ") (lit "SER") (lit "A") 3 (lit " ");
   SeqField 6 (lit " O  ") (lit " ") (lit "HOH") (lit "B") 1 (lit " ");
   SeqField 7 (lit " H1 ") (lit " ") (lit "HOH") (lit "B") 1 (lit " ")].

Definition ex_pdb_files : world := World (<["ab.pdb" := ex_pdb]> ∅) ∅ ∅ [].

(** A structure file whose second ATOM line has no number in its x
    column. *)
Definition ex_pdb_bad : str := lit
"ATOM      1  N   ALA A   1       1.000   2.000   3.000  1.00  0.00
ATOM      2  CA  ALA A   1        abc    2.000   3.000  1.00  0.00
".

Definition ex_pdb_bad_line : str := lit
"ATOM      2  CA  ALA A   1        abc    2.000   3.000  1.00  0.00
".

(** A structure file with blank occupancy and temperature columns. *)
Definition ex_pdb_blank : str := lit
"ATOM      6  O   HOH B   1       1.000   2.000   3.000
ATOM      7  H1  HOH B   1       1.000   2.000   3.000            
".

Definition ex_pdb_files2 : world :=
  World (<["bad.pdb" := ex_pdb_bad]> (<["blank.pdb" := ex_pdb_blank]> ∅))
        ∅ ∅ [].

(** Files for a run of the resolvation script: a reference structure with
    one solute residue and one water, the solute alone, and a reference
    coordinate file with box dimensions and angles. *)
Definition ex_reference_pdb : str := lit
"ATOM      1  N   ALA     1       1.000   2.000   3.000  1.00  0.00
ATOM      2  O   HOH     2       4.000   5.000   6.000  1.00  0.00
".
Definition ex_source_pdb : str := lit
"ATOM      1  N   ALA     1       1.000   2.000   3.000  1.00  0.00
".
Definition ex_packed_pdb : str := lit
"ATOM      1  N   ALA B   1       5.000   5.000   5.000  1.00  0.00
ATOM      2  O   HOH A   2       7.000   8.000   9.000  1.00  0.00
".

Definition ex_resolvate_world : world :=
  World (<["ref.pdb" := ex_reference_pdb]>
           (<["src.pdb" := ex_source_pdb]> (<["ref.crd" := ex_crd_9]> ∅)))
        ∅ ∅ [].

(** External programs: [date] succeeds; every other command writes
    /tmp/x/output.pdb and then exits with status 1. *)
Definition ex_run (c : command) (fs : gmap string str)
    : Z * str * gmap string str :=
  match c with
  | Shell line =>
      if str_eqb line (lit "date") then (0, lit "today", fs)
      else (1, lit "error", <["/tmp/x/output.pdb" := ex_packed_pdb]> fs)
  | Argv _ => (1, lit "", fs)
  end.

Definition ex_packmol_line : str :=
  lit "cd /tmp/x ; ${HOME}/local/src/packmol/src/packmol < /tmp/x/packmol.in".

(** ** Further definitions used by the properties of the readers *)

(** The ATOM lines parsed one after the other; the first failure is the
    result. *)
Fixpoint parse_all (lines : list str) : result (list atom) :=
  match lines with
  | [] => mret []
  | line :: rest =>
      a ← parse_atom line;
      atoms ← parse_all rest;
      mret (a :: atoms)
  end.

(** The fields [getPresentSequence] reads, taken from an atom record. *)
Definition field_of (a : atom) : seq_field :=
  {| f_serial := serial a; f_name := name a; f_altLoc := altLoc a;
     f_resName := resName a; f_chainID := chainID a; f_resSeq := resSeq a;
     f_iCode := iCode a |}.

(** The atoms of a chain. *)
Definition atoms_of_chain (chain : str) (atoms : list atom) : list atom :=
  filter (fun a => chain = chainID a) atoms.

(** A structure file whose chain B has an ATOM line with no residue
    number. *)
Definition ex_pdb_bad_chain : str := lit
"ATOM      1  N   ALA A   1       1.000   2.000   3.000  1.00  0.00
ATOM      2  O   HOH B           1.000   2.000   3.000  1.00  0.00
".
Definition ex_pdb_bad_chain_line : str := lit
"ATOM      2  O   HOH B           1.000   2.000   3.000  1.00  0.00
".
Definition ex_pdb_files3 : world :=
  World (<["badchain.pdb" := ex_pdb_bad_chain]> ∅) ∅ ∅ [].

(** The atoms of the file with blank columns. *)
Definition ex_blank_atoms : list atom :=
  Eval vm_compute in
    match read_atoms ex_pdb_blank with Ok atoms => atoms | Err _ => [] end.

(** The three one-character codes of a record ([%c] in the format) each
    hold exactly one character. *)
Definition one_char_codes (a : atom) : Prop :=
  length (altLoc a) = 1%nat /\ length (chainID a) = 1%nat /\
  length (iCode a) = 1%nat.

(** Two atoms, the second with an empty chain identifier. *)
Definition ex_bad_code : world :=
  World ∅
    (<[1%positive := ex_atom 1 " O  " "HOH" "A" 1]>
       (<[2%positive := ex_atom 2 " H1 " "HOH" "" 1]> ∅))
    ∅ [].

(** The text after a word: nothing, or something that starts with a
    blank. *)
Definition word_end (t : str) : Prop :=
  match t with [] => True | c :: _ => isspace c = true end.


(** A title that [readAmberCrd] gives back as it is: no newline in it and
    no blank at its end. *)
Definition plain_title (title : str) : Prop :=
  no_newline title /\ last title <> Some " "%char.

(** List objects with a coordinate of 1000.0, whose text fills all twelve
    columns. *)
Definition ex_lists_wide : world :=
  World ∅ ∅
    (<[1%positive := [f1; PFin 1000; f3]]>
       (<[2%positive := [PFin 10; PFin 20; PFin 30]]>
          (<[3%positive := [PFin 90; PFin 90; PFin 90]]> ∅)))
    [].

(** Coordinate files with a broken header: no line at all, a title only,
    a blank second line, and a second line that is no number. *)
Definition ex_crd_headers : world :=
  World (<["empty.crd" := []]>
           (<["title.crd" := lit "title
"]>
              (<["blank.crd" := lit "title
   
 1 2 3
"]>
                 (<["count.crd" := lit "title
 three
 1 2 3
"]> ∅))))
        ∅ ∅ [].

(** External programs that all succeed and leave the files alone. *)
Definition ex_run_ok (c : command) (fs : gmap string str)
    : Z * str * gmap string str :=
  (0, lit "", fs).

(** Files for a run of the resolvation script in which the reference
    structure has no more residues than the source. *)
Definition ex_no_water_world : world :=
  World (<["ref.pdb" := ex_source_pdb]>
           (<["src.pdb" := ex_source_pdb]> (<["ref.crd" := ex_crd_9]> ∅)))
        ∅ ∅ [].

(** * Properties *)

(** ** The monad *)

Lemma bind_ok {A B : Type} (m : M A) (f : A -> M B) (w w' : world) (a : A) :
  m w = (Ok a, w') -> (m ≫= f) w = f a w'.
Proof. intros H. unfold mbind, M_bind. rewrite H. reflexivity. Qed.

Lemma bind_err {A B : Type} (m : M A) (f : A -> M B) (w w' : world) (e : exn) :
  m w = (Err e, w') -> (m ≫= f) w = (Err e, w').
Proof. intros H. unfold mbind, M_bind. rewrite H. reflexivity. Qed.

Lemma get_list_ok (l : loc) (v : list pyfloat) (w : world) :
  lists w !! l = Some v -> get_list l w = (Ok v, w).
Proof. intros H. unfold get_list. rewrite H. reflexivity. Qed.

Lemma get_dict_ok (l : loc) (a : atom) (w : world) :
  dicts w !! l = Some a -> get_dict l w = (Ok a, w).
Proof. intros H. unfold get_dict. rewrite H. reflexivity. Qed.

Lemma len_nonneg {A : Type} (l : list A) : 0 <= len l.
Proof. unfold len. lia. Qed.

Lemma len_app {A : Type} (l k : list A) : len (l ++ k) = len l + len k.
Proof. unfold len. rewrite length_app. lia. Qed.

(** ** writeAmberCrd: the text written *)

Lemma write_ok (fname : string) (s old : str) (w : world) :
  files w !! fname = Some old ->
  write fname s w = (Ok tt, set_files (<[fname := old ++ s]> (files w)) w).
Proof. intros H. unfold write. rewrite H. reflexivity. Qed.

Lemma files_set_files (fs : gmap string str) (w : world) :
  files (set_files fs w) = fs.
Proof. reflexivity. Qed.

Lemma set_files_twice (fs fs' : gmap string str) (w : world) :
  set_files fs (set_files fs' w) = set_files fs w.
Proof. reflexivity. Qed.

Lemma write_coordinates_spec (fname : string) (cs : list pyfloat) :
  forall (n : Z) (w : world) (old : str),
    files w !! fname = Some old ->
    write_coordinates fname cs n w =
      (Ok tt, set_files (<[fname := old ++ coordinate_text cs n]> (files w)) w).
Proof.
  induction cs as [|c rest IH]; intros n w old Hold; simpl.
  - rewrite app_nil_r, insert_id by done. by destruct w.
  - erewrite bind_ok by (by apply write_ok).
    destruct (n + 1 =? 6).
    + erewrite bind_ok
        by (apply write_ok; rewrite files_set_files; apply lookup_insert_eq).
      erewrite IH by (rewrite files_set_files; apply lookup_insert_eq).
      rewrite !set_files_twice, !files_set_files, !insert_insert_eq.
      by rewrite <- !app_assoc.
    + erewrite IH by (rewrite files_set_files; apply lookup_insert_eq).
      rewrite !set_files_twice, !files_set_files, !insert_insert_eq.
      by rewrite <- !app_assoc.
Qed.

(** ** Digits *)

Lemma digit_char_isdigit (d : Z) : 0 <= d < 10 -> isdigit (digit_char d) = true.
Proof.
  intros H.
  assert (d = 0 \/ d = 1 \/ d = 2 \/ d = 3 \/ d = 4 \/ d = 5 \/ d = 6 \/
          d = 7 \/ d = 8 \/ d = 9) as Hd by lia.
  repeat (destruct Hd as [-> | Hd]; [reflexivity |]). by subst.
Qed.

Lemma digit_val_char (d : Z) : 0 <= d < 10 -> digit_val (digit_char d) = d.
Proof.
  intros H.
  assert (d = 0 \/ d = 1 \/ d = 2 \/ d = 3 \/ d = 4 \/ d = 5 \/ d = 6 \/
          d = 7 \/ d = 8 \/ d = 9) as Hd by lia.
  repeat (destruct Hd as [-> | Hd]; [reflexivity |]). by subst.
Qed.

Lemma isdigit_range (c : ascii) :
  isdigit c = true -> (48 <= N_of_ascii c <= 57)%N.
Proof.
  unfold isdigit. intros H. apply andb_true_iff in H as [H1 H2].
  apply N.leb_le in H1, H2. lia.
Qed.

Lemma isdigit_not_space (c : ascii) : isdigit c = true -> isspace c = false.
Proof.
  intros H. apply isdigit_range in H. unfold isspace.
  apply orb_false_iff; split.
  - apply N.eqb_neq. lia.
  - apply andb_false_iff. right. apply N.leb_gt. lia.
Qed.

Lemma isdigit_not_newline (c : ascii) : isdigit c = true -> c <> newline.
Proof. intros H ->. discriminate H. Qed.

Lemma digits_val_snoc (ds : str) (c : ascii) :
  digits_val (ds ++ [c]) = 10 * digits_val ds + digit_val c.
Proof. unfold digits_val. by rewrite fold_left_app. Qed.

Lemma digits_go_acc (fuel : nat) :
  forall n acc, digits_go fuel n acc = digits_go fuel n [] ++ acc.
Proof.
  induction fuel as [|f IH]; intros n acc; simpl; [done|].
  destruct (n / 10 =? 0); [done|].
  rewrite (IH _ (_ :: acc)), (IH _ [_]). by rewrite <- app_assoc.
Qed.

Lemma digits_go_val (fuel : nat) :
  forall n, 0 <= n < 2 ^ Z.of_nat (S fuel) ->
    digits_val (digits_go (S fuel) n []) = n /\
    Forall (fun c => isdigit c = true) (digits_go (S fuel) n []) /\
    digits_go (S fuel) n [] <> [].
Proof.
  induction fuel as [|f IH]; intros n Hn;
    assert (0 <= n mod 10 < 10) as Hm by (apply Z.mod_pos_bound; lia);
    pose proof (Z.div_mod n 10 ltac:(lia)) as Hdm.
  - change (2 ^ Z.of_nat 1) with 2 in Hn.
    assert (n / 10 = 0) as Hz by (apply Z.div_small; lia).
    simpl. rewrite Hz. simpl. split; [|split].
    + unfold digits_val; simpl. rewrite digit_val_char by done. lia.
    + repeat constructor. by apply digit_char_isdigit.
    + done.
  - change (digits_go (S (S f)) n []) with
      (if n / 10 =? 0 then [digit_char (n mod 10)]
       else digits_go (S f) (n / 10) [digit_char (n mod 10)]).
    destruct (Z.eqb_spec (n / 10) 0) as [Hz | Hz].
    + split; [|split].
      * unfold digits_val; simpl. rewrite digit_val_char by done. lia.
      * repeat constructor. by apply digit_char_isdigit.
      * done.
    + rewrite digits_go_acc.
      assert (0 <= n / 10 < 2 ^ Z.of_nat (S f)) as Hq.
      { split; [apply Z.div_pos; lia|].
        apply Z.div_lt_upper_bound; [lia|].
        rewrite (Nat2Z.inj_succ (S f)), Z.pow_succ_r in Hn by lia. lia. }
      destruct (IH _ Hq) as (Hv & Hd & Hne).
      split; [|split].
      * rewrite digits_val_snoc, Hv, digit_val_char by done. lia.
      * apply Forall_app; split; [done|].
        repeat constructor. by apply digit_char_isdigit.
      * intros Heq. by apply app_eq_nil in Heq as [? ?].
Qed.

Lemma digits_fuel (n : Z) :
  0 <= n -> 0 <= n < 2 ^ Z.of_nat (S (Z.to_nat (Z.log2 n))).
Proof.
  intros Hn. split; [done|].
  rewrite Nat2Z.inj_succ, Z2Nat.id by apply Z.log2_nonneg.
  destruct (Z.eq_dec n 0) as [-> | Hne]; [reflexivity|].
  apply Z.log2_spec. lia.
Qed.

Lemma digits_val_digits (n : Z) : 0 <= n -> digits_val (digits n) = n.
Proof. intros Hn. apply digits_go_val, digits_fuel, Hn. Qed.

Lemma digits_all_digits (n : Z) :
  0 <= n -> Forall (fun c => isdigit c = true) (digits n).
Proof. intros Hn. apply digits_go_val, digits_fuel, Hn. Qed.

Lemma digits_nonempty (n : Z) : 0 <= n -> digits n <> [].
Proof. intros Hn. apply digits_go_val, digits_fuel, Hn. Qed.

Lemma all_digits_Forall (ds : str) :
  all_digits ds = true <-> Forall (fun c => isdigit c = true) ds.
Proof.
  unfold all_digits. rewrite forallb_forall, Forall_forall.
  split; intros H c Hc; apply H; by apply list_elem_of_In.
Qed.

(** Number of digits: [digits n] has at most [k] characters when
    [n < 10^k]. *)
Lemma digits_go_length (fuel : nat) :
  forall n (k : nat), 0 <= n < 10 ^ Z.of_nat k -> (0 < k)%nat ->
    (length (digits_go fuel n []) <= k)%nat.
Proof.
  induction fuel as [|f IH]; intros n k Hn Hk; simpl; [lia|].
  destruct (Z.eqb_spec (n / 10) 0) as [Hz | Hz]; [simpl; lia|].
  rewrite digits_go_acc, length_app; simpl.
  destruct k as [|k]; [lia|].
  destruct k as [|k].
  { exfalso. apply Hz. apply Z.div_small. simpl in Hn. lia. }
  assert (length (digits_go f (n / 10) []) <= S k)%nat; [|lia].
  apply IH; [|lia]. split; [apply Z.div_pos; lia|].
  apply Z.div_lt_upper_bound; [lia|].
  rewrite (Nat2Z.inj_succ (S k)), Z.pow_succ_r in Hn by lia. lia.
Qed.

Lemma digits_length (n : Z) (k : nat) :
  0 <= n < 10 ^ Z.of_nat k -> (0 < k)%nat -> (length (digits n) <= k)%nat.
Proof. intros. by apply digits_go_length. Qed.

(** ** The text of a formatted float *)

Lemma round_half_even_nonneg (a b : Z) :
  0 <= a -> 0 < b -> 0 <= round_half_even a b.
Proof.
  intros Ha Hb. unfold round_half_even.
  assert (0 <= a / b) by (apply Z.div_pos; lia).
  repeat case_match; lia.
Qed.

Lemma fmt_fixed_mantissa_nonneg (p : nat) (q : Q) :
  0 <= round_half_even (Z.abs (Qnum q) * 10 ^ Z.of_nat p) (Zpos (Qden q)).
Proof. apply round_half_even_nonneg; [|lia]. apply Z.mul_nonneg_nonneg; lia. Qed.

Lemma fmt_fixed_no_newline (p : nat) (q : Q) :
  Forall (fun c => c <> newline) (fmt_fixed p q).
Proof.
  unfold fmt_fixed.
  set (m := round_half_even _ _).
  assert (Forall (fun c => c <> newline)
            (replicate (S p - length (digits m)) "0"%char ++ digits m)) as Hzs.
  { apply Forall_app; split.
    - apply Forall_replicate. discriminate.
    - eapply Forall_impl; [apply digits_all_digits, fmt_fixed_mantissa_nonneg|].
      intros c Hc. by apply isdigit_not_newline. }
  apply Forall_app; split; [case_match; repeat constructor; discriminate|].
  apply Forall_app; split; [by apply Forall_take|].
  destruct p; [constructor|].
  constructor; [discriminate | by apply Forall_drop].
Qed.

Lemma fmt_fixed_nonempty (p : nat) (q : Q) : fmt_fixed p q <> [].
Proof.
  unfold fmt_fixed. set (m := round_half_even _ _).
  intros H. apply app_eq_nil in H as [_ H]. apply app_eq_nil in H as [H1 H2].
  destruct p; [|discriminate].
  rewrite Nat.sub_0_r, firstn_all in H1.
  apply app_eq_nil in H1 as [_ H1].
  by apply digits_nonempty in H1; [|apply fmt_fixed_mantissa_nonneg].
Qed.

Lemma fmt_f_no_newline (w p : nat) (v : pyfloat) :
  Forall (fun c => c <> newline) (fmt_f w p v).
Proof.
  unfold fmt_f, pad_left. apply Forall_app; split.
  - apply Forall_replicate. discriminate.
  - destruct v as [q | [] |]; [apply fmt_fixed_no_newline | ..];
      repeat constructor; discriminate.
Qed.

Lemma fmt_f_nonempty (w p : nat) (v : pyfloat) : fmt_f w p v <> [].
Proof.
  unfold fmt_f, pad_left. intros H. apply app_eq_nil in H as [_ H].
  destruct v as [q | [] |]; try discriminate. by apply fmt_fixed_nonempty in H.
Qed.

Lemma last_no_newline (s : str) :
  Forall (fun c => c <> newline) s -> last s <> Some newline.
Proof.
  intros H Hl. apply last_Some in Hl as [s' ->].
  apply Forall_app in H as [_ H]. inversion H; subst. congruence.
Qed.

(** ** writeAmberCrd *)

Lemma set_lists_id (w : world) : set_lists (lists w) w = w.
Proof. by destruct w. Qed.

Lemma append_box_spec (target : loc) (box : option loc) (w : world)
    (ts : list pyfloat) :
  lists w !! target = Some ts ->
  box_ok w target box ->
  append_box target box w =
    (Ok tt, set_lists (<[target := ts ++ box_values w box]> (lists w)) w).
Proof.
  intros Ht Hbox. destruct box as [b|]; simpl.
  - destruct (Hbox b eq_refl) as [Hne [vs Hvs]]. rewrite Hvs; simpl.
    erewrite bind_ok by (by apply get_list_ok).
    destruct vs as [|v vs].
    + rewrite app_nil_r, insert_id, set_lists_id by done. done.
    + unfold extend.
      erewrite bind_ok by (by apply get_list_ok).
      erewrite bind_ok by (by apply get_list_ok). done.
  - rewrite app_nil_r, insert_id, set_lists_id by done. done.
Qed.

Lemma box_values_insert (w : world) (target : loc) (v : list pyfloat)
    (box : option loc) :
  box_ok w target box ->
  box_values (set_lists (<[target := v]> (lists w)) w) box = box_values w box.
Proof.
  intros Hbox. destruct box as [b|]; [|done]. simpl.
  destruct (Hbox b eq_refl) as [Hne _]. by rewrite lookup_insert_ne.
Qed.

Lemma box_ok_insert (w : world) (target : loc) (v : list pyfloat)
    (box : option loc) :
  box_ok w target box ->
  box_ok (set_lists (<[target := v]> (lists w)) w) target box.
Proof.
  intros Hbox b Hb. destruct (Hbox b Hb) as [Hne Hs]. split; [done|].
  simpl. by rewrite lookup_insert_ne.
Qed.

(** What a call that passes the length check does: it extends the
    caller's list with the box values and writes the whole file. *)
Lemma writeAmberCrd_run (w : world) (fname : string) (c : loc)
    (cs : list pyfloat) (title : str) (bd ba : option loc) :
  lists w !! c = Some cs ->
  len cs mod 3 = 0 ->
  box_ok w c bd ->
  box_ok w c ba ->
  writeAmberCrd fname c title bd ba w =
    (Ok tt,
     World (<[fname := crd_file_text title (len cs / 3)
                         (cs ++ box_values w bd ++ box_values w ba)]> (files w))
           (dicts w)
           (<[c := cs ++ box_values w bd ++ box_values w ba]> (lists w))
           (calls w)).
Proof.
  intros Hc Hmod Hbd Hba. unfold writeAmberCrd.
  erewrite bind_ok by (by apply get_list_ok).
  rewrite Hmod. change (negb (0 =? 0)) with false. cbv iota.
  erewrite bind_ok by (by apply append_box_spec).
  erewrite bind_ok.
  2:{ apply append_box_spec; [apply lookup_insert_eq | by apply box_ok_insert]. }
  rewrite box_values_insert by done.
  unfold open_w. erewrite bind_ok by reflexivity.
  erewrite bind_ok by (apply write_ok; apply lookup_insert_eq).
  erewrite bind_ok by (apply write_ok; apply lookup_insert_eq).
  erewrite bind_ok by (apply get_list_ok; apply lookup_insert_eq).
  erewrite write_coordinates_spec by apply lookup_insert_eq.
  unfold set_files, set_lists; simpl.
  rewrite !insert_insert_eq. unfold crd_file_text.
  by rewrite <- !app_assoc.
Qed.

Lemma len_cons {A : Type} (a : A) (l : list A) : len (a :: l) = 1 + len l.
Proof. unfold len. simpl length. lia. Qed.

Lemma coordinate_text_nonempty (c : pyfloat) (cs : list pyfloat) (n : Z) :
  last (coordinate_text (c :: cs) n) <> None.
Proof.
  simpl. intros E. apply last_None in E.
  apply app_eq_nil in E as [E _]. by apply fmt_f_nonempty in E.
Qed.

Lemma coordinate_text_no_newline_end (cs : list pyfloat) :
  forall n, 0 <= n < 6 -> cs <> [] -> (n + len cs) mod 6 <> 0 ->
    last (coordinate_text cs n) <> Some newline.
Proof.
  induction cs as [|c rest IH]; intros n Hn Hne Hmod; [done|].
  rewrite len_cons in Hmod.
  destruct rest as [|c' rest'].
  - simpl. change (len []) with 0 in Hmod.
    destruct (Z.eqb_spec (n + 1) 6) as [H6 | H6].
    { exfalso. apply Hmod. by replace (n + (1 + 0)) with 6 by lia. }
    rewrite app_nil_r. apply last_no_newline, fmt_f_no_newline.
  - change (coordinate_text (c :: c' :: rest') n) with
      (fmt_f 12 7 c ++
       (if n + 1 =? 6 then newline :: coordinate_text (c' :: rest') 0
        else coordinate_text (c' :: rest') (n + 1))).
    rewrite last_app.
    destruct (Z.eqb_spec (n + 1) 6) as [H6 | H6].
    + rewrite last_cons.
      pose proof (coordinate_text_nonempty c' rest' 0) as Hn0.
      assert (last (coordinate_text (c' :: rest') 0) <> Some newline) as Hl.
      { apply IH; [lia | done |].
        replace (n + (1 + len (c' :: rest')))
          with (0 + len (c' :: rest') + 1 * 6) in Hmod by lia.
        by rewrite Z.mod_add in Hmod by lia. }
      by destruct (last (coordinate_text (c' :: rest') 0)).
    + pose proof (coordinate_text_nonempty c' rest' (n + 1)) as Hn0.
      assert (last (coordinate_text (c' :: rest') (n + 1)) <> Some newline) as Hl.
      { apply IH; [lia | done |].
        by replace (n + 1 + len (c' :: rest'))
          with (n + (1 + len (c' :: rest'))) by lia. }
      by destruct (last (coordinate_text (c' :: rest') (n + 1))).
Qed.

(** The text of the coordinate lines in closed form: every value in the
    format [%12.7f], and a newline after the values at positions 6, 12,
    18, ... *)
Lemma coordinate_text_wrap (cs : list pyfloat) :
  forall n, 0 <= n < 6 ->
    coordinate_text cs n =
      concat (imap (fun i c =>
                      fmt_f 12 7 c ++
                      (if (n + Z.of_nat i + 1) mod 6 =? 0 then [newline] else []))
                   cs).
Proof.
  induction cs as [|c rest IH]; intros n Hn; [done|].
  rewrite imap_cons. simpl concat. simpl coordinate_text.
  replace (n + Z.of_nat 0 + 1) with (n + 1) by lia.
  rewrite <- app_assoc. f_equal.
  destruct (Z.eqb_spec (n + 1) 6) as [H6 | H6].
  - rewrite H6. simpl. f_equal. rewrite IH by lia.
    f_equal. apply imap_ext. intros i v _. simpl.
    replace (n + Z.of_nat (S i) + 1) with (0 + Z.of_nat i + 1 + 1 * 6) by lia.
    by rewrite Z.mod_add by lia.
  - rewrite Z.mod_small by lia.
    destruct (Z.eqb_spec (n + 1) 0); [lia|]. simpl.
    rewrite IH by lia. f_equal. apply imap_ext. intros i v _. simpl.
    by replace (n + Z.of_nat (S i) + 1) with (n + 1 + Z.of_nat i + 1) by lia.
Qed.

(** C3.  A coordinate list whose length is no multiple of 3 makes
    [writeAmberCrd] fail at its [raise ParameterError(...)] statement,
    whatever the box arguments are, before any file is opened: the world
    (files and lists) is unchanged.  The exception that reaches the caller
    is a [NameError], because the name [ParameterError] is not defined. *)
Theorem writeAmberCrd_bad_length (w : world) (fname : string) (c : loc)
    (cs : list pyfloat) (title : str) (bd ba : option loc) :
  lists w !! c = Some cs ->
  len cs mod 3 <> 0 ->
  writeAmberCrd fname c title bd ba w = (Err (NameError "ParameterError"), w).
Proof.
  intros Hc Hmod. unfold writeAmberCrd.
  erewrite bind_ok by (by apply get_list_ok).
  destruct (Z.eqb_spec (len cs mod 3) 0) as [H0 | H0]; [done|].
  reflexivity.
Qed.

Lemma writeAmberCrd_bad_length_witness :
  lists ex_lists !! 4%positive = Some [f1; f2] /\
  len [f1; f2] mod 3 <> 0 /\
  writeAmberCrd "out.crd" 4%positive (lit "title") (Some 2%positive)
                (Some 3%positive) ex_lists
  = (Err (NameError "ParameterError"), ex_lists).
Proof.
  split; [reflexivity|]. split; [by vm_compute|].
  apply (writeAmberCrd_bad_length ex_lists "out.crd" 4%positive [f1; f2]);
    [reflexivity | by vm_compute].
Defined.

(** C10.  A call of [writeAmberCrd] that passes the length check, with box
    dimensions (3 values, in a list object of their own), extends the very
    list object the caller passed as [coordinates]: after the call it holds
    the old values, then the box dimensions, then the box angles when these
    are given too, so it is longer by 3 or by 6. *)
Theorem writeAmberCrd_extends_caller_list (w : world) (fname : string)
    (c : loc) (cs : list pyfloat) (title : str) (b : loc)
    (bs : list pyfloat) (ba : option loc) :
  lists w !! c = Some cs ->
  len cs mod 3 = 0 ->
  b <> c ->
  lists w !! b = Some bs ->
  length bs = 3%nat ->
  box_ok w c ba ->
  (forall a, ba = Some a -> length (box_values w ba) = 3%nat) ->
  let w' := (writeAmberCrd fname c title (Some b) ba w).2 in
  lists w' !! c = Some (cs ++ bs ++ box_values w ba) /\
  length (cs ++ bs ++ box_values w ba) =
    (length cs + 3 + match ba with Some _ => 3 | None => 0 end)%nat.
Proof.
  intros Hc Hmod Hne Hb Hlen Hba Hlen'.
  assert (box_ok w c (Some b)) as Hbd.
  { intros b' [= <-]. split; [done | by eexists]. }
  rewrite (writeAmberCrd_run w fname c cs title (Some b) ba) by done.
  simpl. rewrite Hb. simpl. split; [apply lookup_insert_eq|].
  rewrite !length_app, Hlen. destruct ba as [a|].
  - rewrite (Hlen' a eq_refl). lia.
  - simpl. lia.
Qed.

Lemma writeAmberCrd_extends_caller_list_witness :
  lists (writeAmberCrd "out.crd" 1%positive (lit "title") (Some 2%positive)
                       (Some 3%positive) ex_lists).2 !! 1%positive
  = Some ([f1; f2; f3] ++ [PFin 10; PFin 20; PFin 30] ++
          box_values ex_lists (Some 3%positive)) /\
  length ([f1; f2; f3] ++ [PFin 10; PFin 20; PFin 30] ++
          box_values ex_lists (Some 3%positive)) = (3 + 3 + 3)%nat.
Proof.
  apply (writeAmberCrd_extends_caller_list ex_lists "out.crd" 1%positive
           [f1; f2; f3] (lit "title") 2%positive [PFin 10; PFin 20; PFin 30]
           (Some 3%positive)).
  - reflexivity.
  - reflexivity.
  - discriminate.
  - reflexivity.
  - reflexivity.
  - intros a [= <-]. split; [discriminate | eexists; reflexivity].
  - intros a _. reflexivity.
Defined.

(** C8.  What [writeAmberCrd] writes: the title line, the atom count in
    width 6, then the values (positions, box dimensions, box angles) in the
    format [%12.7f] with a newline after every sixth.  When the number of
    values is no multiple of 6 the last line is left without its newline:
    the file does not end with a line terminator. *)
Theorem writeAmberCrd_partial_line_unterminated (w : world) (fname : string)
    (c : loc) (cs : list pyfloat) (title : str) (bd ba : option loc) :
  lists w !! c = Some cs ->
  len cs mod 3 = 0 ->
  box_ok w c bd ->
  box_ok w c ba ->
  len (cs ++ box_values w bd ++ box_values w ba) mod 6 <> 0 ->
  exists text,
    files (writeAmberCrd fname c title bd ba w).2 !! fname = Some text /\
    text = title ++ [newline] ++ fmt_d 6 (len cs / 3) ++ [newline] ++
           coordinate_text (cs ++ box_values w bd ++ box_values w ba) 0 /\
    last text <> Some newline.
Proof.
  intros Hc Hmod Hbd Hba H6.
  rewrite (writeAmberCrd_run w fname c cs title bd ba) by done.
  simpl. rewrite lookup_insert_eq. eexists; split; [reflexivity|].
  split; [reflexivity|].
  set (all := cs ++ box_values w bd ++ box_values w ba) in *.
  assert (all <> []) as Hne by (intros E; rewrite E in H6; by apply H6).
  unfold crd_file_text.
  assert (last (coordinate_text all 0) <> Some newline) as Hl.
  { apply coordinate_text_no_newline_end; [lia | done | done]. }
  destruct all as [|v vs]; [done|].
  pose proof (coordinate_text_nonempty v vs 0) as Hn0.
  rewrite !last_app.
  by destruct (last (coordinate_text (v :: vs) 0)).
Qed.

Lemma writeAmberCrd_partial_line_unterminated_witness :
  exists text,
    files (writeAmberCrd "out.crd" 1%positive (lit "title") None None
                         ex_lists).2 !! "out.crd" = Some text /\
    text = lit "title" ++ [newline] ++ fmt_d 6 (len [f1; f2; f3] / 3) ++
           [newline] ++
           coordinate_text ([f1; f2; f3] ++ box_values ex_lists None ++
                            box_values ex_lists None) 0 /\
    last text <> Some newline.
Proof.
  apply (writeAmberCrd_partial_line_unterminated ex_lists "out.crd" 1%positive
           [f1; f2; f3] (lit "title") None None).
  - reflexivity.
  - reflexivity.
  - intros b H; discriminate H.
  - intros b H; discriminate H.
  - by vm_compute.
Defined.

(** ** readAmberCrd *)

Lemma open_r_ok (fname : string) (text : str) (w : world) :
  files w !! fname = Some text -> open_r fname w = (Ok text, w).
Proof. intros H. unfold open_r. by rewrite H. Qed.

Lemma readAmberCrd_read_crd (fname : string) (text : str) (w : world) :
  files w !! fname = Some text ->
  readAmberCrd fname w = (read_crd text, w).
Proof.
  intros H. unfold readAmberCrd. by erewrite bind_ok by (by apply open_r_ok).
Qed.

Lemma crd_body_parse (text title : str) (n : Z) (flat : list pyfloat) :
  crd_parse text = Ok (title, n, flat) ->
  crd_body text = Ok (crd_boxes title n flat).
Proof. intros H. unfold crd_body. by rewrite H. Qed.

(** [readAmberCrd] returns only for a file with exactly [3*natoms + 6]
    values; the result is then the positions, the dimensions and the
    angles. *)
Lemma read_crd_returns (text title : str) (n : Z) (flat : list pyfloat) :
  crd_parse text = Ok (title, n, flat) ->
  len flat = 3 * n + 6 ->
  read_crd text =
    Ok (title, n, py_slice flat 0 (3 * n),
        py_slice flat (3 * n) (3 * n + 3),
        py_slice flat (3 * n + 3) (3 * n + 6)).
Proof.
  intros Hp Hlen. unfold read_crd. rewrite (crd_body_parse _ _ _ _ Hp).
  unfold crd_boxes, crd_return; simpl. rewrite Hlen.
  rewrite Z.eqb_refl.
  destruct (Z.leb_spec (3 * n + 3) (3 * n + 6)); [done | lia].
Qed.

(** Without exactly [3*natoms + 6] values the [return] statement finds a
    box variable unassigned. *)
Lemma read_crd_unbound (text title : str) (n : Z) (flat : list pyfloat) :
  crd_parse text = Ok (title, n, flat) ->
  len flat <> 3 * n + 6 ->
  read_crd text =
    Err (UnboundLocalError
           (if 3 * n + 3 <=? len flat then "box_angles" else "box_dimensions")).
Proof.
  intros Hp Hlen.
  unfold read_crd. rewrite (crd_body_parse _ _ _ _ Hp).
  unfold crd_boxes, crd_return; simpl.
  destruct (Z.leb_spec (3 * n + 3) (len flat)); simpl; [|done].
  destruct (Z.eqb_spec (len flat) (3 * n + 6)); [done | reflexivity].
Qed.

(** C2.  With any number of values other than [3*natoms + 6],
    [readAmberCrd] does not return: a box variable was never assigned and
    the [return] statement raises [UnboundLocalError] -- for
    [box_dimensions] below [3*natoms + 3] values, for [box_angles] from
    there on.  No field is ever returned as [None]. *)
Theorem readAmberCrd_unbound_box (w : world) (fname : string)
    (text title : str) (n : Z) (flat : list pyfloat) :
  files w !! fname = Some text ->
  crd_parse text = Ok (title, n, flat) ->
  len flat <> 3 * n + 6 ->
  readAmberCrd fname w =
    (Err (UnboundLocalError
            (if 3 * n + 3 <=? len flat then "box_angles" else "box_dimensions")),
     w).
Proof.
  intros Hf Hp Hlen. rewrite (readAmberCrd_read_crd _ _ _ Hf).
  by rewrite (read_crd_unbound _ _ _ _ Hp Hlen).
Qed.

Lemma readAmberCrd_unbound_box_witness :
  readAmberCrd "a3.crd" ex_crd_files =
    (Err (UnboundLocalError "box_dimensions"), ex_crd_files) /\
  readAmberCrd "a6.crd" ex_crd_files =
    (Err (UnboundLocalError "box_angles"), ex_crd_files).
Proof.
  split.
  - apply (readAmberCrd_unbound_box ex_crd_files "a3.crd" ex_crd_3
             (lit "title") 1 [f1; f2; f3]);
      [reflexivity | reflexivity | by vm_compute].
  - apply (readAmberCrd_unbound_box ex_crd_files "a6.crd" ex_crd_6
             (lit "title") 1 [f1; f2; f3; PFin 10; PFin 20; PFin 30]);
      [reflexivity | reflexivity | by vm_compute].
Defined.

(** C4, as the claim states it, fails: on a file that announces two atoms
    and holds three values [readAmberCrd] raises no FormatError. *)
Lemma readAmberCrd_short_no_FormatError :
  readAmberCrd "short.crd" ex_crd_files =
    (Err (UnboundLocalError "box_dimensions"), ex_crd_files) /\
  ~ (exists e, (readAmberCrd "short.crd" ex_crd_files).1 = Err e /\
               FormatError e).
Proof.
  split; [reflexivity|].
  intros (e & He & [-> | ->]); discriminate He.
Qed.

Lemma py_slice_all {A : Type} (l : list A) (j : Z) :
  len l <= j -> py_slice l 0 j = l.
Proof.
  intros H. unfold py_slice, slice_bound, len in *. simpl.
  destruct (Z.ltb_spec j 0); [lia|].
  rewrite Z.min_r by lia. rewrite Z.min_l by lia.
  rewrite Z.sub_0_r, Nat2Z.id. apply firstn_all.
Qed.

(** C4, amended.  [readAmberCrd] has no check of the number of values
    against [3*natoms]: with fewer values neither box variable is assigned
    and the positions kept, [coordinates[0:3*natoms]], are all the values
    there are; whatever the call does then, it raises no FormatError. *)
Theorem readAmberCrd_short_unchecked (w : world) (fname : string)
    (text title : str) (n : Z) (flat : list pyfloat) :
  files w !! fname = Some text ->
  crd_parse text = Ok (title, n, flat) ->
  len flat < 3 * n ->
  crd_body text =
    Ok {| l_title := title; l_natoms := n; l_coordinates := flat;
          l_box_dimensions := None; l_box_angles := None |} /\
  forall e, (readAmberCrd fname w).1 = Err e -> ~ FormatError e.
Proof.
  intros Hf Hp Hlen. split.
  - rewrite (crd_body_parse _ _ _ _ Hp). unfold crd_boxes.
    rewrite py_slice_all by lia.
    destruct (Z.leb_spec (3 * n + 3) (len flat)); [lia|].
    destruct (Z.eqb_spec (len flat) (3 * n + 6)); [lia|]. done.
  - intros e. rewrite (readAmberCrd_read_crd _ _ _ Hf).
    rewrite (read_crd_unbound text title n flat) by (done || lia).
    simpl. intros [= <-] [H | H]; discriminate H.
Qed.

Lemma readAmberCrd_short_unchecked_witness :
  crd_body ex_crd_short =
    Ok {| l_title := lit "title"; l_natoms := 2; l_coordinates := [f1; f2; f3];
          l_box_dimensions := None; l_box_angles := None |} /\
  forall e, (readAmberCrd "short.crd" ex_crd_files).1 = Err e -> ~ FormatError e.
Proof.
  apply (readAmberCrd_short_unchecked ex_crd_files "short.crd" ex_crd_short
           (lit "title") 2 [f1; f2; f3]);
    [reflexivity | reflexivity | by vm_compute].
Defined.

(** ** The renumbering pass of writeAtomsToPDB *)

Lemma renumber_step_eq (current r : Z) (last : option Z) :
  renumber_step current r last =
    (if bool_decide (Some current = last) then r else r + 1, Some current).
Proof.
  unfold renumber_step. case_bool_decide as H; simpl; [by rewrite H | done].
Qed.

Lemma renumber_values_cons (a : atom) (rest : list atom) (s r : Z)
    (last : option Z) :
  renumber_values (a :: rest) s r last =
    let r' := if bool_decide (Some (resSeq a) = last) then r else r + 1 in
    set_numbers a s r' :: renumber_values rest (s + 1) r' (Some (resSeq a)).
Proof. simpl. by rewrite renumber_step_eq. Qed.

Lemma renumber_values_length (vals : list atom) :
  forall s r last, length (renumber_values vals s r last) = length vals.
Proof.
  induction vals as [|a rest IH]; intros s r last; [done|].
  rewrite renumber_values_cons. simpl. by rewrite IH.
Qed.

Lemma hold_insert_ne (w : world) (l : loc) (a : atom) (ls : list loc)
    (vs : list atom) :
  l ∉ ls -> hold w ls vs -> hold (set_dicts (<[l := a]> (dicts w)) w) ls vs.
Proof.
  intros Hl H. unfold hold in *. induction H as [|l' a' ls' vs' Hh Hr IH].
  - constructor.
  - apply not_elem_of_cons in Hl as [Hne Hl]. constructor; [|by apply IH].
    simpl. by rewrite lookup_insert_ne.
Qed.

(** The loop writes the renumbered values into the dictionaries and
    touches nothing else. *)
Lemma renumber_loop_spec (atoms : list loc) :
  forall (vals : list atom) (s r : Z) (last : option Z) (w : world),
    NoDup atoms ->
    hold w atoms vals ->
    exists w',
      renumber_loop atoms s r last w = (Ok tt, w') /\
      hold w' atoms (renumber_values vals s r last) /\
      files w' = files w /\ lists w' = lists w /\ calls w' = calls w /\
      (forall l, l ∉ atoms -> dicts w' !! l = dicts w !! l).
Proof.
  induction atoms as [|l rest IH]; intros vals s r last w Hnd Hh.
  - inversion Hh; subst. exists w. repeat split; constructor.
  - inversion Hh as [|? a ? vals' Hl Hrest]; subst.
    apply NoDup_cons in Hnd as [Hnotin Hnd].
    rewrite renumber_values_cons. cbv zeta.
    set (r' := if bool_decide (Some (resSeq a) = last) then r else r + 1).
    simpl renumber_loop.
    erewrite bind_ok by (by apply get_dict_ok).
    rewrite renumber_step_eq. fold r'.
    erewrite bind_ok by reflexivity.
    set (w1 := set_dicts (<[l := set_numbers a s r']> (dicts w)) w).
    destruct (IH vals' (s + 1) r' (Some (resSeq a)) w1 Hnd
                (hold_insert_ne w l _ rest vals' Hnotin Hrest))
      as (w' & Hrun & Hhold & Hf & Hls & Hc & Hother).
    exists w'. split; [done|]. split; [|repeat split; try done].
    + constructor; [|done].
      rewrite Hother by done. apply lookup_insert_eq.
    + intros l' Hl'. apply not_elem_of_cons in Hl' as [Hne Hl'].
      rewrite Hother by done. simpl. by rewrite lookup_insert_ne.
Qed.

Lemma write_atoms_loop_dicts (fname : string) (atoms : list loc) :
  forall w, dicts (write_atoms_loop fname atoms w).2 = dicts w.
Proof.
  induction atoms as [|l rest IH]; intros w; [done|].
  simpl. unfold mbind at 1, M_bind at 1. unfold get_dict.
  destruct (dicts w !! l) as [a|]; [|done].
  unfold mbind at 1, M_bind at 1, lift.
  destruct (format_atom a) as [line|e]; [|done].
  unfold mbind at 1, M_bind at 1, write. by rewrite IH.
Qed.

Lemma writeAtomsToPDB_renumber_dicts (fname : string) (atoms : list loc)
    (w w1 : world) :
  renumber_pass atoms w = (Ok tt, w1) ->
  dicts (writeAtomsToPDB fname atoms true w).2 = dicts w1.
Proof.
  intros H. unfold writeAtomsToPDB.
  erewrite bind_ok by exact H.
  unfold open_w. erewrite bind_ok by reflexivity.
  by rewrite write_atoms_loop_dicts.
Qed.

Lemma renumber_values_serial (vals : list atom) :
  forall s r last (i : nat) a a',
    vals !! i = Some a ->
    renumber_values vals s r last !! i = Some a' ->
    exists r', a' = set_numbers a (s + Z.of_nat i) r'.
Proof.
  induction vals as [|v rest IH]; intros s r last i a a' Hi Hi'; [done|].
  rewrite renumber_values_cons in Hi'. cbv zeta in Hi'.
  destruct i as [|i]; simpl in Hi, Hi'.
  - injection Hi as <-. injection Hi' as <-. eexists. f_equal. lia.
  - destruct (IH _ _ _ _ _ _ Hi Hi') as [r' ->]. exists r'. f_equal. lia.
Qed.

Lemma renumber_values_adjacent (vals : list atom) :
  forall s r last (i : nat) p c p' c',
    vals !! i = Some p -> vals !! S i = Some c ->
    renumber_values vals s r last !! i = Some p' ->
    renumber_values vals s r last !! S i = Some c' ->
    resSeq c' = resSeq p' + (if bool_decide (resSeq p = resSeq c) then 0 else 1).
Proof.
  induction vals as [|v rest IH]; intros s r last i p c p' c' Hp Hc Hp' Hc';
    [done|].
  rewrite renumber_values_cons in Hp', Hc'. cbv zeta in Hp', Hc'.
  destruct i as [|i]; simpl in Hp, Hc, Hp', Hc'.
  - injection Hp as <-. injection Hp' as <-.
    destruct rest as [|v2 rest2]; [done|].
    rewrite renumber_values_cons in Hc'. cbv zeta in Hc'.
    simpl in Hc, Hc'. injection Hc as <-. injection Hc' as <-. simpl.
    repeat case_bool_decide; try lia; congruence.
  - eapply IH; eassumption.
Qed.

Lemma set_numbers_same (a : atom) : set_numbers a (serial a) (resSeq a) = a.
Proof. by destruct a. Qed.

Lemma renumber_values_noop (vals : list atom) :
  forall s r last,
    (forall (i : nat) a, vals !! i = Some a -> serial a = s + Z.of_nat i) ->
    (forall a, vals !! 0%nat = Some a ->
       (if bool_decide (Some (resSeq a) = last) then r else r + 1) = resSeq a) ->
    (forall (i : nat) a b, vals !! i = Some a -> vals !! S i = Some b ->
       resSeq b = resSeq a \/ resSeq b = resSeq a + 1) ->
    renumber_values vals s r last = vals.
Proof.
  induction vals as [|a rest IH]; intros s r last Hser Hfirst Hsteps; [done|].
  rewrite renumber_values_cons. cbv zeta.
  rewrite (Hfirst a eq_refl).
  replace s with (serial a) at 1 by (rewrite (Hser 0%nat a eq_refl); lia).
  rewrite set_numbers_same. f_equal.
  apply IH.
  - intros i b Hb. rewrite (Hser (S i) b Hb). lia.
  - intros b Hb. destruct (Hsteps 0%nat a b eq_refl Hb) as [H | H];
      case_bool_decide; try done; try congruence; lia.
  - intros i b c Hb Hc. by apply (Hsteps (S i)).
Qed.

Lemma adjacent_monotone (vals : list atom) :
  (forall (i : nat) a b, vals !! i = Some a -> vals !! S i = Some b ->
     resSeq a <= resSeq b) ->
  forall (d i : nat) a b,
    vals !! i = Some a -> vals !! (i + d)%nat = Some b -> resSeq a <= resSeq b.
Proof.
  intros Hadj d. induction d as [|d IH]; intros i a b Ha Hb.
  - rewrite Nat.add_0_r in Hb. assert (a = b) as -> by congruence. lia.
  - replace (i + S d)%nat with (S (i + d)) in Hb by lia.
    destruct (vals !! (i + d)%nat) as [c|] eqn:Hc.
    + pose proof (IH i a c Ha Hc). pose proof (Hadj _ _ _ Hc Hb). lia.
    + apply lookup_ge_None in Hc. apply lookup_lt_Some in Hb. lia.
Qed.

Lemma monotone_le (vals : list atom) :
  (forall (i : nat) a b, vals !! i = Some a -> vals !! S i = Some b ->
     resSeq a <= resSeq b) ->
  forall (i j : nat) a b, (i <= j)%nat ->
    vals !! i = Some a -> vals !! j = Some b -> resSeq a <= resSeq b.
Proof.
  intros Hadj i j a b Hij Ha Hb.
  apply (adjacent_monotone vals Hadj (j - i) i a b Ha).
  by replace (i + (j - i))%nat with j by lia.
Qed.

Lemma residues_steps (vals : list atom) :
  residues_1_to_M vals ->
  (forall a, vals !! 0%nat = Some a -> resSeq a = 1) /\
  (forall (i : nat) a b, vals !! i = Some a -> vals !! S i = Some b ->
     resSeq b = resSeq a \/ resSeq b = resSeq a + 1).
Proof.
  intros (M & Hvals & Hadj).
  assert (forall (i : nat) a, vals !! i = Some a -> 1 <= resSeq a <= M) as Hin.
  { intros i a Ha. apply Hvals. apply list_elem_of_fmap. exists a. split; [done|].
    by apply list_elem_of_lookup_2 in Ha. }
  assert (forall v, 1 <= v <= M ->
            exists (k : nat) c, vals !! k = Some c /\ resSeq c = v) as Hocc.
  { intros v Hv. apply Hvals in Hv. apply list_elem_of_fmap in Hv as (c & -> & Hc).
    apply list_elem_of_lookup_1 in Hc as [k Hk]. by exists k, c. }
  split.
  - intros a Ha. pose proof (Hin _ _ Ha) as Hr.
    destruct (Hocc 1 ltac:(lia)) as (k & c & Hk & Hc).
    pose proof (monotone_le vals Hadj 0 k a c ltac:(lia) Ha Hk). lia.
  - intros i a b Ha Hb.
    pose proof (Hadj _ _ _ Ha Hb) as Hle.
    pose proof (Hin _ _ Ha). pose proof (Hin _ _ Hb).
    destruct (Z_le_gt_dec (resSeq b) (resSeq a + 1)) as [Hs | Hs]; [lia|].
    exfalso.
    destruct (Hocc (resSeq a + 1) ltac:(lia)) as (k & c & Hk & Hc).
    destruct (le_lt_dec k i) as [Hki | Hki].
    + pose proof (monotone_le vals Hadj k i c a Hki Hk Ha). lia.
    + pose proof (monotone_le vals Hadj (S i) k b c ltac:(lia) Hb Hk). lia.
Qed.

(** C6.  The renumbering pass of [writeAtomsToPDB] (called with
    [renumber = True] on a non-empty list of distinct atom dictionaries)
    gives the atoms the serial numbers 1..N in list order, and residue
    numbers that start at 1 and grow by one exactly where the original
    residue number of an atom differs from that of the atom before it;
    no other field changes.  On atoms already numbered 1..N, with residue
    numbers 1..M in monotonic order, it changes nothing. *)
Theorem renumber_pass_spec (w : world) (fname : string) (atoms : list loc)
    (vals : list atom) :
  atoms <> [] ->
  NoDup atoms ->
  hold w atoms vals ->
  exists news,
    hold (writeAtomsToPDB fname atoms true w).2 atoms news /\
    length news = length vals /\
    (forall (i : nat) a a', vals !! i = Some a -> news !! i = Some a' ->
       serial a' = Z.of_nat i + 1 /\
       a' = set_numbers a (Z.of_nat i + 1) (resSeq a')) /\
    (forall a', news !! 0%nat = Some a' -> resSeq a' = 1) /\
    (forall (i : nat) p c p' c',
       vals !! i = Some p -> vals !! S i = Some c ->
       news !! i = Some p' -> news !! S i = Some c' ->
       resSeq c' =
         resSeq p' + (if bool_decide (resSeq p = resSeq c) then 0 else 1)) /\
    (serials_1_to_N vals -> residues_1_to_M vals -> news = vals).
Proof.
  intros Hne Hnd Hh.
  destruct (renumber_loop_spec atoms vals 1 0 None w Hnd Hh)
    as (w1 & Hrun & Hhold & _).
  assert (renumber_pass atoms w = (Ok tt, w1)) as Hpass.
  { unfold renumber_pass. destruct atoms as [|l rest]; [done|].
    inversion Hh; subst.
    by erewrite bind_ok by (by apply get_dict_ok). }
  exists (renumber_values vals 1 0 None).
  split; [|split; [|split; [|split; [|split]]]].
  - unfold hold. by rewrite (writeAtomsToPDB_renumber_dicts _ _ _ _ Hpass).
  - apply renumber_values_length.
  - intros i a a' Ha Ha'.
    destruct (renumber_values_serial vals 1 0 None i a a' Ha Ha') as [r' Heq].
    subst a'. simpl. split; [lia|]. f_equal. lia.
  - intros a' Ha'. destruct vals as [|v rest]; [done|].
    rewrite renumber_values_cons in Ha'. cbv zeta in Ha'. simpl in Ha'.
    injection Ha' as <-. simpl. try case_bool_decide; done.
  - intros i p c p' c'. apply renumber_values_adjacent.
  - intros Hser Hres. destruct (residues_steps vals Hres) as [Hfirst Hsteps].
    apply renumber_values_noop; [| |done].
    + intros i a Ha. rewrite (Hser i a Ha). lia.
    + intros a Ha. rewrite (Hfirst a Ha). try case_bool_decide; done.
Qed.

Lemma renumber_pass_spec_witness :
  exists news,
    hold (writeAtomsToPDB "wat.pdb" [1; 2; 3]%positive true ex_dicts).2
         [1; 2; 3]%positive news /\
    length news = length ex_numbered /\
    (forall (i : nat) a a', ex_numbered !! i = Some a -> news !! i = Some a' ->
       serial a' = Z.of_nat i + 1 /\
       a' = set_numbers a (Z.of_nat i + 1) (resSeq a')) /\
    (forall a', news !! 0%nat = Some a' -> resSeq a' = 1) /\
    (forall (i : nat) p c p' c',
       ex_numbered !! i = Some p -> ex_numbered !! S i = Some c ->
       news !! i = Some p' -> news !! S i = Some c' ->
       resSeq c' =
         resSeq p' + (if bool_decide (resSeq p = resSeq c) then 0 else 1)) /\
    (serials_1_to_N ex_numbered -> residues_1_to_M ex_numbered ->
     news = ex_numbered).
Proof.
  apply (renumber_pass_spec ex_dicts "wat.pdb" [1; 2; 3]%positive ex_numbered).
  - discriminate.
  - compute_done.
  - repeat constructor.
Defined.

(** The pass at work on atoms numbered 7, 8, 9 in residues 12, 12, 40. *)
Example renumber_values_example :
  renumber_values ex_unnumbered 1 0 None = ex_numbered.
Proof. reflexivity. Qed.

(** ** getPresentSequence *)

Lemma run_heads_from_cons {A : Type} (key : A -> Z) (prev : option Z) (a : A)
    (l : list A) :
  run_heads_from key prev (a :: l) =
    (if bool_decide (prev = Some (key a)) then [] else [a]) ++
    run_heads_from key (Some (key a)) l.
Proof.
  unfold run_heads_from. simpl. rewrite filter_cons. simpl.
  case_decide as H; case_bool_decide as H'; simpl; try done; by destruct H.
Qed.

Lemma run_heads_from_keys {A : Type} (key : A -> Z) (l : list A) :
  forall prev,
    key <$> run_heads_from key prev l = run_heads_from id prev (key <$> l).
Proof.
  induction l as [|a l IH]; intros prev; [done|].
  rewrite fmap_cons, !run_heads_from_cons, fmap_app, IH. simpl.
  by case_bool_decide.
Qed.

Lemma run_heads_length {A : Type} (key : A -> Z) (l : list A) :
  length (run_heads key l) = length (run_heads id (key <$> l)).
Proof.
  unfold run_heads. by rewrite <- run_heads_from_keys, length_fmap.
Qed.

Lemma of_chain_cons (chain : str) (f : seq_field) (fs : list seq_field) :
  of_chain chain (f :: fs) =
    if str_eqb chain (f_chainID f) then f :: of_chain chain fs
    else of_chain chain fs.
Proof.
  unfold of_chain, str_eqb. rewrite filter_cons.
  case_decide; case_bool_decide; done.
Qed.

(** The loop computes the run heads of the atom lines of the chain. *)
Lemma present_loop_spec (chain : str) (lines : list str) :
  forall (fs : list seq_field) (sequence : list str) (last : option Z),
    atom_fields lines = Ok fs ->
    present_loop chain lines sequence last =
      Ok (sequence ++
          (f_resName <$> run_heads_from f_resSeq last (of_chain chain fs))).
Proof.
  induction lines as [|line rest IH]; intros fs sequence last Hfs.
  - injection Hfs as <-. simpl. by rewrite app_nil_r.
  - simpl in Hfs |- *. destruct (is_atom_line line); [|by apply IH].
    destruct (parse_seq_field line) as [f|e]; [|done]. simpl in Hfs |- *.
    destruct (atom_fields rest) as [fs'|e] eqn:Hrest; [|done].
    injection Hfs as <-. rewrite of_chain_cons.
    destruct (str_eqb chain (f_chainID f)); [|by apply IH].
    rewrite run_heads_from_cons.
    case_bool_decide as H1; case_bool_decide as H2; simpl;
      try congruence.
    + rewrite H1. by apply IH.
    + rewrite (IH fs') by done. by rewrite <- app_assoc.
Qed.

(** C5.  On a file all of whose ATOM lines have numeric serial and
    residue-number columns, [getPresentSequence] returns the residue name
    of the first line of every run of consecutive equal residue numbers,
    the runs being taken among the ATOM lines of the requested chain, in
    file order.  With the residue numbers 1, 1, 2, 2, 3 in chain A and
    1, 1 in chain B it returns 3 names for A and 1 name for B. *)
Theorem getPresentSequence_runs (w : world) (fname : string) (text : str)
    (fs : list seq_field) :
  files w !! fname = Some text ->
  atom_fields (readlines text) = Ok fs ->
  (forall chain,
     getPresentSequence fname chain w =
       (Ok (f_resName <$> run_heads f_resSeq (of_chain chain fs)), w)) /\
  (f_resSeq <$> of_chain (lit "A") fs = [1; 1; 2; 2; 3] ->
   f_resSeq <$> of_chain (lit "B") fs = [1; 1] ->
   exists seqA seqB,
     getPresentSequence fname (lit "A") w = (Ok seqA, w) /\
     getPresentSequence fname (lit "B") w = (Ok seqB, w) /\
     length seqA = 3%nat /\ length seqB = 1%nat).
Proof.
  intros Hf Hfs.
  assert (forall chain,
            getPresentSequence fname chain w =
              (Ok (f_resName <$> run_heads f_resSeq (of_chain chain fs)), w))
    as Hgen.
  { intros chain. unfold getPresentSequence.
    erewrite bind_ok by (by apply open_r_ok).
    unfold lift, present_sequence.
    by rewrite (present_loop_spec chain _ fs [] None Hfs). }
  split; [exact Hgen|].
  intros HA HB. eexists _, _.
  split; [apply Hgen|]. split; [apply Hgen|].
  rewrite !length_fmap.
  rewrite (run_heads_length f_resSeq (of_chain (lit "A") fs)), HA.
  rewrite (run_heads_length f_resSeq (of_chain (lit "B") fs)), HB.
  split; reflexivity.
Qed.

Lemma getPresentSequence_runs_witness :
  (forall chain,
     getPresentSequence "ab.pdb" chain ex_pdb_files =
       (Ok (f_resName <$> run_heads f_resSeq (of_chain chain ex_pdb_fields)),
        ex_pdb_files)) /\
  (f_resSeq <$> of_chain (lit "A") ex_pdb_fields = [1; 1; 2; 2; 3] ->
   f_resSeq <$> of_chain (lit "B") ex_pdb_fields = [1; 1] ->
   exists seqA seqB,
     getPresentSequence "ab.pdb" (lit "A") ex_pdb_files = (Ok seqA, ex_pdb_files) /\
     getPresentSequence "ab.pdb" (lit "B") ex_pdb_files = (Ok seqB, ex_pdb_files) /\
     length seqA = 3%nat /\ length seqB = 1%nat).
Proof.
  apply (getPresentSequence_runs ex_pdb_files "ab.pdb" ex_pdb ex_pdb_fields);
    [reflexivity | by vm_compute].
Defined.

(** The example file read for its two chains. *)
Example getPresentSequence_example :
  getPresentSequence "ab.pdb" (lit "A") ex_pdb_files =
    (Ok [lit "ALA"; lit "GLY"; lit "SER"], ex_pdb_files) /\
  getPresentSequence "ab.pdb" (lit "B") ex_pdb_files =
    (Ok [lit "HOH"], ex_pdb_files) /\
  getPresentSequence "ab.pdb" (lit " ") ex_pdb_files = (Ok [], ex_pdb_files).
Proof. by vm_compute. Qed.

(** ** readAtomsFromPDB *)

Lemma readAtomsFromPDB_read_atoms (fname : string) (text : str) (w : world) :
  files w !! fname = Some text ->
  readAtomsFromPDB fname w = (read_atoms text, w).
Proof.
  intros H. unfold readAtomsFromPDB. by erewrite bind_ok by (by apply open_r_ok).
Qed.

(** Every exception of [parse_atom] is the [ValueError] of a conversion. *)
Lemma parse_atom_error (line : str) (e : exn) :
  parse_atom line = Err e -> e = ValueError.
Proof.
  unfold parse_atom, int_of, float_of, or_value_error.
  destruct (py_int (py_slice line 6 11)); simpl; [|congruence].
  destruct (py_int (py_slice line 22 26)); simpl; [|congruence].
  destruct (py_float (py_slice line 30 38)); simpl; [|congruence].
  destruct (py_float (py_slice line 38 46)); simpl; [|congruence].
  destruct (py_float (py_slice line 46 54)); simpl; [|congruence].
  destruct (negb (str_eqb (strip (py_slice line 54 60)) []));
    [destruct (py_float (py_slice line 54 60)); simpl; [|congruence]|];
    (destruct (negb (str_eqb (strip (py_slice line 60 66)) []));
     [destruct (py_float (py_slice line 60 66)); simpl; [|congruence]|]);
    simpl; unfold mret, result_ret; congruence.
Qed.

Lemma parse_atom_mandatory (line : str) :
  mandatory_ok line = false -> parse_atom line = Err ValueError.
Proof.
  unfold mandatory_ok, parse_atom, int_of, float_of, or_value_error.
  intros H.
  destruct (py_int (py_slice line 6 11)); simpl; [|done].
  destruct (py_int (py_slice line 22 26)); simpl; [|done].
  destruct (py_float (py_slice line 30 38)); simpl; [|done].
  destruct (py_float (py_slice line 38 46)); simpl; [|done].
  destruct (py_float (py_slice line 46 54)); simpl; [|done].
  exfalso. rewrite !bool_decide_eq_true_2 in H by (by eexists). done.
Qed.

Lemma read_atoms_loop_bad (lines : list str) (line : str) :
  line ∈ lines -> is_atom_line line = true -> mandatory_ok line = false ->
  forall atoms, read_atoms_loop lines atoms = Err ValueError.
Proof.
  intros Hin Hatom Hbad.
  induction lines as [|l rest IH]; intros atoms; [by apply elem_of_nil in Hin|].
  simpl. apply elem_of_cons in Hin as [<- | Hin].
  - by rewrite Hatom, parse_atom_mandatory.
  - destruct (is_atom_line l); [|by apply IH].
    destruct (parse_atom l) as [a|e] eqn:E; simpl; [by apply IH|].
    by rewrite (parse_atom_error _ _ E).
Qed.

(** What [parse_atom] returns on a line with good columns. *)
Lemma parse_atom_ok (line : str) :
  mandatory_ok line = true ->
  optional_ok line 54 60 -> optional_ok line 60 66 ->
  exists a, parse_atom line = Ok a /\
    (blank line 54 60 -> occupancy a = one) /\
    (blank line 60 66 -> tempFactor a = zero).
Proof.
  unfold mandatory_ok, optional_ok, blank, parse_atom, int_of, float_of,
    or_value_error, str_eqb.
  intros H Hocc Htemp.
  repeat (apply andb_true_iff in H as [H ?]).
  repeat match goal with
         | H : bool_decide (is_Some _) = true |- _ =>
             apply bool_decide_eq_true_1 in H as [? ->]
         end.
  simpl.
  destruct Hocc as [-> | [vo Hvo]], Htemp as [-> | [vt Hvt]]; simpl.
  - eexists; split; [reflexivity|]. done.
  - rewrite Hvt. case_bool_decide; simpl; (eexists; split; [reflexivity|]);
      simpl; (split; [done|]); intros; congruence.
  - rewrite Hvo. case_bool_decide; simpl; (eexists; split; [reflexivity|]);
      simpl; (split; [|done]); intros; congruence.
  - rewrite Hvo, Hvt.
    repeat case_bool_decide; simpl; (eexists; split; [reflexivity|]); simpl;
      split; intros; congruence.
Qed.

Lemma read_atoms_loop_ok (lines : list str) :
  (forall line, line ∈ lines -> is_atom_line line = true ->
     mandatory_ok line = true /\
     optional_ok line 54 60 /\ optional_ok line 60 66) ->
  forall acc, exists atoms,
    read_atoms_loop lines acc = Ok (acc ++ atoms) /\
    Forall2 (fun line a =>
               parse_atom line = Ok a /\
               (blank line 54 60 -> occupancy a = one) /\
               (blank line 60 66 -> tempFactor a = zero))
            (filter (fun line => is_atom_line line = true) lines) atoms.
Proof.
  induction lines as [|l rest IH]; intros Hall acc.
  - exists []. simpl. rewrite app_nil_r. split; [done | constructor].
  - assert (forall line, line ∈ rest -> is_atom_line line = true ->
              mandatory_ok line = true /\
              optional_ok line 54 60 /\ optional_ok line 60 66) as Hrest.
    { intros line Hin. apply Hall. by apply list_elem_of_further. }
    simpl. rewrite filter_cons.
    destruct (is_atom_line l) eqn:Hl.
    + destruct (Hall l (list_elem_of_here _ _) Hl) as (Hm & Ho & Ht).
      destruct (parse_atom_ok l Hm Ho Ht) as (a & Ha & Hdef).
      rewrite Ha. simpl.
      destruct (IH Hrest (acc ++ [a])) as (atoms & Hrun & Hall2).
      exists (a :: atoms). rewrite Hrun, <- app_assoc. split; [done|].
      by constructor.
    + destruct (IH Hrest acc) as (atoms & Hrun & Hall2).
      exists atoms. by split.
Qed.

(** C7.  When an ATOM line of the file has no number in its serial,
    residue-number, x, y or z columns (the columns are blank, cut off, or
    hold something else), [readAtomsFromPDB] fails with the [ValueError]
    of the conversion (the spec's FormatError).  Blank occupancy and
    temperature-factor columns cause no failure: when the mandatory
    columns of all ATOM lines are numeric and these two are blank or
    numeric, the file is read, one atom per ATOM line, with occupancy 1.0
    and temperature factor 0.0 where the column is blank. *)
Theorem readAtomsFromPDB_columns (w : world) (fname : string) (text : str) :
  files w !! fname = Some text ->
  (forall line, line ∈ atom_lines text -> mandatory_ok line = false ->
     readAtomsFromPDB fname w = (Err ValueError, w) /\ FormatError ValueError) /\
  ((forall line, line ∈ atom_lines text ->
      mandatory_ok line = true /\
      optional_ok line 54 60 /\ optional_ok line 60 66) ->
   exists atoms,
     readAtomsFromPDB fname w = (Ok atoms, w) /\
     Forall2 (fun line a =>
                parse_atom line = Ok a /\
                (blank line 54 60 -> occupancy a = one) /\
                (blank line 60 66 -> tempFactor a = zero))
             (atom_lines text) atoms).
Proof.
  intros Hf. rewrite (readAtomsFromPDB_read_atoms _ _ _ Hf). split.
  - intros line Hin Hbad. split; [|by left].
    apply list_elem_of_filter in Hin as [Hatom Hin].
    unfold read_atoms. by rewrite (read_atoms_loop_bad _ line Hin Hatom Hbad).
  - intros Hall.
    destruct (read_atoms_loop_ok (readlines text)) with (acc := @nil atom)
      as (atoms & Hrun & Hall2).
    { intros line Hin Hatom. apply Hall. by apply list_elem_of_filter. }
    exists atoms. split; [|done]. unfold read_atoms. by rewrite Hrun.
Qed.

Lemma readAtomsFromPDB_columns_witness :
  readAtomsFromPDB "bad.pdb" ex_pdb_files2 = (Err ValueError, ex_pdb_files2) /\
  exists atoms,
    readAtomsFromPDB "blank.pdb" ex_pdb_files2 = (Ok atoms, ex_pdb_files2) /\
    Forall2 (fun line a =>
               parse_atom line = Ok a /\
               (blank line 54 60 -> occupancy a = one) /\
               (blank line 60 66 -> tempFactor a = zero))
            (atom_lines ex_pdb_blank) atoms.
Proof.
  split.
  - apply (proj1 (readAtomsFromPDB_columns ex_pdb_files2 "bad.pdb" ex_pdb_bad
                    eq_refl) ex_pdb_bad_line).
    + apply list_elem_of_filter. split; [reflexivity|].
      apply list_elem_of_lookup. exists 1%nat. reflexivity.
    + reflexivity.
  - apply (proj2 (readAtomsFromPDB_columns ex_pdb_files2 "blank.pdb"
                    ex_pdb_blank eq_refl)).
    apply Forall_forall.
    set (ls := atom_lines ex_pdb_blank). vm_compute in ls. subst ls.
    apply Forall_cons; split;
      [split; [reflexivity | split; left; reflexivity]|].
    apply Forall_cons; split;
      [split; [reflexivity | split; left; reflexivity]|].
    apply Forall_nil_2.
Defined.

(** The file with blank columns read: occupancy 1.0, temperature 0.0. *)
Example readAtomsFromPDB_defaults :
  match read_atoms ex_pdb_blank with
  | Ok atoms => occupancy <$> atoms = [one; one] /\
                tempFactor <$> atoms = [zero; zero]
  | Err _ => False
  end.
Proof. by vm_compute. Qed.

(** ** Blanks, signs and slices *)

Lemma lstrip_spaces (n : nat) (s : str) :
  lstrip (replicate n " "%char ++ s) = lstrip s.
Proof. induction n as [|n IH]; [done|]. simpl. exact IH. Qed.

Lemma lstrip_head (c : ascii) (s : str) :
  isspace c = false -> lstrip (c :: s) = c :: s.
Proof. intros H. simpl. by rewrite H. Qed.

Lemma rstrip_last (s : str) (c : ascii) :
  isspace c = false -> rstrip (s ++ [c]) = s ++ [c].
Proof.
  intros H. unfold rstrip. rewrite rev_app_distr. simpl.
  rewrite H. simpl. by rewrite rev_involutive.
Qed.

(** A text that starts and ends with a non-blank character is what
    [strip] leaves of it after left padding. *)
Lemma strip_padded (n : nat) (c d : ascii) (s : str) :
  isspace c = false -> isspace d = false ->
  strip (replicate n " "%char ++ c :: s ++ [d]) = c :: s ++ [d].
Proof.
  intros Hc Hd. unfold strip. rewrite lstrip_spaces, lstrip_head by done.
  change (c :: s ++ [d]) with ((c :: s) ++ [d]). by apply rstrip_last.
Qed.

Lemma strip_padded1 (n : nat) (c : ascii) :
  isspace c = false -> strip (replicate n " "%char ++ [c]) = [c].
Proof.
  intros Hc. unfold strip. rewrite lstrip_spaces, lstrip_head by done.
  by apply (rstrip_last []).
Qed.

Lemma pad_left_length (w : nat) (s : str) :
  (length s <= w)%nat -> length (pad_left w s) = w.
Proof. intros H. unfold pad_left. rewrite length_app, length_replicate. lia. Qed.

Lemma pad_left_exact (w : nat) (s : str) : length s = w -> pad_left w s = s.
Proof. intros H. unfold pad_left. by rewrite H, Nat.sub_diag. Qed.

Lemma py_slice_nat {A : Type} (l : list A) (i j : nat) :
  (i <= j)%nat ->
  py_slice l (Z.of_nat i) (Z.of_nat j) = take (j - i) (drop i l).
Proof.
  intros Hij. unfold py_slice, slice_bound.
  destruct (Z.ltb_spec (Z.of_nat i) 0); [lia|].
  destruct (Z.ltb_spec (Z.of_nat j) 0); [lia|].
  set (n := length l).
  destruct (le_lt_dec i n) as [Hi | Hi].
  - rewrite (Z.min_l (Z.of_nat i)) by lia. rewrite Nat2Z.id.
    destruct (le_lt_dec j n) as [Hj | Hj].
    + rewrite Z.min_l by lia. f_equal. lia.
    + rewrite Z.min_r by lia.
      rewrite !take_ge; [done | | ]; rewrite length_drop; subst n; lia.
  - rewrite !Z.min_r by lia. rewrite Z.sub_diag, Nat2Z.id. simpl.
    rewrite (drop_ge l i) by (subst n; lia). by rewrite take_nil.
Qed.

(** The [k]-th of a row of fixed-width pieces is the slice between the
    widths summed up to it and past it. *)
Lemma slice_piece {A : Type} (pieces : list (list A)) (k : nat) (p : list A) :
  pieces !! k = Some p ->
  py_slice (concat pieces)
           (Z.of_nat (length (concat (take k pieces))))
           (Z.of_nat (length (concat (take (S k) pieces)))) = p.
Proof.
  intros Hk.
  rewrite <- (take_drop_middle pieces k p Hk) at 1.
  rewrite (take_S_r pieces k p Hk), !concat_app. simpl concat.
  rewrite app_nil_r, py_slice_nat by (rewrite length_app; lia).
  rewrite drop_app_length, length_app.
  replace (length (concat (take k pieces)) + length p -
           length (concat (take k pieces)))%nat with (length p) by lia.
  by rewrite take_app_length.
Qed.

Lemma concat_take_length {A : Type} (pieces : list (list A)) (k : nat) :
  length (concat (take k pieces)) = sum_list (take k (length <$> pieces)).
Proof.
  revert k. induction pieces as [|p ps IH]; intros [|k]; simpl; try done.
  by rewrite length_app, IH.
Qed.

Lemma slice_column {A : Type} (pieces : list (list A)) (widths : list nat)
    (k : nat) (p : list A) (i j : Z) :
  length <$> pieces = widths ->
  pieces !! k = Some p ->
  i = Z.of_nat (sum_list (take k widths)) ->
  j = Z.of_nat (sum_list (take (S k) widths)) ->
  py_slice (concat pieces) i j = p.
Proof.
  intros <- Hk -> ->. rewrite <- !concat_take_length. by apply slice_piece.
Qed.

(** ** Lines *)

Lemma readlines_line (body rest : str) :
  Forall (fun c => c <> newline) body ->
  readlines (body ++ newline :: rest) = (body ++ [newline]) :: readlines rest.
Proof.
  induction body as [|c body IH]; intros Hb; [done|].
  apply Forall_cons in Hb as [Hc Hb]. simpl.
  destruct (ascii_eqb c newline) eqn:E.
  - apply Ascii.eqb_eq in E. done.
  - by rewrite IH.
Qed.

Lemma readlines_concat (bodies : list str) :
  Forall (Forall (fun c => c <> newline)) bodies ->
  readlines (concat ((fun b => b ++ [newline]) <$> bodies)) =
    (fun b => b ++ [newline]) <$> bodies.
Proof.
  induction bodies as [|b bs IH]; intros H; [done|].
  apply Forall_cons in H as [Hb Hbs]. simpl.
  rewrite <- app_assoc. simpl. rewrite readlines_line by done.
  f_equal. by apply IH.
Qed.

(** ** Reading back a formatted number *)

Lemma lstrip_digits (ds : str) :
  Forall (fun c => isdigit c = true) ds -> lstrip ds = ds.
Proof.
  intros H. destruct H as [|c ds Hc _]; [done|].
  apply lstrip_head. by apply isdigit_not_space.
Qed.

Lemma rstrip_digits (ds : str) :
  Forall (fun c => isdigit c = true) ds -> rstrip ds = ds.
Proof.
  intros H. unfold rstrip. rewrite lstrip_digits.
  - apply rev_involutive.
  - by apply List.Forall_rev.
Qed.

Lemma isdigit_not_sign (c : ascii) :
  isdigit c = true -> ascii_eqb c "-" = false /\ ascii_eqb c "+" = false.
Proof.
  intros H. split; apply Ascii.eqb_neq; intros ->; discriminate H.
Qed.

Lemma take_sign_digits (ds : str) :
  Forall (fun c => isdigit c = true) ds -> take_sign ds = (false, ds).
Proof.
  intros H. destruct H as [|c ds Hc _]; [done|].
  simpl. destruct (isdigit_not_sign c Hc) as [-> ->]. done.
Qed.

Lemma py_int_digits (ds : str) :
  Forall (fun c => isdigit c = true) ds -> ds <> [] ->
  py_int ds = Some (digits_val ds) /\
  py_int ("-"%char :: ds) = Some (- digits_val ds).
Proof.
  intros Hd Hne.
  assert (all_digits ds && negb (bool_decide (ds = [])) = true) as Hok.
  { apply andb_true_iff. split; [by apply all_digits_Forall|].
    by rewrite bool_decide_eq_false_2. }
  split; unfold py_int.
  - rewrite lstrip_digits, take_sign_digits by done.
    rewrite lstrip_digits, rstrip_digits by done. by rewrite Hok.
  - rewrite lstrip_head by reflexivity.
    change (take_sign ("-"%char :: ds)) with (true, ds).
    cbv iota beta.
    rewrite lstrip_digits, rstrip_digits by done. by rewrite Hok.
Qed.

Lemma py_int_fmt_int (n : Z) : py_int (fmt_int n) = Some n.
Proof.
  unfold fmt_int. destruct (Z.ltb_spec n 0).
  - destruct (py_int_digits (digits (- n))) as [_ ->];
      [apply digits_all_digits; lia | apply digits_nonempty; lia |].
    rewrite digits_val_digits by lia. f_equal. lia.
  - destruct (py_int_digits (digits n)) as [-> _];
      [by apply digits_all_digits | by apply digits_nonempty |].
    by rewrite digits_val_digits.
Qed.

Lemma py_int_spaces (k : nat) (s : str) :
  py_int (replicate k " "%char ++ s) = py_int s.
Proof. unfold py_int. by rewrite lstrip_spaces. Qed.

(** [int()] reads back what [%wd] wrote. *)
Lemma py_int_fmt_d (w : nat) (n : Z) : py_int (fmt_d w n) = Some n.
Proof. unfold fmt_d, pad_left. rewrite py_int_spaces. apply py_int_fmt_int. Qed.

Lemma fmt_int_no_newline (n : Z) : Forall (fun c => c <> newline) (fmt_int n).
Proof.
  unfold fmt_int. destruct (Z.ltb_spec n 0).
  - constructor; [discriminate|].
    eapply Forall_impl; [apply digits_all_digits; lia|].
    intros c. apply isdigit_not_newline.
  - eapply Forall_impl; [by apply digits_all_digits|].
    intros c. apply isdigit_not_newline.
Qed.

Lemma pad_left_no_newline (w : nat) (s : str) :
  Forall (fun c => c <> newline) s ->
  Forall (fun c => c <> newline) (pad_left w s).
Proof.
  intros H. unfold pad_left. apply Forall_app. split; [|done].
  apply Forall_replicate. discriminate.
Qed.

(** *** Floats *)

Lemma digits_val_zeros (k : nat) (ds : str) :
  digits_val (replicate k "0"%char ++ ds) = digits_val ds.
Proof.
  unfold digits_val. rewrite fold_left_app. f_equal.
  induction k as [|k IH]; [done|].
  rewrite replicate_S_end, fold_left_app, IH. reflexivity.
Qed.

Lemma span_digits_app (ds rest : str) :
  Forall (fun c => isdigit c = true) ds ->
  match rest with [] => True | c :: _ => isdigit c = false end ->
  span_digits (ds ++ rest) = (ds, rest).
Proof.
  intros Hd Hr. induction Hd as [|c ds Hc Hd IH].
  - simpl. destruct rest as [|c r]; [done|]. simpl. by rewrite Hr.
  - simpl. by rewrite Hc, IH.
Qed.

Lemma lower_digit (c : ascii) : isdigit c = true -> lower c = c.
Proof.
  intros H. apply isdigit_range in H. unfold lower.
  destruct (N.leb_spec 65 (N_of_ascii c)); [lia|]. done.
Qed.

(** The text of a decimal number: digits, a point, digits. *)
Lemma py_float_decimal (k : nat) (ip fp : str) :
  Forall (fun c => isdigit c = true) ip -> ip <> [] ->
  Forall (fun c => isdigit c = true) fp -> fp <> [] ->
  forall neg : bool,
    py_float (replicate k " "%char ++
              (if neg then ["-"%char] else []) ++ ip ++ "."%char :: fp) =
      Some (PFin (dec_value neg (digits_val (ip ++ fp))
                            (- Z.of_nat (length fp)))).
Proof.
  intros Hip Hipne Hfp Hfpne neg.
  assert (exists c0 ip', ip = c0 :: ip' /\ isdigit c0 = true) as (c0 & ip' & -> & Hc0).
  { destruct Hip as [|c0 ip' H0 _]; [done|]. by exists c0, ip'. }
  assert (exists fp' d, fp = fp' ++ [d] /\ isdigit d = true) as (fp' & d & Hfpeq & Hd).
  { destruct (exists_last Hfpne) as (fp' & d & ->). exists fp', d. split; [done|].
    apply Forall_app in Hfp as [_ Hfp]. by inversion Hfp. }
  set (body := (c0 :: ip') ++ "."%char :: fp).
  assert (strip (replicate k " "%char ++ (if neg then ["-"%char] else []) ++ body)
          = (if neg then ["-"%char] else []) ++ body) as Hstrip.
  { unfold body. rewrite Hfpeq. destruct neg; simpl.
    - replace ("-"%char :: c0 :: ip' ++ "."%char :: fp' ++ [d])
        with ("-"%char :: (c0 :: ip' ++ "."%char :: fp') ++ [d])
        by (simpl; by rewrite <- app_assoc).
      apply strip_padded; [reflexivity | by apply isdigit_not_space].
    - replace (c0 :: ip' ++ "."%char :: fp' ++ [d])
        with (c0 :: (ip' ++ "."%char :: fp') ++ [d])
        by (by rewrite <- app_assoc).
      apply strip_padded; by apply isdigit_not_space. }
  unfold py_float. rewrite Hstrip.
  assert (take_sign ((if neg then ["-"%char] else []) ++ body) = (neg, body)) as ->.
  { destruct neg; [reflexivity|]. unfold body. simpl.
    by destruct (isdigit_not_sign c0 Hc0) as [-> ->]. }
  cbv iota beta.
  assert (forall t : string, (exists a r, lit t = a :: r /\ isdigit a = false) ->
            str_eqb (lower <$> body) (lit t) = false) as Hnot.
  { intros t (a & r & Ht & Ha). unfold str_eqb. apply bool_decide_eq_false_2.
    unfold body. simpl. rewrite (lower_digit c0 Hc0), Ht.
    intros [= <- _]. congruence. }
  change (map lower body) with (lower <$> body).
  rewrite !Hnot by (eexists _, _; split; reflexivity).
  simpl orb. cbv iota.
  unfold body. rewrite span_digits_app by done.
  cbv iota beta. change (ascii_eqb "." ".") with true. cbv iota.
  rewrite <- (app_nil_r fp) at 1. rewrite span_digits_app by done.
  cbv iota beta.
  rewrite bool_decide_eq_false_2 by done. simpl andb. cbv iota. done.
Qed.

Lemma pow10_pos (p : nat) : 0 < 10 ^ Z.of_nat p.
Proof. apply Z.pow_pos_nonneg; lia. Qed.

Section ExactDecimal.

Variables (p : nat) (q : Q) (k : Z).
Hypothesis Hq : Qeq q (Qmake k (Z.to_pos (10 ^ Z.of_nat p))).

Lemma exact_num : Qnum q * 10 ^ Z.of_nat p = k * Zpos (Qden q).
Proof.
  unfold Qeq in Hq. simpl in Hq.
  rewrite Z2Pos.id in Hq by apply pow10_pos. exact Hq.
Qed.

Lemma exact_sign : (Qnum q <? 0) = (k <? 0).
Proof.
  pose proof exact_num as H. pose proof (pow10_pos p) as Hp.
  destruct (Z.ltb_spec (Qnum q) 0), (Z.ltb_spec k 0); try done; nia.
Qed.

Lemma exact_round :
  round_half_even (Z.abs (Qnum q) * 10 ^ Z.of_nat p) (Zpos (Qden q)) = Z.abs k.
Proof.
  pose proof exact_num as H. pose proof (pow10_pos p) as Hp.
  assert (Z.abs (Qnum q) * 10 ^ Z.of_nat p = Z.abs k * Zpos (Qden q)) as ->.
  { rewrite <- (Z.abs_eq (10 ^ Z.of_nat p)) at 1 by lia.
    rewrite <- Z.abs_mul, H, Z.abs_mul. f_equal. }
  unfold round_half_even.
  rewrite Z.div_mul, Z.mod_mul by done. simpl.
  destruct (Z.ltb_spec 0 (Zpos (Qden q))); [done | lia].
Qed.

End ExactDecimal.

(** The shape of the text of an exact decimal. *)
Lemma fmt_fixed_shape (p : nat) (q : Q) (k : Z) :
  Qeq q (Qmake k (Z.to_pos (10 ^ Z.of_nat (S p)))) ->
  exists ip fp,
    fmt_fixed (S p) q =
      (if k <? 0 then ["-"%char] else []) ++ ip ++ "."%char :: fp /\
    Forall (fun c => isdigit c = true) ip /\ ip <> [] /\
    Forall (fun c => isdigit c = true) fp /\ length fp = S p /\
    digits_val (ip ++ fp) = Z.abs k.
Proof.
  intros Hq. unfold fmt_fixed.
  rewrite (exact_sign _ _ _ Hq), (exact_round _ _ _ Hq).
  set (ds := digits (Z.abs k)).
  set (zs := replicate (S (S p) - length ds) "0"%char ++ ds).
  assert (Forall (fun c => isdigit c = true) zs) as Hzs.
  { apply Forall_app. split; [by apply Forall_replicate|].
    apply digits_all_digits. lia. }
  assert (S (S p) <= length zs)%nat as Hlen.
  { unfold zs. rewrite length_app, length_replicate. lia. }
  exists (take (length zs - S p) zs), (drop (length zs - S p) zs).
  split; [done|]. split; [by apply Forall_take|]. split.
  { intros E. apply (f_equal length) in E. rewrite length_take in E.
    simpl in E. lia. }
  split; [by apply Forall_drop|]. split; [rewrite length_drop; lia|].
  rewrite take_drop. unfold zs. rewrite digits_val_zeros.
  apply digits_val_digits. lia.
Qed.

(** [float()] reads back what [%w.pf] wrote for an exact decimal. *)
Lemma py_float_fmt_f (w p : nat) (v : pyfloat) :
  exact_decimal w (S p) v ->
  exists v', py_float (fmt_f w (S p) v) = Some v' /\ float_eq v v' /\
             strip (fmt_f w (S p) v) <> [].
Proof.
  intros (q & k & -> & Hq & _).
  destruct (fmt_fixed_shape p q k Hq) as (ip & fp & Htext & Hip & Hipne & Hfp & Hfplen & Hval).
  assert (fp <> []) as Hfpne by (intros ->; discriminate Hfplen).
  unfold fmt_f, pad_left. rewrite Htext.
  pose proof (py_float_decimal (w - length
     ((if k <? 0 then ["-"%char] else []) ++ ip ++ "."%char :: fp)) ip fp
     Hip Hipne Hfp Hfpne (k <? 0)) as Hpf.
  eexists. split; [exact Hpf|]. split.
  - rewrite Hval, Hfplen. unfold dec_value.
    destruct (Z.leb_spec 0 (- Z.of_nat (S p))); [lia|].
    rewrite Z.opp_involutive. simpl. rewrite Hq.
    replace (if k <? 0 then - Z.abs k else Z.abs k) with k; [reflexivity|].
    destruct (Z.ltb_spec k 0); lia.
  - intros E. unfold py_float in Hpf. rewrite E in Hpf. discriminate Hpf.
Qed.

(** ** Writing a structure file and reading it back *)

Lemma fmt_c_one (s : str) : length s = 1%nat -> fmt_c s = Ok s.
Proof. destruct s as [|c [|d s]]; by intros. Qed.

Lemma format_atom_body (a : atom) :
  representable a -> format_atom a = Ok (atom_body a ++ [newline]).
Proof.
  intros R. unfold format_atom.
  rewrite (fmt_c_one _ (proj1 (rep_altLoc a R))),
          (fmt_c_one _ (proj1 (rep_chainID a R))),
          (fmt_c_one _ (proj1 (rep_iCode a R))).
  simpl. unfold atom_body, atom_pieces. simpl concat.
  unfold mret, result_ret. f_equal.
  repeat (rewrite <- app_assoc || rewrite <- app_comm_cons). reflexivity.
Qed.

Lemma exact_decimal_length (w p : nat) (v : pyfloat) :
  exact_decimal w p v -> length (fmt_f w p v) = w.
Proof.
  intros (q & k & -> & _ & Hlen). unfold fmt_f. by apply pad_left_length.
Qed.

Lemma lit_no_newline (s : str) :
  forallb (fun c => negb (ascii_eqb c newline)) s = true -> no_newline s.
Proof.
  intros H. apply Forall_forall. intros c Hc.
  rewrite forallb_forall in H. apply list_elem_of_In in Hc.
  specialize (H c Hc). apply negb_true_iff, Ascii.eqb_neq in H. exact H.
Qed.

Lemma atom_body_no_newline (a : atom) :
  representable a -> no_newline (atom_body a).
Proof.
  intros R. unfold no_newline, atom_body. apply Forall_concat.
  unfold atom_pieces.
  rewrite !Forall_cons, Forall_nil.
  split_and!; [.. | done].
  - by apply lit_no_newline.
  - apply pad_left_no_newline, fmt_int_no_newline.
  - by apply lit_no_newline.
  - apply pad_left_no_newline, (rep_name a R).
  - apply (rep_altLoc a R).
  - apply pad_left_no_newline, (rep_resName a R).
  - by apply lit_no_newline.
  - apply (rep_chainID a R).
  - apply pad_left_no_newline, fmt_int_no_newline.
  - apply (rep_iCode a R).
  - by apply lit_no_newline.
  - apply fmt_f_no_newline.
  - apply fmt_f_no_newline.
  - apply fmt_f_no_newline.
  - apply fmt_f_no_newline.
  - apply fmt_f_no_newline.
  - apply pad_left_no_newline, (rep_element a R).
  - apply pad_left_no_newline, (rep_charge a R).
Qed.

Lemma atom_line_widths (a : atom) :
  representable a ->
  length <$> (atom_pieces a ++ [[newline]]) =
    [6; 5; 1; 4; 1; 3; 1; 1; 4; 1; 3; 8; 8; 8; 6; 6;
     length (fmt_s 2 (element a)); length (fmt_s 2 (charge a)); 1]%nat.
Proof.
  intros R. unfold atom_pieces. simpl.
  unfold fmt_d, fmt_s.
  rewrite (pad_left_length 5 _ (rep_serial a R)).
  rewrite (pad_left_length 4 _ (rep_resSeq a R)).
  rewrite (pad_left_exact 4 (name a)) by apply (rep_name a R).
  rewrite (pad_left_exact 3 (resName a)) by apply (rep_resName a R).
  rewrite (proj1 (rep_name a R)), (proj1 (rep_altLoc a R)),
          (proj1 (rep_resName a R)), (proj1 (rep_chainID a R)),
          (proj1 (rep_iCode a R)).
  rewrite (exact_decimal_length 8 3 (x a) (rep_x a R)).
  rewrite (exact_decimal_length 8 3 (y a) (rep_y a R)).
  rewrite (exact_decimal_length 8 3 (z a) (rep_z a R)).
  rewrite (exact_decimal_length 6 2 (occupancy a) (rep_occupancy a R)).
  rewrite (exact_decimal_length 6 2 (tempFactor a) (rep_tempFactor a R)).
  reflexivity.
Qed.

Lemma atom_line_concat (a : atom) :
  atom_body a ++ [newline] = concat (atom_pieces a ++ [[newline]]).
Proof. unfold atom_body. rewrite concat_app. simpl. done. Qed.

(** The columns of a written line. *)
Lemma atom_line_column (a : atom) (k : nat) (p : str) (i j : Z) :
  representable a ->
  (atom_pieces a ++ [[newline]]) !! k = Some p ->
  i = Z.of_nat (sum_list (take k
        [6; 5; 1; 4; 1; 3; 1; 1; 4; 1; 3; 8; 8; 8; 6; 6;
         length (fmt_s 2 (element a)); length (fmt_s 2 (charge a)); 1]%nat)) ->
  j = Z.of_nat (sum_list (take (S k)
        [6; 5; 1; 4; 1; 3; 1; 1; 4; 1; 3; 8; 8; 8; 6; 6;
         length (fmt_s 2 (element a)); length (fmt_s 2 (charge a)); 1]%nat)) ->
  py_slice (atom_body a ++ [newline]) i j = p.
Proof.
  intros R Hk Hi Hj. rewrite atom_line_concat.
  by apply (slice_column _ _ k p i j (atom_line_widths a R)).
Qed.

(** Reading the line written for a record gives the record back. *)
Lemma parse_atom_body (a : atom) :
  representable a ->
  is_atom_line (atom_body a ++ [newline]) = true /\
  exists a', parse_atom (atom_body a ++ [newline]) = Ok a' /\ same_key a a'.
Proof.
  intros R.
  set (line := atom_body a ++ [newline]).
  assert (py_slice line 0 6 = lit "ATOM  ") as H0
    by (by apply (atom_line_column a 0)).
  assert (py_slice line 6 11 = fmt_d 5 (serial a)) as H1
    by (by apply (atom_line_column a 1)).
  assert (py_slice line 12 16 = name a) as H3.
  { transitivity (fmt_s 4 (name a)); [by apply (atom_line_column a 3)|].
    apply pad_left_exact, (rep_name a R). }
  assert (py_slice line 16 17 = altLoc a) as H4
    by (by apply (atom_line_column a 4)).
  assert (py_slice line 17 20 = resName a) as H5.
  { transitivity (fmt_s 3 (resName a)); [by apply (atom_line_column a 5)|].
    apply pad_left_exact, (rep_resName a R). }
  assert (py_slice line 21 22 = chainID a) as H7
    by (by apply (atom_line_column a 7)).
  assert (py_slice line 22 26 = fmt_d 4 (resSeq a)) as H8
    by (by apply (atom_line_column a 8)).
  assert (py_slice line 26 27 = iCode a) as H9
    by (by apply (atom_line_column a 9)).
  assert (py_slice line 30 38 = fmt_f 8 3 (x a)) as H11
    by (by apply (atom_line_column a 11)).
  assert (py_slice line 38 46 = fmt_f 8 3 (y a)) as H12
    by (by apply (atom_line_column a 12)).
  assert (py_slice line 46 54 = fmt_f 8 3 (z a)) as H13
    by (by apply (atom_line_column a 13)).
  assert (py_slice line 54 60 = fmt_f 6 2 (occupancy a)) as H14
    by (by apply (atom_line_column a 14)).
  assert (py_slice line 60 66 = fmt_f 6 2 (tempFactor a)) as H15
    by (by apply (atom_line_column a 15)).
  split.
  { unfold is_atom_line, str_eqb. rewrite H0. by apply bool_decide_eq_true_2. }
  destruct (py_float_fmt_f 8 2 (x a) (rep_x a R)) as (vx & Hx & Ex & _).
  destruct (py_float_fmt_f 8 2 (y a) (rep_y a R)) as (vy & Hy & Ey & _).
  destruct (py_float_fmt_f 8 2 (z a) (rep_z a R)) as (vz & Hz & Ez & _).
  destruct (py_float_fmt_f 6 1 (occupancy a) (rep_occupancy a R))
    as (vo & Ho & Eo & So).
  destruct (py_float_fmt_f 6 1 (tempFactor a) (rep_tempFactor a R))
    as (vt & Ht & Et & St).
  unfold parse_atom, int_of, float_of, str_eqb.
  rewrite H1, H3, H4, H5, H7, H8, H9, H11, H12, H13, H14, H15.
  rewrite !py_int_fmt_d, Hx, Hy, Hz.
  rewrite !bool_decide_eq_false_2 by done.
  rewrite Ho, Ht. simpl.
  eexists. split; [reflexivity|].
  unfold same_key. simpl. by repeat split.
Qed.

Lemma hold_files (w : world) (fs : gmap string str) (ls : list loc)
    (vs : list atom) :
  hold w ls vs -> hold (set_files fs w) ls vs.
Proof. done. Qed.

Lemma write_atoms_loop_spec (fname : string) (atoms : list loc) :
  forall (vals : list atom) (w : world) (old : str),
    hold w atoms vals ->
    Forall representable vals ->
    files w !! fname = Some old ->
    write_atoms_loop fname atoms w =
      (Ok tt,
       set_files (<[fname := old ++
                     concat ((fun b => b ++ [newline]) <$> (atom_body <$> vals))]>
                    (files w)) w).
Proof.
  induction atoms as [|l rest IH]; intros vals w old Hh HR Hold.
  - inversion Hh; subst. simpl. rewrite app_nil_r, insert_id by done.
    by destruct w.
  - inversion Hh as [|? a ? vals' Hl Hrest]; subst.
    apply Forall_cons in HR as [Ra HR]. simpl write_atoms_loop.
    erewrite bind_ok by (by apply get_dict_ok).
    unfold lift at 1. erewrite bind_ok by (by rewrite (format_atom_body a Ra)).
    erewrite bind_ok by (by apply write_ok).
    erewrite IH; [| exact Hrest | exact HR | apply lookup_insert_eq].
    rewrite set_files_twice, files_set_files, insert_insert_eq.
    rewrite !fmap_cons, concat_cons. by rewrite <- !app_assoc.
Qed.

Lemma read_atoms_loop_cons (line : str) (rest : list str) (atoms : list atom) :
  read_atoms_loop (line :: rest) atoms =
    if is_atom_line line
    then parse_atom line ≫= (fun a => read_atoms_loop rest (atoms ++ [a]))
    else read_atoms_loop rest atoms.
Proof. reflexivity. Qed.

Lemma read_atoms_loop_bodies (vals : list atom) :
  Forall representable vals ->
  forall acc, exists atoms',
    read_atoms_loop ((fun b => b ++ [newline]) <$> (atom_body <$> vals)) acc
      = Ok (acc ++ atoms') /\
    Forall2 same_key vals atoms'.
Proof.
  induction vals as [|a vals IH]; intros HR acc.
  - exists []. simpl. rewrite app_nil_r. split; [done | constructor].
  - apply Forall_cons in HR as [Ra HR].
    destruct (parse_atom_body a Ra) as (Hatom & a' & Hparse & Hkey).
    destruct (IH HR (acc ++ [a'])) as (atoms' & Hrun & Hall).
    exists (a' :: atoms').
    rewrite !fmap_cons, read_atoms_loop_cons, Hatom, Hparse.
    change (Ok a' ≫= (fun a0 => read_atoms_loop
              ((fun b => b ++ [newline]) <$> (atom_body <$> vals)) (acc ++ [a0])))
      with (read_atoms_loop
              ((fun b => b ++ [newline]) <$> (atom_body <$> vals)) (acc ++ [a'])).
    rewrite Hrun, <- app_assoc. split; [done | by constructor].
Qed.

(** C1.  Records whose fields fill their columns (see [representable]),
    written by [writeAtomsToPDB] without renumbering and read back by
    [readAtomsFromPDB], come back in the same order with the same serial,
    name, altLoc, resName, chainID, resSeq, iCode, x, y, z, occupancy and
    tempFactor.  (The written columns are never blank, so the defaults of
    the reader do not come into play.) *)
Theorem pdb_round_trip (w : world) (fname : string) (atoms : list loc)
    (vals : list atom) :
  hold w atoms vals ->
  Forall representable vals ->
  exists w' atoms',
    writeAtomsToPDB fname atoms false w = (Ok tt, w') /\
    readAtomsFromPDB fname w' = (Ok atoms', w') /\
    Forall2 same_key vals atoms'.
Proof.
  intros Hh HR.
  set (text := concat ((fun b => b ++ [newline]) <$> (atom_body <$> vals))).
  exists (set_files (<[fname := text]> (files w)) w).
  destruct (read_atoms_loop_bodies vals HR []) as (atoms' & Hrun & Hall).
  exists atoms'. split; [|split; [|done]].
  - unfold writeAtomsToPDB. erewrite bind_ok by reflexivity.
    unfold open_w. erewrite bind_ok by reflexivity.
    erewrite write_atoms_loop_spec;
      [| by apply hold_files | exact HR | apply lookup_insert_eq].
    by rewrite set_files_twice, files_set_files, insert_insert_eq.
  - rewrite (readAtomsFromPDB_read_atoms fname text)
      by apply lookup_insert_eq.
    f_equal. unfold read_atoms, text. rewrite readlines_concat; [done|].
    apply Forall_fmap. eapply Forall_impl; [exact HR|].
    intros a Ra. by apply atom_body_no_newline.
Qed.

Ltac exact_decimal_at k :=
  eexists _, k; split; [reflexivity | split; [reflexivity | vm_compute; lia]].

Ltac column_text := split; [reflexivity | repeat constructor; discriminate].

Lemma pdb_round_trip_witness :
  exists w' atoms',
    writeAtomsToPDB "out.pdb" [1; 2; 3]%positive false ex_dicts = (Ok tt, w') /\
    readAtomsFromPDB "out.pdb" w' = (Ok atoms', w') /\
    Forall2 same_key ex_numbered atoms'.
Proof.
  apply (pdb_round_trip ex_dicts "out.pdb" [1; 2; 3]%positive ex_numbered).
  - repeat constructor.
  - repeat (apply Forall_cons; split; [|]); [.. | apply Forall_nil_2];
      (constructor; simpl;
       [ vm_compute; lia | column_text | column_text | column_text
       | column_text | vm_compute; lia | column_text
       | exact_decimal_at 1234 | exact_decimal_at (-5000) | exact_decimal_at 0
       | exact_decimal_at 100 | exact_decimal_at 0
       | repeat constructor; discriminate | repeat constructor; discriminate ]).
Defined.

(** The text written for the three example atoms. *)
Example writeAtomsToPDB_example :
  files (writeAtomsToPDB "out.pdb" [1; 2; 3]%positive false ex_dicts).2
    !! "out.pdb" =
  Some (lit
"ATOM      1  O   HOH A   1       1.234  -5.000   0.000  1.00  0.00 O  
ATOM      2  H1  HOH A   1       1.234  -5.000   0.000  1.00  0.00 O  
ATOM      3  O   HOH A   2       1.234  -5.000   0.000  1.00  0.00 O  
").
Proof. by vm_compute. Qed.

(** ** External tools *)

Lemma bind_cong {A B : Type} (m1 m2 : M A) (f g : A -> M B) (w : world) :
  m1 w = m2 w ->
  (forall a w', f a w' = g a w') ->
  (m1 ≫= f) w = (m2 ≫= g) w.
Proof.
  intros Hm Hf. unfold mbind, M_bind. rewrite Hm.
  destruct (m2 w) as [[a|e] w']; [apply Hf | done].
Qed.

(** [commands.getoutput] depends on the text printed and on the files the
    program leaves, not on its exit status. *)
Lemma commands_getoutput_status
    (run1 run2 : command -> gmap string str -> Z * str * gmap string str)
    (cmd : str) (w : world) :
  (forall c fs, (run1 c fs).1.2 = (run2 c fs).1.2 /\ (run1 c fs).2 = (run2 c fs).2) ->
  commands_getoutput run1 cmd w = commands_getoutput run2 cmd w.
Proof.
  intros H. unfold commands_getoutput, commands_getstatusoutput, run_command,
    mbind, M_bind.
  destruct (H (Shell cmd) (files w)) as [H1 H2].
  destruct (run1 (Shell cmd) (files w)) as [[s1 t1] fs1].
  destruct (run2 (Shell cmd) (files w)) as [[s2 t2] fs2].
  simpl in H1, H2. by subst.
Qed.

Lemma resolvate_status
    (run1 run2 : command -> gmap string str -> Z * str * gmap string str)
    (reference_pdb reference_crd source_pdb output_crd tmpdir : string)
    (w : world) :
  (forall c fs, (run1 c fs).1.2 = (run2 c fs).1.2 /\ (run1 c fs).2 = (run2 c fs).2) ->
  resolvate run1 reference_pdb reference_crd source_pdb output_crd tmpdir w =
  resolvate run2 reference_pdb reference_crd source_pdb output_crd tmpdir w.
Proof.
  intros H. unfold resolvate.
  apply bind_cong; [done|]. intros reference_sequence w1.
  apply bind_cong; [done|]. intros source_sequence w2.
  apply bind_cong; [done|]. intros [[[[t n] cs] bd] ba] w3.
  destruct bd as [|bx [|by_ [|bz [|]]]]; try done.
  apply bind_cong; [by apply commands_getoutput_status|]. intros date w4.
  apply bind_cong; [done|]. intros atoms w5.
  apply bind_cong; [done|]. intros refs w6.
  apply bind_cong; [done|]. intros [] w7.
  apply bind_cong; [done|]. intros [] w8.
  apply bind_cong; [done|]. intros [] w9.
  apply bind_cong; [done|]. intros [] w10.
  apply bind_cong; [by apply commands_getoutput_status|]. intros output w11.
  done.
Qed.

Lemma subprocess_call_calls
    (run : command -> gmap string str -> Z * str * gmap string str)
    (c : command) (stdout stderr : string) (w w' : world) (status : Z) :
  subprocess_call run c stdout stderr w = (Ok status, w') ->
  calls w' = calls w ++ [c].
Proof.
  unfold subprocess_call, open_w, run_command, mbind, M_bind, set_files. simpl.
  destruct (run c _) as [[s t] fs]. simpl. by intros [= <- <-].
Qed.

Lemma subprocess_call_total
    (run : command -> gmap string str -> Z * str * gmap string str)
    (c : command) (stdout stderr : string) (w : world) :
  exists status w', subprocess_call run c stdout stderr w = (Ok status, w').
Proof.
  unfold subprocess_call, open_w, run_command, mbind, M_bind, set_files. simpl.
  destruct (run c _) as [[s t] fs]. simpl. by eexists _, _.
Qed.

(** C9, as the claim states it, fails for the packing executable: here
    Packmol exits with status 1 after writing output.pdb, and the script
    goes on, reads that file and writes the output coordinate file. *)
Lemma resolvate_goes_on_after_failure :
  (ex_run (Shell ex_packmol_line) (files ex_resolvate_world)).1.1 = 1 /\
  let r := resolvate ex_run "ref.pdb" "ref.crd" "src.pdb" "out.crd" "/tmp/x"
                     ex_resolvate_world in
  r.1 = Ok tt /\
  calls r.2 = [Shell (lit "date"); Shell ex_packmol_line] /\
  is_Some (files r.2 !! "out.crd").
Proof.
  split; [reflexivity|]. cbv zeta.
  split; [by vm_compute|]. split; [by vm_compute|].
  apply not_eq_None_Some. by vm_compute.
Qed.

(** C9, amended.  In [gromacs_energies] each of the three tools (grompp,
    mdrun, g_energy) that exits with a non-zero status makes the function
    raise an [Exception] whose message names the tool; the command is not
    run again and no later command is run (the log of commands ends with
    the one that failed).  The resolvation script does not look at the
    exit status of Packmol: its outcome is the same whatever status the
    external programs return. *)
Theorem external_tool_failures
    (run : command -> gmap string str -> Z * str * gmap string str)
    (energies : Type) (read_energies : string -> M energies)
    (top gro mdp gropath grosuff : string) (grompp_check : bool) (w : world) :
  let stdout := os_path_join (os_path_dirname top) "gromacs_stdout.txt" in
  let stderr := os_path_join (os_path_dirname top) "gromacs_stderr.txt" in
  let call c := subprocess_call run c stdout stderr in
  let result := gromacs_energies run energies read_energies
                                 top gro mdp gropath grosuff grompp_check w in
  (forall e1 w1,
     call (grompp_command top gro mdp gropath grosuff) w = (Ok e1, w1) ->
     (e1 <> 0 ->
      result = (Err (failed "grompp" top), w1) /\
      calls w1 = calls w ++ [grompp_command top gro mdp gropath grosuff]) /\
     (e1 = 0 -> grompp_check = false ->
      forall e2 w2,
        call (mdrun_command top gropath grosuff) w1 = (Ok e2, w2) ->
        (e2 <> 0 ->
         result = (Err (failed "mdrun" top), w2) /\
         calls w2 = calls w ++ [grompp_command top gro mdp gropath grosuff;
                                mdrun_command top gropath grosuff]) /\
        (e2 = 0 ->
         forall e3 w3,
           call (genergy_command top gropath grosuff) w2 = (Ok e3, w3) ->
           e3 <> 0 ->
           result = (Err (failed "g_energy" top), w3) /\
           calls w3 = calls w ++ [grompp_command top gro mdp gropath grosuff;
                                  mdrun_command top gropath grosuff;
                                  genergy_command top gropath grosuff]))) /\
  (forall run' reference_pdb reference_crd source_pdb output_crd tmpdir w0,
     (forall c fs, (run c fs).1.2 = (run' c fs).1.2 /\
                   (run c fs).2 = (run' c fs).2) ->
     resolvate run reference_pdb reference_crd source_pdb output_crd tmpdir w0 =
     resolvate run' reference_pdb reference_crd source_pdb output_crd tmpdir w0).
Proof.
  cbv zeta. split; [|intros; by apply resolvate_status].
  intros e1 w1 H1. unfold gromacs_energies.
  erewrite bind_ok by exact H1.
  pose proof (subprocess_call_calls _ _ _ _ _ _ _ H1) as C1.
  split.
  { intros Hne. destruct (Z.eqb_spec e1 0); [done|]. by split. }
  intros -> ->. change (negb (0 =? 0)) with false. cbv iota.
  intros e2 w2 H2. erewrite bind_ok by exact H2.
  pose proof (subprocess_call_calls _ _ _ _ _ _ _ H2) as C2.
  split.
  { intros Hne. destruct (Z.eqb_spec e2 0); [done|]. split; [done|].
    by rewrite C2, C1, <- app_assoc. }
  intros ->. change (negb (0 =? 0)) with false. cbv iota.
  intros e3 w3 H3 Hne. erewrite bind_ok by exact H3.
  pose proof (subprocess_call_calls _ _ _ _ _ _ _ H3) as C3.
  destruct (Z.eqb_spec e3 0); [done|]. split; [done|].
  by rewrite C3, C2, C1, <- !app_assoc.
Qed.

Lemma external_tool_failures_witness :
  (gromacs_energies ex_run unit (fun _ => mret tt)
                    "run/system.top" "run/system.gro" "run/grompp.mdp"
                    "" "_d" false ex_resolvate_world).1
  = Err (Exception (lit "grompp failed for run/system.top")).
Proof.
  destruct (subprocess_call_total ex_run
              (grompp_command "run/system.top" "run/system.gro"
                              "run/grompp.mdp" "" "_d")
              "run/gromacs_stdout.txt" "run/gromacs_stderr.txt"
              ex_resolvate_world) as (e1 & w1 & H1).
  assert (e1 = 1) as -> by (vm_compute in H1; congruence).
  destruct (proj1 (external_tool_failures ex_run unit (fun _ => mret tt)
              "run/system.top" "run/system.gro" "run/grompp.mdp" "" "_d"
              false ex_resolvate_world) 1 w1 H1) as [Hfail _].
  destruct (Hfail ltac:(discriminate)) as [-> _]. reflexivity.
Defined.

(** * Further properties *)

(** ** The structure-file readers *)

Lemma read_atoms_loop_parse_all (lines : list str) :
  forall acc,
    read_atoms_loop lines acc =
      (atoms ← parse_all (filter (fun line => is_atom_line line = true) lines);
       mret (acc ++ atoms)).
Proof.
  induction lines as [|line rest IH]; intros acc.
  - simpl. by rewrite app_nil_r.
  - rewrite read_atoms_loop_cons, filter_cons.
    destruct (is_atom_line line) eqn:Hl.
    + rewrite decide_True by done. simpl parse_all.
      destruct (parse_atom line) as [a|e]; [|done].
      simpl. rewrite IH.
      destruct (parse_all _) as [atoms|e]; [|done].
      simpl. unfold mret, result_ret. by rewrite <- app_assoc.
    + rewrite decide_False by done. apply IH.
Qed.

(** [readAtomsFromPDB] looks at the ATOM lines only -- HETATM, TER, REMARK
    and all other lines play no part -- and returns one record per ATOM
    line, in file order; its failure is that of the first ATOM line that
    cannot be parsed. *)
Theorem readAtomsFromPDB_atom_lines (w : world) (fname : string) (text : str) :
  files w !! fname = Some text ->
  readAtomsFromPDB fname w = (parse_all (atom_lines text), w) /\
  (forall atoms, parse_all (atom_lines text) = Ok atoms ->
     length atoms = length (atom_lines text)).
Proof.
  intros Hf. split.
  - rewrite (readAtomsFromPDB_read_atoms _ _ _ Hf). f_equal.
    unfold read_atoms, atom_lines. rewrite read_atoms_loop_parse_all.
    by destruct (parse_all _).
  - generalize (atom_lines text). intros lines.
    induction lines as [|line rest IH]; intros atoms H.
    + by injection H as <-.
    + simpl in H. destruct (parse_atom line) as [a|e]; [|done].
      simpl in H. destruct (parse_all rest) as [atoms'|e]; [|done].
      injection H as <-. simpl. f_equal. by apply IH.
Qed.

Lemma readAtomsFromPDB_atom_lines_witness :
  readAtomsFromPDB "ab.pdb" ex_pdb_files =
    (parse_all (atom_lines ex_pdb), ex_pdb_files) /\
  (forall atoms, parse_all (atom_lines ex_pdb) = Ok atoms ->
     length atoms = length (atom_lines ex_pdb)).
Proof.
  apply (readAtomsFromPDB_atom_lines ex_pdb_files "ab.pdb" ex_pdb).
  reflexivity.
Defined.

(** The ten lines of the example file hold seven atoms. *)
Example readAtomsFromPDB_example :
  length (readlines ex_pdb) = 10%nat /\
  match read_atoms ex_pdb with
  | Ok atoms => length atoms = 7%nat
  | Err _ => False
  end.
Proof. by vm_compute. Qed.

Lemma parse_seq_field_bad (line : str) :
  py_int (py_slice line 6 11) = None \/ py_int (py_slice line 22 26) = None ->
  parse_seq_field line = Err ValueError.
Proof.
  unfold parse_seq_field, int_of, or_value_error.
  intros [H | H].
  - by rewrite H.
  - rewrite H. by destruct (py_int (py_slice line 6 11)).
Qed.

Lemma parse_seq_field_error (line : str) (e : exn) :
  parse_seq_field line = Err e -> e = ValueError.
Proof.
  unfold parse_seq_field, int_of, or_value_error.
  destruct (py_int (py_slice line 6 11)); simpl; [|congruence].
  destruct (py_int (py_slice line 22 26)); simpl; [|congruence].
  unfold mret, result_ret. congruence.
Qed.

Lemma present_loop_bad (chain : str) (lines : list str) (line : str) :
  line ∈ lines -> is_atom_line line = true ->
  py_int (py_slice line 6 11) = None \/ py_int (py_slice line 22 26) = None ->
  forall sequence last,
    present_loop chain lines sequence last = Err ValueError.
Proof.
  intros Hin Hatom Hbad.
  induction lines as [|l rest IH]; intros sequence last;
    [by apply elem_of_nil in Hin|].
  simpl. apply elem_of_cons in Hin as [<- | Hin].
  - by rewrite Hatom, parse_seq_field_bad.
  - destruct (is_atom_line l); [|by apply IH].
    destruct (parse_seq_field l) as [f|e] eqn:E; simpl.
    + repeat case_match; by apply IH.
    + by rewrite (parse_seq_field_error _ _ E).
Qed.

(** [getPresentSequence] converts the serial and residue-number columns of
    every ATOM line before it looks at the chain: an ATOM line of any
    chain without a number there makes the call fail with [ValueError],
    whatever chain was asked for. *)
Theorem getPresentSequence_any_chain_fails (w : world) (fname : string)
    (text line : str) :
  files w !! fname = Some text ->
  line ∈ atom_lines text ->
  py_int (py_slice line 6 11) = None \/ py_int (py_slice line 22 26) = None ->
  forall chain, getPresentSequence fname chain w = (Err ValueError, w).
Proof.
  intros Hf Hin Hbad chain. unfold getPresentSequence.
  erewrite bind_ok by (by apply open_r_ok).
  unfold lift, present_sequence.
  apply list_elem_of_filter in Hin as [Hatom Hin].
  by rewrite (present_loop_bad chain _ line Hin Hatom Hbad).
Qed.

Lemma getPresentSequence_any_chain_fails_witness :
  getPresentSequence "badchain.pdb" (lit "A") ex_pdb_files3 =
    (Err ValueError, ex_pdb_files3) /\
  getPresentSequence "badchain.pdb" (lit "Z") ex_pdb_files3 =
    (Err ValueError, ex_pdb_files3).
Proof.
  split.
  - apply (getPresentSequence_any_chain_fails ex_pdb_files3 "badchain.pdb"
             ex_pdb_bad_chain ex_pdb_bad_chain_line).
    + reflexivity.
    + apply list_elem_of_filter. split; [reflexivity|].
      apply list_elem_of_lookup. exists 1%nat. reflexivity.
    + right. reflexivity.
  - apply (getPresentSequence_any_chain_fails ex_pdb_files3 "badchain.pdb"
             ex_pdb_bad_chain ex_pdb_bad_chain_line).
    + reflexivity.
    + apply list_elem_of_filter. split; [reflexivity|].
      apply list_elem_of_lookup. exists 1%nat. reflexivity.
    + right. reflexivity.
Defined.

Lemma parse_atom_field (line : str) (a : atom) :
  parse_atom line = Ok a -> parse_seq_field line = Ok (field_of a).
Proof.
  unfold parse_atom, parse_seq_field, int_of, float_of, or_value_error.
  destruct (py_int (py_slice line 6 11)); simpl; [|congruence].
  destruct (py_int (py_slice line 22 26)); simpl; [|congruence].
  destruct (py_float (py_slice line 30 38)); simpl; [|congruence].
  destruct (py_float (py_slice line 38 46)); simpl; [|congruence].
  destruct (py_float (py_slice line 46 54)); simpl; [|congruence].
  destruct (negb (str_eqb (strip (py_slice line 54 60)) []));
    [destruct (py_float (py_slice line 54 60)); simpl; [|congruence]|];
    (destruct (negb (str_eqb (strip (py_slice line 60 66)) []));
     [destruct (py_float (py_slice line 60 66)); simpl; [|congruence]|]);
    simpl; unfold mret, result_ret; intros [= <-]; reflexivity.
Qed.

Lemma atom_fields_parse_all (lines : list str) :
  forall atoms,
    parse_all (filter (fun line => is_atom_line line = true) lines) = Ok atoms ->
    atom_fields lines = Ok (field_of <$> atoms).
Proof.
  induction lines as [|line rest IH]; intros atoms H.
  - by injection H as <-.
  - rewrite filter_cons in H. simpl atom_fields.
    destruct (is_atom_line line) eqn:Hl.
    + rewrite decide_True in H by done. simpl in H.
      destruct (parse_atom line) as [a|e] eqn:Ha; [|done]. simpl in H.
      destruct (parse_all _) as [atoms'|e] eqn:Hrest; [|done].
      injection H as <-.
      rewrite (parse_atom_field _ _ Ha). simpl.
      by rewrite (IH atoms' eq_refl).
    + rewrite decide_False in H by done. by apply IH.
Qed.

Lemma run_heads_from_fmap {A B : Type} (f : A -> B) (key : B -> Z) (l : list A) :
  forall prev,
    run_heads_from key prev (f <$> l) = f <$> run_heads_from (key ∘ f) prev l.
Proof.
  induction l as [|a l IH]; intros prev; [done|].
  rewrite fmap_cons, !run_heads_from_cons, fmap_app, IH. simpl.
  by case_bool_decide.
Qed.

Lemma of_chain_field_of (chain : str) (atoms : list atom) :
  of_chain chain (field_of <$> atoms) = field_of <$> atoms_of_chain chain atoms.
Proof.
  unfold of_chain, atoms_of_chain.
  induction atoms as [|a atoms IH]; [done|].
  rewrite fmap_cons, !filter_cons. simpl.
  case_decide; by rewrite IH.
Qed.

(** The two readers agree: on a file that [readAtomsFromPDB] can read,
    [getPresentSequence] returns, for every chain, the residue names of
    the run heads of the atoms of that chain among the atoms read. *)
Theorem getPresentSequence_of_atoms (w : world) (fname : string) (text : str)
    (atoms : list atom) :
  files w !! fname = Some text ->
  readAtomsFromPDB fname w = (Ok atoms, w) ->
  forall chain,
    getPresentSequence fname chain w =
      (Ok (resName <$> run_heads resSeq (atoms_of_chain chain atoms)), w).
Proof.
  intros Hf Hread chain.
  rewrite (readAtomsFromPDB_read_atoms _ _ _ Hf) in Hread.
  injection Hread as Hread. unfold read_atoms in Hread.
  rewrite read_atoms_loop_parse_all in Hread.
  destruct (parse_all _) as [atoms'|e] eqn:Hall; [|done].
  injection Hread as <-.
  unfold getPresentSequence. erewrite bind_ok by (by apply open_r_ok).
  unfold lift, present_sequence.
  rewrite (present_loop_spec chain _ _ [] None (atom_fields_parse_all _ _ Hall)).
  do 2 f_equal. simpl.
  rewrite of_chain_field_of. unfold run_heads.
  rewrite run_heads_from_fmap, <- list_fmap_compose. done.
Qed.

Lemma getPresentSequence_of_atoms_witness :
  getPresentSequence "blank.pdb" (lit "A") ex_pdb_files2 =
    (Ok (resName <$>
           run_heads resSeq (atoms_of_chain (lit "A") ex_blank_atoms)),
     ex_pdb_files2).
Proof.
  apply (getPresentSequence_of_atoms ex_pdb_files2 "blank.pdb" ex_pdb_blank);
    [reflexivity | by vm_compute].
Defined.

Lemma run_heads_from_length {A : Type} (key : A -> Z) (l : list A) :
  forall prev, (length (run_heads_from key prev l) <= length l)%nat.
Proof.
  induction l as [|a l IH]; intros prev; [done|].
  rewrite run_heads_from_cons, length_app. specialize (IH (Some (key a))).
  case_bool_decide; simpl; lia.
Qed.

Lemma run_heads_from_covers {A : Type} (key : A -> Z) (l : list A) :
  forall prev k,
    k ∈ key <$> l ->
    prev = Some k \/ k ∈ key <$> run_heads_from key prev l.
Proof.
  induction l as [|a l IH]; intros prev k Hk; [by apply elem_of_nil in Hk|].
  rewrite fmap_cons in Hk. rewrite run_heads_from_cons, fmap_app.
  assert (prev = Some (key a) \/
          key a ∈ (key <$> (if bool_decide (prev = Some (key a)) then []
                            else [a]))) as Hhead.
  { case_bool_decide; [by left | right]. simpl. apply list_elem_of_here. }
  apply elem_of_cons in Hk as [-> | Hk].
  - destruct Hhead as [? | ?]; [by left | right].
    apply elem_of_app. by left.
  - destruct (IH (Some (key a)) k Hk) as [[= <-] | Hin].
    + destruct Hhead as [? | ?]; [by left | right].
      apply elem_of_app. by left.
    + right. apply elem_of_app. by right.
Qed.

(** The length of the sequence [getPresentSequence] returns lies between
    the number of different residue numbers on the ATOM lines of the chain
    and the number of these lines; it is empty only when the chain has no
    ATOM line.  (A residue number that comes back after another one is
    counted again.) *)
Theorem getPresentSequence_length (w : world) (fname : string) (text : str)
    (fs : list seq_field) (chain : str) (sequence : list str) :
  files w !! fname = Some text ->
  atom_fields (readlines text) = Ok fs ->
  getPresentSequence fname chain w = (Ok sequence, w) ->
  (length (remove_dups (f_resSeq <$> of_chain chain fs)) <= length sequence)%nat /\
  (length sequence <= length (of_chain chain fs))%nat /\
  (sequence = [] <-> of_chain chain fs = []).
Proof.
  intros Hf Hfs Hrun. unfold getPresentSequence in Hrun.
  erewrite bind_ok in Hrun by (by apply open_r_ok).
  unfold lift, present_sequence in Hrun.
  rewrite (present_loop_spec chain _ fs [] None Hfs) in Hrun.
  injection Hrun as <-. simpl.
  generalize (of_chain chain fs). intros l.
  assert (length (remove_dups (f_resSeq <$> l)) <=
          length (run_heads_from f_resSeq None l))%nat as Hlow.
  { rewrite <- (length_fmap f_resSeq (run_heads_from f_resSeq None l)).
    apply submseteq_length, NoDup_submseteq; [apply NoDup_remove_dups|].
    intros k Hk. rewrite elem_of_remove_dups in Hk.
    by destruct (run_heads_from_covers f_resSeq l None k Hk). }
  pose proof (run_heads_from_length f_resSeq l None) as Hup.
  rewrite length_fmap. split; [done|]. split; [done|]. split.
  - intros E. apply fmap_nil_inv in E. destruct l as [|f l']; [done|].
    unfold run_heads in E. rewrite run_heads_from_cons in E. discriminate E.
  - intros E. by rewrite E.
Qed.

Lemma getPresentSequence_length_witness :
  (length (remove_dups (f_resSeq <$> of_chain (lit "A") ex_pdb_fields)) <= 3)%nat /\
  (3 <= length (of_chain (lit "A") ex_pdb_fields))%nat /\
  ([lit "ALA"; lit "GLY"; lit "SER"] = [] <->
   of_chain (lit "A") ex_pdb_fields = []).
Proof.
  apply (getPresentSequence_length ex_pdb_files "ab.pdb" ex_pdb ex_pdb_fields
           (lit "A") [lit "ALA"; lit "GLY"; lit "SER"]);
    [reflexivity | by vm_compute | by vm_compute].
Defined.

(** ** The structure-file writer *)

Lemma renumber_values_twice (vals : list atom) :
  renumber_values (renumber_values vals 1 0 None) 1 0 None =
  renumber_values vals 1 0 None.
Proof.
  set (out := renumber_values vals 1 0 None).
  assert (forall (i : nat) a', out !! i = Some a' -> exists a, vals !! i = Some a)
    as Horig.
  { intros i a' Hi. apply lookup_lt_Some in Hi.
    unfold out in Hi. rewrite renumber_values_length in Hi.
    by apply lookup_lt_is_Some_2. }
  apply renumber_values_noop.
  - intros i a' Hi. destruct (Horig i a' Hi) as [a Ha].
    destruct (renumber_values_serial vals 1 0 None i a a' Ha Hi) as [r' ->].
    reflexivity.
  - intros a' Hi. destruct vals as [|v rest]; [done|].
    unfold out in Hi. rewrite renumber_values_cons in Hi. cbv zeta in Hi.
    simpl in Hi. injection Hi as <-. reflexivity.
  - intros i p' c' Hp Hc.
    destruct (Horig i p' Hp) as [p Hp0]. destruct (Horig (S i) c' Hc) as [c Hc0].
    rewrite (renumber_values_adjacent vals 1 0 None i p c p' c' Hp0 Hc0 Hp Hc).
    case_bool_decide; lia.
Qed.

Lemma write_atoms_loop_cons (fname : string) (l : loc) (rest : list loc)
    (w : world) :
  write_atoms_loop fname (l :: rest) w =
    match dicts w !! l with
    | None => (Err dangling, w)
    | Some a =>
        match format_atom a with
        | Err e => (Err e, w)
        | Ok line =>
            write_atoms_loop fname rest
              (set_files (<[fname := default [] (files w !! fname) ++ line]>
                            (files w)) w)
        end
    end.
Proof.
  simpl. unfold mbind at 1, M_bind at 1, get_dict.
  destruct (dicts w !! l) as [a|]; [|done].
  unfold mbind at 1, M_bind at 1, lift.
  by destruct (format_atom a).
Qed.

Lemma write_atoms_loop_ext (fname : string) (atoms : list loc) :
  forall w w',
    dicts w = dicts w' ->
    files w !! fname = files w' !! fname ->
    (write_atoms_loop fname atoms w).1 = (write_atoms_loop fname atoms w').1 /\
    files (write_atoms_loop fname atoms w).2 !! fname =
      files (write_atoms_loop fname atoms w').2 !! fname.
Proof.
  induction atoms as [|l rest IH]; intros w w' Hd Hf; [done|].
  rewrite !write_atoms_loop_cons, <- Hd, <- Hf.
  destruct (dicts w !! l) as [a|]; [|done].
  destruct (format_atom a) as [line|e]; [|done].
  apply IH; [done|]. simpl. by rewrite !lookup_insert_eq.
Qed.

Lemma renumber_pass_run (w : world) (atoms : list loc) (vals : list atom) :
  atoms <> [] -> NoDup atoms -> hold w atoms vals ->
  exists w1,
    renumber_pass atoms w = (Ok tt, w1) /\
    hold w1 atoms (renumber_values vals 1 0 None) /\
    files w1 = files w /\ lists w1 = lists w /\ calls w1 = calls w /\
    (forall l, l ∉ atoms -> dicts w1 !! l = dicts w !! l).
Proof.
  intros Hne Hnd Hh.
  destruct (renumber_loop_spec atoms vals 1 0 None w Hnd Hh)
    as (w1 & Hrun & Hrest).
  exists w1. split; [|done].
  unfold renumber_pass. destruct atoms as [|l rest]; [done|].
  inversion Hh; subst.
  by erewrite bind_ok by (by apply get_dict_ok).
Qed.

Lemma hold_lookup (w : world) (atoms : list loc) (vals : list atom) (l : loc) :
  hold w atoms vals -> l ∈ atoms ->
  exists (i : nat) a, atoms !! i = Some l /\ vals !! i = Some a /\
                      dicts w !! l = Some a.
Proof.
  intros Hh Hin. apply list_elem_of_lookup in Hin as [i Hi].
  destruct (Forall2_lookup_l _ _ _ i l Hh Hi) as (a & Ha & Hl).
  by exists i, a.
Qed.

(** Renumbering is idempotent: a second call of [writeAtomsToPDB] with
    [renumber = True] on the same atoms changes no dictionary and writes
    the same file as the first. *)
Theorem renumber_idempotent (w : world) (fname : string) (atoms : list loc)
    (vals : list atom) :
  atoms <> [] ->
  NoDup atoms ->
  hold w atoms vals ->
  let w1 := (writeAtomsToPDB fname atoms true w).2 in
  let w2 := (writeAtomsToPDB fname atoms true w1).2 in
  dicts w2 = dicts w1 /\ files w2 !! fname = files w1 !! fname.
Proof.
  intros Hne Hnd Hh.
  destruct (renumber_pass_run w atoms vals Hne Hnd Hh)
    as (v1 & Hp1 & Hh1 & Hf1 & _ & _ & _).
  assert (writeAtomsToPDB fname atoms true w =
          write_atoms_loop fname atoms
            (set_files (<[fname := []]> (files v1)) v1)) as Hw1.
  { unfold writeAtomsToPDB. erewrite bind_ok by exact Hp1.
    unfold open_w. by erewrite bind_ok by reflexivity. }
  cbv zeta. rewrite Hw1.
  set (u1 := set_files (<[fname := []]> (files v1)) v1).
  set (w1 := (write_atoms_loop fname atoms u1).2).
  assert (dicts w1 = dicts v1) as Hd1
    by (unfold w1; rewrite write_atoms_loop_dicts; done).
  assert (hold w1 atoms (renumber_values vals 1 0 None)) as Hh1'
    by (unfold hold; by rewrite Hd1).
  destruct (renumber_pass_run w1 atoms _ Hne Hnd Hh1')
    as (v2 & Hp2 & Hh2 & Hf2 & _ & _ & Hother2).
  rewrite renumber_values_twice in Hh2.
  unfold writeAtomsToPDB. erewrite bind_ok by exact Hp2.
  unfold open_w. erewrite bind_ok by reflexivity.
  set (u2 := set_files (<[fname := []]> (files v2)) v2).
  assert (dicts v2 = dicts w1) as Hd2.
  { apply map_eq. intros l. destruct (decide (l ∈ atoms)) as [Hin | Hout].
    - destruct (hold_lookup _ _ _ l Hh2 Hin) as (i & a & Hi & Ha & ->).
      destruct (hold_lookup _ _ _ l Hh1' Hin) as (j & b & Hj & Hb & ->).
      assert (i = j) as <- by (by eapply NoDup_lookup).
      congruence.
    - by apply Hother2. }
  split.
  - rewrite write_atoms_loop_dicts. exact Hd2.
  - apply write_atoms_loop_ext.
    + simpl. by rewrite Hd2, Hd1.
    + simpl. by rewrite !lookup_insert_eq.
Qed.

Lemma renumber_idempotent_witness :
  let w1 := (writeAtomsToPDB "wat.pdb" [1; 2; 3]%positive true ex_dicts).2 in
  let w2 := (writeAtomsToPDB "wat.pdb" [1; 2; 3]%positive true w1).2 in
  dicts w2 = dicts w1 /\ files w2 !! "wat.pdb" = files w1 !! "wat.pdb".
Proof.
  apply (renumber_idempotent ex_dicts "wat.pdb" [1; 2; 3]%positive ex_numbered).
  - discriminate.
  - compute_done.
  - repeat constructor.
Defined.

Lemma renumber_loop_frame (atoms : list loc) :
  forall s r last w,
    files (renumber_loop atoms s r last w).2 = files w /\
    lists (renumber_loop atoms s r last w).2 = lists w /\
    calls (renumber_loop atoms s r last w).2 = calls w.
Proof.
  induction atoms as [|l rest IH]; intros s r last w; [done|].
  simpl. unfold mbind at 1 3 5, M_bind at 1 3 5, get_dict.
  destruct (dicts w !! l) as [a|]; [|done].
  destruct (renumber_step (resSeq a) r last) as [r' last'].
  unfold mbind, M_bind, put_dict.
  destruct (IH (s + 1) r' last' (set_dicts (<[l:=set_numbers a s r']> (dicts w)) w))
    as (H1 & H2 & H3).
  by rewrite H1, H2, H3.
Qed.

Lemma write_atoms_loop_frame (fname : string) (atoms : list loc) :
  forall w,
    lists (write_atoms_loop fname atoms w).2 = lists w /\
    calls (write_atoms_loop fname atoms w).2 = calls w /\
    (forall g, g <> fname ->
       files (write_atoms_loop fname atoms w).2 !! g = files w !! g) /\
    (is_Some (files w !! fname) ->
     is_Some (files (write_atoms_loop fname atoms w).2 !! fname)).
Proof.
  induction atoms as [|l rest IH]; intros w; [done|].
  rewrite write_atoms_loop_cons.
  destruct (dicts w !! l) as [a|]; [|done].
  destruct (format_atom a) as [line|e]; [|done].
  destruct (IH (set_files (<[fname := default [] (files w !! fname) ++ line]>
                             (files w)) w)) as (H1 & H2 & H3 & H4).
  rewrite H1, H2. split; [done|]. split; [done|]. split.
  - intros g Hg. rewrite H3 by done. simpl. by rewrite lookup_insert_ne.
  - intros _. apply H4. simpl. rewrite lookup_insert_eq. by eexists.
Qed.

(** What [writeAtomsToPDB] leaves alone: the lists of floats, the log of
    commands and every file but the one it writes, with or without
    renumbering and whether it fails or not.  Without renumbering it
    changes no atom dictionary either, and the file exists afterwards. *)
Theorem writeAtomsToPDB_frame (w : world) (fname : string) (atoms : list loc)
    (renumber : bool) :
  let w' := (writeAtomsToPDB fname atoms renumber w).2 in
  lists w' = lists w /\
  calls w' = calls w /\
  (forall g, g <> fname -> files w' !! g = files w !! g) /\
  (renumber = false -> dicts w' = dicts w /\ is_Some (files w' !! fname)).
Proof.
  cbv zeta. unfold writeAtomsToPDB.
  destruct renumber.
  - unfold mbind at 1 3 5 7 9, M_bind at 1 3 5 7 9.
    destruct (renumber_pass atoms w) as [[[]|e] w1] eqn:Hp.
    + assert (files w1 = files w /\ lists w1 = lists w /\ calls w1 = calls w)
        as (Hf & Hl & Hc).
      { unfold renumber_pass in Hp. destruct atoms as [|l rest]; [done|].
        unfold mbind, M_bind, get_dict in Hp.
        destruct (dicts w !! l); [|done].
        pose proof (renumber_loop_frame (l :: rest) 1 0 None w) as Hfr.
        rewrite Hp in Hfr. exact Hfr. }
      unfold open_w. erewrite bind_ok by reflexivity.
      destruct (write_atoms_loop_frame fname atoms
                  (set_files (<[fname := []]> (files w1)) w1))
        as (H1 & H2 & H3 & _).
      rewrite H1, H2. simpl. split; [done|]. split; [done|].
      split; [|done]. intros g Hg. rewrite H3 by done. simpl.
      by rewrite lookup_insert_ne, Hf.
    + assert (files w1 = files w /\ lists w1 = lists w /\ calls w1 = calls w)
        as (Hf & Hl & Hc).
      { unfold renumber_pass in Hp. destruct atoms as [|l rest].
        - by injection Hp as _ <-.
        - unfold mbind, M_bind, get_dict in Hp.
          destruct (dicts w !! l); [|by injection Hp as _ <-].
          pose proof (renumber_loop_frame (l :: rest) 1 0 None w) as Hfr.
          rewrite Hp in Hfr. exact Hfr. }
      simpl. rewrite Hf. done.
  - erewrite bind_ok by reflexivity.
    unfold open_w. erewrite bind_ok by reflexivity.
    destruct (write_atoms_loop_frame fname atoms
                (set_files (<[fname := []]> (files w)) w))
      as (H1 & H2 & H3 & H4).
    rewrite H1, H2, write_atoms_loop_dicts. simpl.
    split; [done|]. split; [done|]. split.
    + intros g Hg. rewrite H3 by done. simpl. by rewrite lookup_insert_ne.
    + intros _. split; [done|]. apply H4. simpl.
      rewrite lookup_insert_eq. by eexists.
Qed.

Lemma format_atom_codes (a : atom) :
  one_char_codes a -> format_atom a = Ok (atom_body a ++ [newline]).
Proof.
  intros (H1 & H2 & H3). unfold format_atom.
  rewrite (fmt_c_one _ H1), (fmt_c_one _ H2), (fmt_c_one _ H3).
  simpl. unfold atom_body, atom_pieces. simpl concat.
  unfold mret, result_ret. f_equal.
  repeat (rewrite <- app_assoc || rewrite <- app_comm_cons). reflexivity.
Qed.

Lemma fmt_c_bad (s : str) : length s <> 1%nat -> fmt_c s = Err TypeError.
Proof. destruct s as [|c [|d s]]; by intros. Qed.

Lemma format_atom_bad (a : atom) :
  ~ one_char_codes a -> format_atom a = Err TypeError.
Proof.
  intros Hbad. unfold format_atom.
  destruct (decide (length (altLoc a) = 1%nat)) as [H1 | H1];
    [|by rewrite (fmt_c_bad _ H1)].
  rewrite (fmt_c_one _ H1). simpl.
  destruct (decide (length (chainID a) = 1%nat)) as [H2 | H2];
    [|by rewrite (fmt_c_bad _ H2)].
  rewrite (fmt_c_one _ H2). simpl.
  destruct (decide (length (iCode a) = 1%nat)) as [H3 | H3];
    [|by rewrite (fmt_c_bad _ H3)].
  by destruct Hbad.
Qed.

Lemma write_atoms_loop_bad (fname : string) (bad : atom) (rest : list atom)
    (good : list atom) :
  ~ one_char_codes bad ->
  Forall one_char_codes good ->
  forall (atoms : list loc) (w : world) (old : str),
    hold w atoms (good ++ bad :: rest) ->
    files w !! fname = Some old ->
    write_atoms_loop fname atoms w =
      (Err TypeError,
       set_files (<[fname := old ++
                     concat ((fun a => atom_body a ++ [newline]) <$> good)]>
                    (files w)) w).
Proof.
  intros Hbad Hgood. induction Hgood as [|a good Ha Hgood IH];
    intros atoms w old Hh Hold.
  - inversion Hh as [|l ? atoms' ? Hl Hrest]; subst.
    rewrite write_atoms_loop_cons, Hl, (format_atom_bad _ Hbad).
    simpl. rewrite app_nil_r, insert_id by done. by destruct w.
  - inversion Hh as [|l ? atoms' ? Hl Hrest]; subst.
    rewrite write_atoms_loop_cons, Hl, (format_atom_codes _ Ha), Hold.
    simpl default.
    rewrite (IH atoms' _ (old ++ atom_body a ++ [newline]));
      [| exact Hrest | apply lookup_insert_eq].
    rewrite set_files_twice, files_set_files, insert_insert_eq.
    rewrite fmap_cons, concat_cons. by rewrite <- !app_assoc.
Qed.

(** An atom whose altLoc, chainID or iCode is not exactly one character
    makes [writeAtomsToPDB] raise [TypeError] in the middle of its work:
    the file has been created and holds the lines of the atoms that come
    before the bad one; no dictionary has changed. *)
Theorem writeAtomsToPDB_bad_code (w : world) (fname : string)
    (atoms : list loc) (good : list atom) (bad : atom) (rest : list atom) :
  hold w atoms (good ++ bad :: rest) ->
  Forall one_char_codes good ->
  ~ one_char_codes bad ->
  writeAtomsToPDB fname atoms false w =
    (Err TypeError,
     set_files (<[fname := concat ((fun a => atom_body a ++ [newline]) <$> good)]>
                  (files w)) w).
Proof.
  intros Hh Hgood Hbad. unfold writeAtomsToPDB.
  erewrite bind_ok by reflexivity.
  unfold open_w. erewrite bind_ok by reflexivity.
  rewrite (write_atoms_loop_bad fname bad rest good Hbad Hgood atoms _ []);
    [| by apply hold_files | apply lookup_insert_eq].
  by rewrite set_files_twice, files_set_files, insert_insert_eq.
Qed.

Lemma writeAtomsToPDB_bad_code_witness :
  writeAtomsToPDB "out.pdb" [1; 2]%positive false ex_bad_code =
    (Err TypeError,
     set_files (<["out.pdb" :=
                  concat ((fun a => atom_body a ++ [newline]) <$>
                          [ex_atom 1 " O  " "HOH" "A" 1])]>
                  (files ex_bad_code)) ex_bad_code).
Proof.
  apply (writeAtomsToPDB_bad_code ex_bad_code "out.pdb" [1; 2]%positive
           [ex_atom 1 " O  " "HOH" "A" 1] (ex_atom 2 " H1 " "HOH" "" 1) []).
  - repeat constructor.
  - repeat constructor.
  - intros (_ & H & _). discriminate H.
Defined.

Lemma py_slice_beyond {A : Type} (l : list A) (i j : nat) :
  (length l <= i)%nat -> (i <= j)%nat ->
  py_slice l (Z.of_nat i) (Z.of_nat j) = [].
Proof.
  intros Hl Hij. rewrite py_slice_nat by done.
  rewrite drop_ge by done. apply take_nil.
Qed.

Lemma parse_atom_tail (line : str) (a : atom) :
  parse_atom line = Ok a ->
  segID a = py_slice line 72 76 /\ element a = py_slice line 76 78 /\
  charge a = py_slice line 78 80.
Proof.
  unfold parse_atom, int_of, float_of, or_value_error.
  destruct (py_int (py_slice line 6 11)); simpl; [|congruence].
  destruct (py_int (py_slice line 22 26)); simpl; [|congruence].
  destruct (py_float (py_slice line 30 38)); simpl; [|congruence].
  destruct (py_float (py_slice line 38 46)); simpl; [|congruence].
  destruct (py_float (py_slice line 46 54)); simpl; [|congruence].
  destruct (negb (str_eqb (strip (py_slice line 54 60)) []));
    [destruct (py_float (py_slice line 54 60)); simpl; [|congruence]|];
    (destruct (negb (str_eqb (strip (py_slice line 60 66)) []));
     [destruct (py_float (py_slice line 60 66)); simpl; [|congruence]|]);
    simpl; unfold mret, result_ret; intros [= <-]; done.
Qed.

Lemma atom_line_length (a : atom) :
  representable a ->
  (length (element a) <= 2)%nat -> (length (charge a) <= 2)%nat ->
  length (atom_body a ++ [newline]) = 71%nat.
Proof.
  intros R He Hc. rewrite atom_line_concat.
  rewrite <- (firstn_all (atom_pieces a ++ [[newline]])).
  rewrite concat_take_length, (atom_line_widths a R).
  unfold fmt_s. rewrite !pad_left_length by done. reflexivity.
Qed.

Lemma parse_all_Forall2 (lines : list str) :
  forall atoms, parse_all lines = Ok atoms ->
    Forall2 (fun line a => parse_atom line = Ok a) lines atoms.
Proof.
  induction lines as [|line rest IH]; intros atoms H.
  - injection H as <-. constructor.
  - simpl in H. destruct (parse_atom line) as [a|e] eqn:Ha; [|done].
    simpl in H. destruct (parse_all rest) as [atoms'|e]; [|done].
    injection H as <-. constructor; [done | by apply IH].
Qed.

Lemma filter_atom_bodies (vals : list atom) :
  Forall representable vals ->
  filter (fun line => is_atom_line line = true)
         ((fun b => b ++ [newline]) <$> (atom_body <$> vals)) =
  (fun b => b ++ [newline]) <$> (atom_body <$> vals).
Proof.
  induction vals as [|a vals IH]; intros HR; [done|].
  apply Forall_cons in HR as [Ra HR]. rewrite !fmap_cons, filter_cons.
  destruct (parse_atom_body a Ra) as [Hatom _].
  rewrite decide_True by done. f_equal. by apply IH.
Qed.

(** The writer puts the element and the charge in columns 67-70, the
    reader takes segment, element and charge from columns 73-80: for
    records with an element and a charge of at most two characters, what
    is read back from the written file has all three empty. *)
Theorem pdb_round_trip_loses_element (w : world) (fname : string)
    (atoms : list loc) (vals : list atom) :
  hold w atoms vals ->
  Forall representable vals ->
  Forall (fun a => (length (element a) <= 2)%nat /\
                   (length (charge a) <= 2)%nat) vals ->
  exists w' atoms',
    writeAtomsToPDB fname atoms false w = (Ok tt, w') /\
    readAtomsFromPDB fname w' = (Ok atoms', w') /\
    length atoms' = length vals /\
    Forall (fun a' => segID a' = [] /\ element a' = [] /\ charge a' = []) atoms'.
Proof.
  intros Hh HR Hshort.
  set (lines := (fun b => b ++ [newline]) <$> (atom_body <$> vals)).
  exists (set_files (<[fname := concat lines]> (files w)) w).
  destruct (read_atoms_loop_bodies vals HR []) as (atoms' & Hrun & Hkeys).
  exists atoms'.
  assert (read_atoms (concat lines) = Ok atoms') as Hread.
  { unfold read_atoms, lines. rewrite readlines_concat; [done|].
    apply Forall_fmap. eapply Forall_impl; [exact HR|].
    intros a Ra. by apply atom_body_no_newline. }
  split; [|split; [|split]].
  - unfold writeAtomsToPDB. erewrite bind_ok by reflexivity.
    unfold open_w. erewrite bind_ok by reflexivity.
    erewrite write_atoms_loop_spec;
      [| by apply hold_files | exact HR | apply lookup_insert_eq].
    by rewrite set_files_twice, files_set_files, insert_insert_eq.
  - rewrite (readAtomsFromPDB_read_atoms fname (concat lines))
      by apply lookup_insert_eq.
    by rewrite Hread.
  - symmetry. by eapply Forall2_length.
  - rewrite read_atoms_loop_parse_all, filter_atom_bodies in Hrun by done.
    destruct (parse_all _) as [atoms''|e] eqn:Hall; [|done].
    injection Hrun as <-. apply parse_all_Forall2 in Hall.
    unfold lines in Hall. rewrite <- list_fmap_compose in Hall.
    apply Forall2_fmap_l in Hall.
    clear Hkeys Hread Hh.
    induction Hall as [|a a' vals' atoms1 Ha Hrest IH]; [constructor|].
    apply Forall_cons in HR as [Ra HR].
    apply Forall_cons in Hshort as [[He Hc] Hshort].
    constructor; [|by apply IH].
    unfold compose in Ha.
    destruct (parse_atom_tail _ _ Ha) as (-> & -> & ->).
    pose proof (atom_line_length a Ra He Hc) as Hlen.
    change 72 with (Z.of_nat 72). change 76 with (Z.of_nat 76).
    change 78 with (Z.of_nat 78). change 80 with (Z.of_nat 80).
    rewrite !py_slice_beyond by (rewrite ?Hlen; lia). done.
Qed.

Lemma pdb_round_trip_loses_element_witness :
  exists w' atoms',
    writeAtomsToPDB "out.pdb" [1; 2; 3]%positive false ex_dicts = (Ok tt, w') /\
    readAtomsFromPDB "out.pdb" w' = (Ok atoms', w') /\
    length atoms' = length ex_numbered /\
    Forall (fun a' => segID a' = [] /\ element a' = [] /\ charge a' = []) atoms'.
Proof.
  apply (pdb_round_trip_loses_element ex_dicts "out.pdb" [1; 2; 3]%positive
           ex_numbered).
  - repeat constructor.
  - repeat (apply Forall_cons; split; [|]); [.. | apply Forall_nil_2];
      (constructor; simpl;
       [ vm_compute; lia | column_text | column_text | column_text
       | column_text | vm_compute; lia | column_text
       | exact_decimal_at 1234 | exact_decimal_at (-5000) | exact_decimal_at 0
       | exact_decimal_at 100 | exact_decimal_at 0
       | repeat constructor; discriminate | repeat constructor; discriminate ]).
  - repeat (apply Forall_cons; split; [split; vm_compute; lia|]).
    apply Forall_nil_2.
Defined.

(** ** The coordinate-file codec *)

Lemma fmt_fixed_no_space (p : nat) (q : Q) :
  Forall (fun c => isspace c = false) (fmt_fixed p q).
Proof.
  unfold fmt_fixed.
  set (m := round_half_even _ _).
  assert (Forall (fun c => isspace c = false)
            (replicate (S p - length (digits m)) "0"%char ++ digits m)) as Hzs.
  { apply Forall_app; split.
    - by apply Forall_replicate.
    - eapply Forall_impl; [apply digits_all_digits, fmt_fixed_mantissa_nonneg|].
      intros c Hc. by apply isdigit_not_space. }
  apply Forall_app; split; [case_match; by repeat constructor|].
  apply Forall_app; split; [by apply Forall_take|].
  destruct p; [constructor|].
  constructor; [done | by apply Forall_drop].
Qed.

Lemma split_go_spaces (k : nat) (s : str) :
  split_go (replicate k " "%char ++ s) [] = split_go s [].
Proof. induction k as [|k IH]; [done|]. simpl. exact IH. Qed.

Lemma split_go_word (body t : str) :
  Forall (fun c => isspace c = false) body ->
  forall cur, split_go (body ++ t) cur = split_go t (rev body ++ cur).
Proof.
  intros Hb. induction Hb as [|c body Hc Hb IH]; intros cur; [done|].
  simpl. rewrite Hc, IH. by rewrite <- app_assoc.
Qed.

Lemma split_go_token (k : nat) (body t : str) :
  body <> [] ->
  Forall (fun c => isspace c = false) body ->
  word_end t ->
  split_go (replicate k " "%char ++ body ++ t) [] = body :: split_go t [].
Proof.
  intros Hne Hb Ht. rewrite split_go_spaces, split_go_word by done.
  rewrite app_nil_r.
  assert (rev body <> []) as Hr.
  { intros E. apply (f_equal (@rev ascii)) in E.
    rewrite rev_involutive in E. done. }
  destruct t as [|c t']; simpl.
  - destruct (rev body) eqn:E; [done|]. by rewrite <- E, rev_involutive.
  - simpl in Ht. rewrite Ht.
    destruct (rev body) eqn:E; [done|]. by rewrite <- E, rev_involutive.
Qed.

Lemma py_float_spaces (k : nat) (s : str) :
  py_float (replicate k " "%char ++ s) = py_float s.
Proof. unfold py_float, strip. by rewrite lstrip_spaces. Qed.

(** The text of a value that leaves at least one blank of its twelve
    columns: blanks, then a word that [float()] reads back. *)
Lemma fmt_f_token (v : pyfloat) :
  exact_decimal 11 7 v ->
  exists (k : nat) (body : str) (v' : pyfloat),
    fmt_f 12 7 v = replicate (S k) " "%char ++ body /\
    body <> [] /\ Forall (fun c => isspace c = false) body /\
    py_float body = Some v' /\ float_eq v v'.
Proof.
  intros Hv. destruct (py_float_fmt_f 11 6 v Hv) as (v' & Hpf & Heq & _).
  destruct Hv as (q & k & -> & Hq & Hlen).
  exists (11 - length (fmt_fixed 7 q))%nat, (fmt_fixed 7 q), v'.
  split; [|split; [|split; [|split]]].
  - unfold fmt_f, pad_left. f_equal.
    replace (12 - length (fmt_fixed 7 q))%nat
      with (S (11 - length (fmt_fixed 7 q))) by lia. done.
  - apply fmt_fixed_nonempty.
  - apply fmt_fixed_no_space.
  - unfold fmt_f, pad_left in Hpf. by rewrite py_float_spaces in Hpf.
  - done.
Qed.

Lemma floats_of_row (vs : list pyfloat) (tail : str) :
  Forall (exact_decimal 11 7) vs ->
  tail = [] \/ tail = [newline] ->
  exists vs',
    floats_of (split (concat (fmt_f 12 7 <$> vs) ++ tail)) = Ok vs' /\
    Forall2 float_eq vs vs'.
Proof.
  intros Hvs Htail. induction Hvs as [|v vs Hv Hvs IH].
  - exists []. split; [|constructor]. by destruct Htail as [-> | ->].
  - destruct IH as (vs' & Hrest & Hall).
    destruct (fmt_f_token v Hv) as (k & body & v' & Hfmt & Hne & Hns & Hpf & Heq).
    exists (v' :: vs'). split; [|by constructor].
    rewrite fmap_cons, concat_cons, Hfmt, <- !app_assoc.
    unfold split. rewrite split_go_token; [| done | done |].
    + simpl. unfold float_of. rewrite Hpf. simpl.
      unfold split in Hrest. by rewrite Hrest.
    + destruct vs as [|v2 vs2].
      * by destruct Htail as [-> | ->].
      * apply Forall_cons in Hvs as [Hv2 _].
        destruct (fmt_f_token v2 Hv2) as (k2 & b2 & _ & Hf2 & _).
        rewrite fmap_cons, concat_cons, Hf2. done.
Qed.

Lemma readlines_no_newline (s : str) :
  Forall (fun c => c <> newline) s ->
  readlines s = match s with [] => [] | _ => [s] end.
Proof.
  induction s as [|c s IH]; intros H; [done|].
  apply Forall_cons in H as [Hc Hs]. simpl.
  destruct (ascii_eqb c newline) eqn:E; [by apply Ascii.eqb_eq in E|].
  rewrite (IH Hs). by destruct s.
Qed.

Lemma row_no_newline (vs : list pyfloat) :
  Forall (fun c => c <> newline) (concat (fmt_f 12 7 <$> vs)).
Proof.
  apply Forall_concat, Forall_fmap, Forall_forall. intros v _.
  apply fmt_f_no_newline.
Qed.

(** Reading the coordinate lines that the writer produced. *)
Lemma read_coordinate_text (cs : list pyfloat) :
  Forall (exact_decimal 11 7) cs ->
  forall (n : Z) (vs acc : list pyfloat),
    Forall (exact_decimal 11 7) vs ->
    exists out,
      crd_coordinates
        (readlines (concat (fmt_f 12 7 <$> vs) ++ coordinate_text cs n)) acc
        = Ok (acc ++ out) /\
      Forall2 float_eq (vs ++ cs) out.
Proof.
  intros Hcs. induction Hcs as [|c cs Hc Hcs IH]; intros n vs acc Hvs.
  - simpl coordinate_text. rewrite !app_nil_r.
    rewrite readlines_no_newline by apply row_no_newline.
    destruct (floats_of_row vs [] Hvs (or_introl eq_refl)) as (vs' & Hrow & Hall).
    rewrite app_nil_r in Hrow.
    destruct (concat (fmt_f 12 7 <$> vs)) eqn:E.
    + exists []. rewrite app_nil_r. split; [done|].
      injection Hrow as <-. done.
    + exists vs'. simpl. rewrite Hrow. simpl. done.
  - assert (Forall (exact_decimal 11 7) (vs ++ [c])) as Hvs'
      by (apply Forall_app; split; [done | by constructor]).
    assert (concat (fmt_f 12 7 <$> vs) ++ fmt_f 12 7 c =
            concat (fmt_f 12 7 <$> (vs ++ [c]))) as Hrow.
    { rewrite fmap_app, concat_app. simpl. by rewrite app_nil_r. }
    simpl coordinate_text. rewrite app_assoc, Hrow.
    destruct (n + 1 =? 6).
    + rewrite readlines_line by apply row_no_newline.
      destruct (floats_of_row (vs ++ [c]) [newline] Hvs' (or_intror eq_refl))
        as (vs' & Hparse & Hall).
      destruct (IH 0 [] (acc ++ vs') (Forall_nil_2 _)) as (out & Hrun & Hall2).
      exists (vs' ++ out). simpl crd_coordinates. rewrite Hparse. simpl.
      simpl in Hrun. rewrite Hrun, <- app_assoc. split; [done|].
      change (vs ++ c :: cs) with (vs ++ [c] ++ cs).
      rewrite (app_assoc vs [c] cs). by apply Forall2_app.
    + destruct (IH (n + 1) (vs ++ [c]) acc Hvs') as (out & Hrun & Hall).
      exists out. split; [done|]. by rewrite <- app_assoc in Hall.
Qed.

Lemma fmt_int_no_space (n : Z) : Forall (fun c => isspace c = false) (fmt_int n).
Proof.
  unfold fmt_int. destruct (Z.ltb_spec n 0).
  - constructor; [done|].
    eapply Forall_impl; [apply digits_all_digits; lia|].
    intros c. apply isdigit_not_space.
  - eapply Forall_impl; [by apply digits_all_digits|].
    intros c. apply isdigit_not_space.
Qed.

Lemma fmt_int_nonempty (n : Z) : fmt_int n <> [].
Proof.
  unfold fmt_int. destruct (Z.ltb_spec n 0); [done|]. by apply digits_nonempty.
Qed.

Lemma split_count_line (n : Z) : split (fmt_d 6 n ++ [newline]) = [fmt_int n].
Proof.
  unfold split, fmt_d, pad_left. rewrite <- app_assoc.
  rewrite split_go_token;
    [done | apply fmt_int_nonempty | apply fmt_int_no_space | done].
Qed.

Lemma rstrip_plain_title (title : str) :
  plain_title title ->
  rstrip_chars (lit " " ++ [newline]) (title ++ [newline]) = title.
Proof.
  intros [Hnl Hlast]. unfold rstrip_chars. rewrite rev_app_distr. simpl.
  destruct (rev title) as [|c r] eqn:E.
  - apply (f_equal (@rev ascii)) in E. rewrite rev_involutive in E.
    by rewrite E.
  - assert (title = rev r ++ [c]) as Ht.
    { apply (f_equal (@rev ascii)) in E. by rewrite rev_involutive in E. }
    simpl. rewrite bool_decide_eq_false_2.
    + simpl. by rewrite Ht.
    + intros Hin. rewrite Ht in Hlast, Hnl.
      rewrite last_snoc in Hlast.
      apply Forall_app in Hnl as [_ Hnl]. apply Forall_cons in Hnl as [Hc _].
      apply elem_of_cons in Hin as [-> | Hin]; [done|].
      apply elem_of_cons in Hin as [-> | Hin]; [done|].
      by apply elem_of_nil in Hin.
Qed.

(** The written file parsed: the title, the atom count and all the
    values. *)
Lemma crd_parse_written (title : str) (n : Z) (all : list pyfloat) :
  plain_title title ->
  Forall (exact_decimal 11 7) all ->
  exists all',
    crd_parse (crd_file_text title n all) = Ok (title, n, all') /\
    Forall2 float_eq all all'.
Proof.
  intros Ht Hall. unfold crd_parse, crd_file_text.
  change (title ++ [newline] ++ fmt_d 6 n ++ [newline] ++ coordinate_text all 0)
    with (title ++ newline :: (fmt_d 6 n ++ newline :: coordinate_text all 0)).
  rewrite readlines_line by apply Ht.
  rewrite readlines_line by (apply pad_left_no_newline, fmt_int_no_newline).
  rewrite split_count_line, rstrip_plain_title by done.
  unfold int_of. rewrite py_int_fmt_int. simpl.
  destruct (read_coordinate_text all Hall 0 [] [] (Forall_nil_2 _))
    as (all' & Hrun & Hall2).
  simpl in Hrun. rewrite Hrun. simpl. by exists all'.
Qed.

Lemma py_slice_parts {A : Type} (l1 l2 l3 : list A) (n : Z) :
  len l1 = 3 * n -> length l2 = 3%nat -> length l3 = 3%nat ->
  py_slice (l1 ++ l2 ++ l3) 0 (3 * n) = l1 /\
  py_slice (l1 ++ l2 ++ l3) (3 * n) (3 * n + 3) = l2 /\
  py_slice (l1 ++ l2 ++ l3) (3 * n + 3) (3 * n + 6) = l3.
Proof.
  intros H1 H2 H3. unfold len in H1.
  replace (3 * n + 6) with (Z.of_nat (length l1 + 6)) by lia.
  replace (3 * n + 3) with (Z.of_nat (length l1 + 3)) by lia.
  replace (3 * n) with (Z.of_nat (length l1)) by lia.
  change 0 with (Z.of_nat 0).
  rewrite !py_slice_nat by lia. split; [|split].
  - rewrite drop_0, Nat.sub_0_r. by rewrite take_app_length.
  - rewrite drop_app_length.
    replace (length l1 + 3 - length l1)%nat with (length l2) by lia.
    by rewrite take_app_length.
  - rewrite drop_app_add, drop_app_length' by done.
    replace (length l1 + 6 - (length l1 + 3))%nat with (length l3) by lia.
    by rewrite firstn_all.
Qed.

(** Round trip of the coordinate file: positions (a multiple of 3), box
    dimensions and box angles whose texts leave a blank in their twelve
    columns (decimals with 7 places, at most 11 characters), written by
    [writeAmberCrd] under a title without newline or final blank, are
    read back by [readAmberCrd] with the same title, the atom count, and
    equal positions, dimensions and angles. *)
Theorem crd_round_trip (w : world) (fname : string) (c b a : loc)
    (cs bs angles : list pyfloat) (title : str) :
  lists w !! c = Some cs ->
  lists w !! b = Some bs ->
  lists w !! a = Some angles ->
  b <> c -> a <> c ->
  len cs mod 3 = 0 ->
  length bs = 3%nat -> length angles = 3%nat ->
  plain_title title ->
  Forall (exact_decimal 11 7) (cs ++ bs ++ angles) ->
  exists w' cs' bs' angles',
    writeAmberCrd fname c title (Some b) (Some a) w = (Ok tt, w') /\
    readAmberCrd fname w' = (Ok (title, len cs / 3, cs', bs', angles'), w') /\
    Forall2 float_eq cs cs' /\ Forall2 float_eq bs bs' /\
    Forall2 float_eq angles angles'.
Proof.
  intros Hc Hb Ha Hbc Hac Hmod Hlb Hla Ht Hall.
  assert (box_ok w c (Some b)) as Hbd
    by (intros b' [= <-]; split; [done | by eexists]).
  assert (box_ok w c (Some a)) as Hba
    by (intros a' [= <-]; split; [done | by eexists]).
  pose proof (writeAmberCrd_run w fname c cs title (Some b) (Some a)
                Hc Hmod Hbd Hba) as Hrun.
  simpl box_values in Hrun. rewrite Hb, Ha in Hrun. simpl default in Hrun.
  set (n := len cs / 3) in *.
  assert (len cs = 3 * n) as Hn.
  { unfold n. pose proof (Z.div_mod (len cs) 3 ltac:(lia)). lia. }
  destruct (crd_parse_written title n _ Ht Hall) as (all' & Hparse & Hall2).
  apply Forall2_app_inv_l in Hall2 as (cs' & rest' & Hcs & Hrest & ->).
  apply Forall2_app_inv_l in Hrest as (bs' & angles' & Hbs & Hangles & ->).
  pose proof (Forall2_length _ _ _ Hcs) as Lc.
  pose proof (Forall2_length _ _ _ Hbs) as Lb.
  pose proof (Forall2_length _ _ _ Hangles) as La.
  eexists _, cs', bs', angles'. split; [exact Hrun|].
  split; [|done].
  rewrite (readAmberCrd_read_crd fname
             (crd_file_text title n (cs ++ bs ++ angles)))
    by apply lookup_insert_eq.
  f_equal.
  rewrite (read_crd_returns _ title n (cs' ++ bs' ++ angles') Hparse).
  - destruct (py_slice_parts cs' bs' angles' n) as (-> & -> & ->);
      [unfold len in *; lia | lia | lia | done].
  - rewrite !len_app. unfold len in *. lia.
Qed.

Lemma crd_round_trip_witness :
  exists w' cs' bs' angles',
    writeAmberCrd "out.crd" 1%positive (lit "title") (Some 2%positive)
                  (Some 3%positive) ex_lists = (Ok tt, w') /\
    readAmberCrd "out.crd" w' =
      (Ok (lit "title", len [f1; f2; f3] / 3, cs', bs', angles'), w') /\
    Forall2 float_eq [f1; f2; f3] cs' /\
    Forall2 float_eq [PFin 10; PFin 20; PFin 30] bs' /\
    Forall2 float_eq [PFin 90; PFin 90; PFin 90] angles'.
Proof.
  apply (crd_round_trip ex_lists "out.crd" 1%positive 2%positive 3%positive
           [f1; f2; f3] [PFin 10; PFin 20; PFin 30]
           [PFin 90; PFin 90; PFin 90] (lit "title")).
  - reflexivity.
  - reflexivity.
  - reflexivity.
  - discriminate.
  - discriminate.
  - reflexivity.
  - reflexivity.
  - reflexivity.
  - split; [repeat constructor; discriminate | by vm_compute].
  - repeat (apply Forall_cons; split; [|]); [.. | apply Forall_nil_2].
    + exact_decimal_at 10000000.
    + exact_decimal_at 20000000.
    + exact_decimal_at 30000000.
    + exact_decimal_at 100000000.
    + exact_decimal_at 200000000.
    + exact_decimal_at 300000000.
    + exact_decimal_at 900000000.
    + exact_decimal_at 900000000.
    + exact_decimal_at 900000000.
Defined.

(** A value whose text fills its twelve columns runs into the value
    before it: the file written for the coordinates 1.0, 1000.0, 3.0
    cannot be read back. *)
Example crd_wide_value_unreadable :
  let w' := (writeAmberCrd "out.crd" 1%positive (lit "title") (Some 2%positive)
                           (Some 3%positive) ex_lists_wide).2 in
  files w' !! "out.crd" = Some (lit
"title
     1
   1.00000001000.0000000   3.0000000  10.0000000  20.0000000  30.0000000
  90.0000000  90.0000000  90.0000000") /\
  (readAmberCrd "out.crd" w').1 = Err ValueError.
Proof. by vm_compute. Qed.

(** When [readAmberCrd] returns -- the file holds [3*natoms + 6] values,
    [natoms] not negative -- the three lists it returns are the values of
    the file in order: [3*natoms] positions, 3 box dimensions and 3 box
    angles. *)
Theorem readAmberCrd_parts (w : world) (fname : string) (text title : str)
    (n : Z) (flat : list pyfloat) :
  files w !! fname = Some text ->
  crd_parse text = Ok (title, n, flat) ->
  0 <= n ->
  len flat = 3 * n + 6 ->
  exists cs bd ba,
    readAmberCrd fname w = (Ok (title, n, cs, bd, ba), w) /\
    flat = cs ++ bd ++ ba /\
    len cs = 3 * n /\ length bd = 3%nat /\ length ba = 3%nat.
Proof.
  intros Hf Hp Hn Hlen.
  set (k := Z.to_nat (3 * n)).
  assert (length flat = (k + 6)%nat) as Hl by (unfold len in Hlen; lia).
  set (cs := take k flat). set (r := drop k flat).
  set (bd := take 3 r). set (ba := drop 3 r).
  assert (flat = cs ++ bd ++ ba) as Hflat.
  { unfold cs, bd, ba, r. by rewrite !take_drop. }
  assert (length cs = k) as Lc by (unfold cs; rewrite length_take; lia).
  assert (length bd = 3%nat) as Lb
    by (unfold bd, r; rewrite length_take, length_drop; lia).
  assert (length ba = 3%nat) as La
    by (unfold ba, r; rewrite !length_drop; lia).
  exists cs, bd, ba. split; [|split; [done|]].
  - rewrite (readAmberCrd_read_crd _ _ _ Hf). f_equal.
    rewrite (read_crd_returns _ _ _ _ Hp Hlen), Hflat.
    destruct (py_slice_parts cs bd ba n) as (-> & -> & ->);
      [unfold len; lia | done | done | done].
  - unfold len. split; [lia | done].
Qed.

Lemma readAmberCrd_parts_witness :
  exists cs bd ba,
    readAmberCrd "a9.crd" ex_crd_files = (Ok (lit "title", 1, cs, bd, ba),
                                          ex_crd_files) /\
    [f1; f2; f3; PFin 10; PFin 20; PFin 30; PFin 90; PFin 90; PFin 90] =
      cs ++ bd ++ ba /\
    len cs = 3 * 1 /\ length bd = 3%nat /\ length ba = 3%nat.
Proof.
  apply (readAmberCrd_parts ex_crd_files "a9.crd" ex_crd_9);
    [reflexivity | reflexivity | lia | reflexivity].
Defined.

(** Broken headers: a file with fewer than two lines, or with a blank
    second line, makes [readAmberCrd] fail with [IndexError]; a second
    line whose first word is no integer makes it fail with [ValueError]. *)
Theorem readAmberCrd_header (w : world) (fname : string) (text : str) :
  files w !! fname = Some text ->
  ((length (readlines text) < 2)%nat ->
   readAmberCrd fname w = (Err IndexError, w)) /\
  (forall line0 line1 rest,
     readlines text = line0 :: line1 :: rest ->
     (split line1 = [] -> readAmberCrd fname w = (Err IndexError, w)) /\
     (forall tok toks, split line1 = tok :: toks -> py_int tok = None ->
        readAmberCrd fname w = (Err ValueError, w))).
Proof.
  intros Hf. rewrite (readAmberCrd_read_crd _ _ _ Hf).
  unfold read_crd, crd_body, crd_parse. split.
  - intros Hlen. destruct (readlines text) as [|l0 [|l1 rest]]; try done.
    simpl in Hlen. lia.
  - intros line0 line1 rest ->. split.
    + by intros ->.
    + intros tok toks -> Htok. unfold int_of. by rewrite Htok.
Qed.

Lemma readAmberCrd_header_witness :
  readAmberCrd "empty.crd" ex_crd_headers = (Err IndexError, ex_crd_headers) /\
  readAmberCrd "title.crd" ex_crd_headers = (Err IndexError, ex_crd_headers) /\
  readAmberCrd "blank.crd" ex_crd_headers = (Err IndexError, ex_crd_headers) /\
  readAmberCrd "count.crd" ex_crd_headers = (Err ValueError, ex_crd_headers).
Proof.
  split; [|split; [|split]].
  - apply (proj1 (readAmberCrd_header ex_crd_headers "empty.crd" [] eq_refl)).
    simpl. lia.
  - apply (proj1 (readAmberCrd_header ex_crd_headers "title.crd" _ eq_refl)).
    vm_compute. lia.
  - eapply (proj1 (proj2 (readAmberCrd_header ex_crd_headers "blank.crd" _
                            eq_refl) _ _ _ eq_refl)).
    reflexivity.
  - eapply (proj2 (proj2 (readAmberCrd_header ex_crd_headers "count.crd" _
                            eq_refl) _ _ _ eq_refl));
      reflexivity.
Defined.

(** What a call of [writeAmberCrd] that passes the length check leaves
    alone: the atom dictionaries, the log of commands, every file but the
    one it writes, and every list object but the coordinate list -- the
    box lists in particular. *)
Theorem writeAmberCrd_frame (w : world) (fname : string) (c : loc)
    (cs : list pyfloat) (title : str) (bd ba : option loc) :
  lists w !! c = Some cs ->
  len cs mod 3 = 0 ->
  box_ok w c bd ->
  box_ok w c ba ->
  let w' := (writeAmberCrd fname c title bd ba w).2 in
  dicts w' = dicts w /\ calls w' = calls w /\
  (forall g, g <> fname -> files w' !! g = files w !! g) /\
  (forall l, l <> c -> lists w' !! l = lists w !! l).
Proof.
  intros Hc Hmod Hbd Hba. cbv zeta.
  rewrite (writeAmberCrd_run w fname c cs title bd ba Hc Hmod Hbd Hba).
  simpl. split; [done|]. split; [done|]. split.
  - intros g Hg. by rewrite lookup_insert_ne.
  - intros l Hl. by rewrite lookup_insert_ne.
Qed.

Lemma writeAmberCrd_frame_witness :
  let w' := (writeAmberCrd "out.crd" 1%positive (lit "title") (Some 2%positive)
                           (Some 3%positive) ex_lists).2 in
  dicts w' = dicts ex_lists /\ calls w' = calls ex_lists /\
  (forall g, g <> "out.crd" -> files w' !! g = files ex_lists !! g) /\
  (forall l, l <> 1%positive -> lists w' !! l = lists ex_lists !! l).
Proof.
  apply (writeAmberCrd_frame ex_lists "out.crd" 1%positive [f1; f2; f3]).
  - reflexivity.
  - reflexivity.
  - intros b [= <-]. split; [discriminate | eexists; reflexivity].
  - intros b [= <-]. split; [discriminate | eexists; reflexivity].
Defined.



(** The text [writeAmberCrd] writes, in closed form: the title and a
    newline, the atom count (a third of the number of positions) in width
    6 and a newline, then every value -- positions, box dimensions, box
    angles -- in the format [%12.7f], with a newline after the 6th, 12th,
    18th, ... value and nowhere else. *)
Theorem writeAmberCrd_text (w : world) (fname : string) (c : loc)
    (cs : list pyfloat) (title : str) (bd ba : option loc) :
  lists w !! c = Some cs ->
  len cs mod 3 = 0 ->
  box_ok w c bd ->
  box_ok w c ba ->
  files (writeAmberCrd fname c title bd ba w).2 !! fname =
    Some (title ++ [newline] ++ fmt_d 6 (len cs / 3) ++ [newline] ++
          concat (imap (fun i v =>
                          fmt_f 12 7 v ++
                          (if (Z.of_nat i + 1) mod 6 =? 0 then [newline] else []))
                       (cs ++ box_values w bd ++ box_values w ba))).
Proof.
  intros Hc Hmod Hbd Hba.
  rewrite (writeAmberCrd_run w fname c cs title bd ba Hc Hmod Hbd Hba).
  simpl. rewrite lookup_insert_eq. unfold crd_file_text.
  by rewrite coordinate_text_wrap by lia.
Qed.

Lemma writeAmberCrd_text_witness :
  files (writeAmberCrd "out.crd" 1%positive (lit "title") (Some 2%positive)
                       None ex_lists).2 !! "out.crd" =
    Some (lit "title" ++ [newline] ++ fmt_d 6 (len [f1; f2; f3] / 3) ++
          [newline] ++
          concat (imap (fun i v =>
                          fmt_f 12 7 v ++
                          (if (Z.of_nat i + 1) mod 6 =? 0 then [newline] else []))
                       ([f1; f2; f3] ++ box_values ex_lists (Some 2%positive) ++
                        box_values ex_lists None))).
Proof.
  apply (writeAmberCrd_text ex_lists "out.crd" 1%positive [f1; f2; f3]).
  - reflexivity.
  - reflexivity.
  - intros b [= <-]. split; [discriminate | eexists; reflexivity].
  - intros b H. discriminate H.
Defined.

(** ** The workflows *)

(** The two ways [gromacs_energies] returns.  With [grompp_check] set it
    stops after a successful grompp: it returns [None] and neither mdrun
    nor g_energy is run.  Otherwise, when the three tools exit with
    status 0, it has run exactly grompp, mdrun and g_energy, in this
    order, and goes on to read the file energy.xvg of the directory of the
    topology file -- the file the g_energy command was told to write. *)
Theorem gromacs_energies_returns
    (run : command -> gmap string str -> Z * str * gmap string str)
    (energies : Type) (read_energies : string -> M energies)
    (top gro mdp gropath grosuff : string) (w w1 : world) :
  let stdout := os_path_join (os_path_dirname top) "gromacs_stdout.txt" in
  let stderr := os_path_join (os_path_dirname top) "gromacs_stderr.txt" in
  let ener_xvg := os_path_join (os_path_dirname top) "energy.xvg" in
  let call c := subprocess_call run c stdout stderr in
  call (grompp_command top gro mdp gropath grosuff) w = (Ok 0, w1) ->
  (gromacs_energies run energies read_energies top gro mdp gropath grosuff
                    true w = (Ok None, w1) /\
   calls w1 = calls w ++ [grompp_command top gro mdp gropath grosuff]) /\
  (forall w2 w3,
     call (mdrun_command top gropath grosuff) w1 = (Ok 0, w2) ->
     call (genergy_command top gropath grosuff) w2 = (Ok 0, w3) ->
     gromacs_energies run energies read_energies top gro mdp gropath grosuff
                      false w =
       (e_out ← read_energies ener_xvg; mret (Some (e_out, ener_xvg))) w3 /\
     calls w3 = calls w ++ [grompp_command top gro mdp gropath grosuff;
                            mdrun_command top gropath grosuff;
                            genergy_command top gropath grosuff] /\
     exists before,
       genergy_command top gropath grosuff =
         Shell (before ++ lit " -o " ++ lit ener_xvg ++ lit " -dp")).
Proof.
  cbv zeta. intros H1.
  pose proof (subprocess_call_calls _ _ _ _ _ _ _ H1) as C1.
  split.
  - split; [|done]. unfold gromacs_energies.
    by erewrite bind_ok by exact H1.
  - intros w2 w3 H2 H3.
    pose proof (subprocess_call_calls _ _ _ _ _ _ _ H2) as C2.
    pose proof (subprocess_call_calls _ _ _ _ _ _ _ H3) as C3.
    split; [|split].
    + unfold gromacs_energies.
      erewrite bind_ok by exact H1. change (negb (0 =? 0)) with false. cbv iota.
      erewrite bind_ok by exact H2. change (negb (0 =? 0)) with false. cbv iota.
      by erewrite bind_ok by exact H3.
    + by rewrite C3, C2, C1, <- !app_assoc.
    + unfold genergy_command. eexists. f_equal.
      rewrite !app_assoc. reflexivity.
Qed.

Lemma gromacs_energies_returns_witness :
  (gromacs_energies ex_run_ok unit (fun _ => mret tt)
                    "run/system.top" "run/system.gro" "run/grompp.mdp"
                    "" "_d" true ex_resolvate_world).1 = Ok None.
Proof.
  destruct (subprocess_call_total ex_run_ok
              (grompp_command "run/system.top" "run/system.gro"
                              "run/grompp.mdp" "" "_d")
              "run/gromacs_stdout.txt" "run/gromacs_stderr.txt"
              ex_resolvate_world) as (e1 & w1 & H1).
  assert (e1 = 0) as -> by (vm_compute in H1; congruence).
  destruct (gromacs_energies_returns ex_run_ok unit (fun _ => mret tt)
              "run/system.top" "run/system.gro" "run/grompp.mdp" "" "_d"
              ex_resolvate_world w1 H1) as [[-> _] _].
  reflexivity.
Defined.

Lemma commands_getoutput_total
    (run : command -> gmap string str -> Z * str * gmap string str)
    (cmd : str) (w : world) :
  exists text,
    commands_getoutput run cmd w = (Ok text, (commands_getoutput run cmd w).2).
Proof.
  unfold commands_getoutput, commands_getstatusoutput, run_command,
    mbind, M_bind.
  destruct (run (Shell cmd) (files w)) as [[s t] fs]. simpl. by eexists.
Qed.

Lemma filter_none {A : Type} (P : A -> Prop) `{!forall x, Decision (P x)}
    (l : list A) :
  (forall x, x ∈ l -> ~ P x) -> filter P l = [].
Proof.
  induction l as [|x l IH]; intros Hall; [done|].
  rewrite filter_cons, decide_False by (apply Hall, list_elem_of_here).
  apply IH. intros y Hy. by apply Hall, list_elem_of_further.
Qed.

(** The script needs a water residue in the reference structure: when no
    atom read from it has the residue number that follows the residues of
    the source, the script stops with [IndexError] (from the renumbering
    of an empty list) right after the [date] command -- before any
    temporary file is written and before Packmol is run. *)
Theorem resolvate_no_water
    (run : command -> gmap string str -> Z * str * gmap string str)
    (reference_pdb reference_crd source_pdb output_crd tmpdir : string)
    (w : world) (reference_sequence source_sequence : list str)
    (title : str) (natoms : Z) (coordinates box_angles : list pyfloat)
    (box_x box_y box_z : pyfloat) (atoms : list atom) :
  getPresentSequence reference_pdb (lit " ") w = (Ok reference_sequence, w) ->
  getPresentSequence source_pdb (lit " ") w = (Ok source_sequence, w) ->
  readAmberCrd reference_crd w =
    (Ok (title, natoms, coordinates, [box_x; box_y; box_z], box_angles), w) ->
  let w1 := (commands_getoutput run (lit "date") w).2 in
  readAtomsFromPDB reference_pdb w1 = (Ok atoms, w1) ->
  (forall a, a ∈ atoms -> resSeq a <> len source_sequence + 1) ->
  resolvate run reference_pdb reference_crd source_pdb output_crd tmpdir w =
    (Err IndexError, w1) /\
  calls w1 = calls w ++ [Shell (lit "date")].
Proof.
  intros Href Hsrc Hcrd w1 Hatoms Hnone. split.
  - unfold resolvate.
    erewrite bind_ok by exact Href.
    erewrite bind_ok by exact Hsrc.
    erewrite bind_ok by exact Hcrd.
    destruct (commands_getoutput_total run (lit "date") w) as [date Hdate].
    fold w1 in Hdate.
    erewrite bind_ok by exact Hdate.
    erewrite bind_ok by exact Hatoms.
    rewrite (filter_none _ atoms) by exact Hnone.
    reflexivity.
  - unfold w1, commands_getoutput, commands_getstatusoutput, run_command,
      mbind, M_bind.
    by destruct (run (Shell (lit "date")) (files w)) as [[s t] fs].
Qed.

Lemma resolvate_no_water_witness :
  resolvate ex_run "ref.pdb" "ref.crd" "src.pdb" "out.crd" "/tmp/x"
            ex_no_water_world =
    (Err IndexError, (commands_getoutput ex_run (lit "date") ex_no_water_world).2) /\
  calls (commands_getoutput ex_run (lit "date") ex_no_water_world).2 =
    calls ex_no_water_world ++ [Shell (lit "date")].
Proof.
  eapply (resolvate_no_water ex_run "ref.pdb" "ref.crd" "src.pdb" "out.crd"
            "/tmp/x" ex_no_water_world).
  - by vm_compute.
  - by vm_compute.
  - by vm_compute.
  - by vm_compute.
  - intros a Ha. vm_compute in Ha.
    apply list_elem_of_In in Ha. destruct Ha as [<- | []]. by vm_compute.
Defined.
